(** * RFID attendance terminal: a shallow embedding of [server.js]

    The development follows the structure of the server:

    - [Js]      the string primitives the serial handler relies on
                ([startsWith], [split], [trim]) and the plain-object lookup
                used by [getTodayBranchCounts];
    - [Db]      the tables of the [library_system] database and the SQL
                statements the server issues, as functions on lists of rows;
    - [Rt]      the runtime: a state-and-exception monad over a world made
                of the database, a fault oracle for the driver and a
                chronological trace of what the process did;
    - [Scan]    [handleCardScan], [getTodayBranchCounts] and the scheduled
                [autoLogoutCurrentDay];
    - [Serial]  the [parser.on('data')] callback with the duplicate filter
                ([scannedRecently] and its timers);
    - [Web]     the [isAuthenticated] middleware, the route table and the
                [POST /edit-rfid/update] handler.

    [Sample] is a small installation the theorems are exercised on.

    Modelling conventions.  Strings are [string]; a code unit is an [ascii].
    SQL string comparison is exact equality (a binary collation) and
    [ORDER BY] is the code-unit order [String.le].  [NULL] is [None].
    A statement that throws has no effect on the database (autocommit).
    An [async] function runs from entry to return without another handler
    in between; the clock readings it makes are parameters. *)

From Stdlib Require Import String Ascii List Bool Arith Lia ZArith.
From stdpp Require Import base option list gmap strings sorting pretty.

Open Scope string_scope.
Open Scope list_scope.

(* ===================================================================== *)
(** ** JavaScript primitives                                              *)
(* ===================================================================== *)

Module Js.

(** [String.prototype.startsWith]: [line.startsWith(p)]. *)
Definition startsWith (line p : string) : bool := String.prefix p line.

(** [String.prototype.split] with a one-code-unit separator.  The result
    is never empty: [''.split(':')] is [['']]. *)
Fixpoint split (sep : ascii) (s : string) : list string :=
  match s with
  | EmptyString => [EmptyString]
  | String c r =>
      if Ascii.eqb c sep then EmptyString :: split sep r
      else match split sep r with
           | p :: ps => String c p :: ps
           | [] => [String c EmptyString]
           end
  end.

(** A string is the sequence of bytes of a text in UTF-8, the encoding of
    the serial parser and of the connection to the database; the texts are
    taken to be well formed.  A byte below 128 is the character itself.

    ECMAScript [WhiteSpace] and [LineTerminator], by their encodings.
    One byte: TAB, LF, VT, FF, CR and SP. *)
Definition is_white_space (a : ascii) : bool :=
  let n := nat_of_ascii a in
  ((9 <=? n)%nat && (n <=? 13)%nat) || (n =? 32)%nat.

(** Two bytes: U+00A0 ([C2 A0]). *)
Definition is_white_space2 (a b : ascii) : bool :=
  (nat_of_ascii a =? 194)%nat && (nat_of_ascii b =? 160)%nat.

(** Three bytes: U+1680 ([E1 9A 80]), U+2000 to U+200A ([E2 80 80] to
    [E2 80 8A]), U+2028 and U+2029 ([E2 80 A8], [E2 80 A9]), U+202F
    ([E2 80 AF]), U+205F ([E2 81 9F]), U+3000 ([E3 80 80]) and U+FEFF
    ([EF BB BF]). *)
Definition is_white_space3 (a b c : ascii) : bool :=
  let x := nat_of_ascii a in
  let y := nat_of_ascii b in
  let z := nat_of_ascii c in
  ((x =? 225) && (y =? 154) && (z =? 128))%nat
  || ((x =? 226) && (y =? 128)
      && (((128 <=? z) && (z <=? 138)) || (z =? 168) || (z =? 169)
          || (z =? 175)))%nat
  || ((x =? 226) && (y =? 129) && (z =? 159))%nat
  || ((x =? 227) && (y =? 128) && (z =? 128))%nat
  || ((x =? 239) && (y =? 187) && (z =? 191))%nat.

(** The string without the white space it starts with.  With [back] the
    string is read from its end, the bytes of a character last to first. *)
Fixpoint skip_white_space (back : bool) (s : string) : string :=
  match s with
  | EmptyString => EmptyString
  | String a r =>
      if is_white_space a then skip_white_space back r else
      match r with
      | String b r1 =>
          if (if back then is_white_space2 b a else is_white_space2 a b)
          then skip_white_space back r1 else
          match r1 with
          | String c r2 =>
              if (if back then is_white_space3 c b a else is_white_space3 a b c)
              then skip_white_space back r2 else s
          | EmptyString => s
          end
      | EmptyString => s
      end
  end.

Definition trimStart (s : string) : string := skip_white_space false s.

Definition trimEnd (s : string) : string :=
  String.rev (skip_white_space true (String.rev s)).

(** [String.prototype.trim]. *)
Definition trim (s : string) : string := trimEnd (trimStart s).

(** ASCII case folding, as the [i] flag of a route's regular expression. *)
Definition lower (c : ascii) : ascii :=
  let n := nat_of_ascii c in
  if (65 <=? n)%nat && (n <=? 90)%nat then ascii_of_nat (n + 32) else c.

Fixpoint toLowerCase (s : string) : string :=
  match s with
  | EmptyString => EmptyString
  | String c r => String (lower c) (toLowerCase r)
  end.

(** Truthiness of a string value: only [''] is falsy. *)
Definition truthy (s : string) : bool :=
  match s with EmptyString => false | _ => true end.

(** Property names every object literal [{}] inherits from
    [Object.prototype].  Reading one of them on an object that has no own
    property of that name yields the inherited value, which is truthy
    (a function, or the prototype object itself for [__proto__]). *)
Definition Object_prototype_keys : list string :=
  [ "constructor"; "__proto__"; "hasOwnProperty"; "isPrototypeOf";
    "propertyIsEnumerable"; "toLocaleString"; "toString"; "valueOf";
    "__defineGetter__"; "__defineSetter__";
    "__lookupGetter__"; "__lookupSetter__" ].

Definition inherited (k : string) : bool :=
  bool_decide (k ∈ Object_prototype_keys).

(** [!s.includes(sep)]: a string without the separator. *)
Fixpoint free_of (sep : ascii) (s : string) : bool :=
  match s with
  | EmptyString => true
  | String c r => negb (Ascii.eqb c sep) && free_of sep r
  end.

End Js.

(* ===================================================================== *)
(** ** The database                                                       *)
(* ===================================================================== *)

Module Db.

Record RfidRow := mkRfid { rf_user_id : string; rf_uid : string }.

Record UserRow := mkUser {
  u_user_id : string;
  u_user_type : string;
  u_user_name : string;
  u_year : option string;
  u_designation : option string;
  u_program_id : option nat;
  u_department_id : option nat
}.

Record ProgramRow := mkProgram {
  p_program_id : nat;
  p_degree : string;
  p_branch_name : string;
  p_branch_code : string
}.

Record DepartmentRow := mkDepartment {
  d_department_id : nat;
  d_department_name : string
}.

Record LogRow := mkLog {
  al_log_id : nat;
  al_user_id : string;
  al_log_date : string;
  al_login_time : string;
  al_logout_time : option string
}.

Global Instance RfidRow_eq_dec : EqDecision RfidRow.
Proof. solve_decision. Defined.
Global Instance UserRow_eq_dec : EqDecision UserRow.
Proof. solve_decision. Defined.
Global Instance ProgramRow_eq_dec : EqDecision ProgramRow.
Proof. solve_decision. Defined.
Global Instance DepartmentRow_eq_dec : EqDecision DepartmentRow.
Proof. solve_decision. Defined.
Global Instance LogRow_eq_dec : EqDecision LogRow.
Proof. solve_decision. Defined.

(** The schema file is not part of the sources.  [attendance_log.log_id]
    is never supplied by an [INSERT] and is used as the row handle by the
    [UPDATE] of [handleCardScan]: it is taken to be an [AUTO_INCREMENT]
    key, whose counter is [auto_increment]. *)
Record Database := mkDb {
  rfid_details : list RfidRow;
  users : list UserRow;
  programs : list ProgramRow;
  departments : list DepartmentRow;
  attendance_log : list LogRow;
  auto_increment : nat
}.

(** One row of the user-details query of [handleCardScan]:
    [u.*, p.degree, p.branch_name, p.branch_code, d.department_name]. *)
Record UserDetails := mkDetails {
  det_user : UserRow;
  det_program : option ProgramRow;
  det_department : option DepartmentRow
}.

Global Instance UserDetails_eq_dec : EqDecision UserDetails.
Proof. solve_decision. Defined.

(** One row of the grouped count query. *)
Record FlatCount := mkFlat {
  fc_degree : string;
  fc_branch_code : string;
  fc_visit_count : nat
}.

(** The grouping key of a count row. *)
Definition flat_key (r : FlatCount) : string * string :=
  (fc_degree r, fc_branch_code r).

Definition set_logout (t : string) (r : LogRow) : LogRow :=
  mkLog (al_log_id r) (al_user_id r) (al_log_date r) (al_login_time r) (Some t).

Definition with_attendance (d : Database) (l : list LogRow) (n : nat) : Database :=
  mkDb (rfid_details d) (users d) (programs d) (departments d) l n.

Definition with_rfid (d : Database) (l : list RfidRow) : Database :=
  mkDb l (users d) (programs d) (departments d) (attendance_log d) (auto_increment d).

(** [a LEFT JOIN b ON ...]: the matching rows, or one NULL row. *)
Definition left_join {B} (matching : list B) : list (option B) :=
  match matching with
  | [] => [None]
  | _ => Some <$> matching
  end.

(** [SELECT user_id FROM rfid_details WHERE uid = ?] *)
Definition select_rfid_user (uid : string) (d : Database) : list string :=
  rf_user_id <$> filter (λ r, rf_uid r = uid) (rfid_details d).

(** [SELECT u.*, p.degree, ..., d.department_name FROM users u
     LEFT JOIN programs p ON u.program_id = p.program_id
     LEFT JOIN departments d ON u.department_id = d.department_id
     WHERE u.user_id = ?] *)
Definition select_user_details (user_id : string) (d : Database) : list UserDetails :=
  u ← filter (λ u, u_user_id u = user_id) (users d);
  p ← left_join (filter (λ p, u_program_id u = Some (p_program_id p)) (programs d));
  dep ← left_join (filter (λ x, u_department_id u = Some (d_department_id x)) (departments d));
  [mkDetails u p dep].

Definition is_open (user_id date : string) (r : LogRow) : Prop :=
  al_user_id r = user_id ∧ al_log_date r = date ∧ al_logout_time r = None.

Global Instance is_open_dec user_id date r : Decision (is_open user_id date r).
Proof. unfold is_open. apply _. Defined.

(** [SELECT log_id FROM attendance_log WHERE user_id = ? AND log_date = ?
     AND logout_time IS NULL LIMIT 1] *)
Definition select_open_login (user_id date : string) (d : Database) : list nat :=
  take 1 (al_log_id <$> filter (is_open user_id date) (attendance_log d)).

(** [UPDATE attendance_log SET logout_time = ? WHERE log_id = ?] *)
Definition update_logout (t : string) (log_id : nat) (d : Database) : Database :=
  with_attendance d
    ((λ r, if decide (al_log_id r = log_id) then set_logout t r else r)
       <$> attendance_log d)
    (auto_increment d).

(** [INSERT INTO attendance_log (user_id, log_date, login_time)
     VALUES (?, ?, ?)] *)
Definition insert_login (user_id date t : string) (d : Database) : Database :=
  with_attendance d
    (attendance_log d ++ [mkLog (auto_increment d) user_id date t None])
    (S (auto_increment d)).

(** [UPDATE attendance_log SET logout_time = ? WHERE log_date = ?
     AND logout_time IS NULL] *)
Definition update_auto_logout (t today : string) (d : Database) : Database :=
  with_attendance d
    ((λ r, if decide (al_log_date r = today ∧ al_logout_time r = None)
           then set_logout t r else r) <$> attendance_log d)
    (auto_increment d).

(** The rows of
    [attendance_log al JOIN users u ON al.user_id = u.user_id
     JOIN programs p ON u.program_id = p.program_id
     WHERE al.log_date = ? AND u.user_type = 'student'],
    projected on the grouping key [(p.degree, p.branch_code)]. *)
Definition student_visits (today : string) (d : Database) : list (string * string) :=
  al ← attendance_log d;
  u ← filter (λ u, al_user_id al = u_user_id u) (users d);
  p ← filter (λ p, u_program_id u = Some (p_program_id p)) (programs d);
  if decide (al_log_date al = today ∧ u_user_type u = "student")
  then [(p_degree p, p_branch_code p)] else [].

(** The same rows, told row by row: a log row of [today] counts under
    the degree and branch code of its user's program when that user is a
    student who has a program; it does not count otherwise. *)
Definition visit_key (today : string) (d : Database) (al : LogRow)
  : option (string * string) :=
  if decide (al_log_date al = today) then
    u ← List.find (λ u, bool_decide (al_user_id al = u_user_id u)) (users d);
    if decide (u_user_type u = "student") then
      p ← List.find (λ p, bool_decide (u_program_id u = Some (p_program_id p)))
                    (programs d);
      Some (p_degree p, p_branch_code p)
    else None
  else None.

(** [ORDER BY p.degree, p.branch_code]. *)
Definition key_le (a b : string * string) : Prop :=
  String.le a.1 b.1 ∧ (a.1 = b.1 → String.le a.2 b.2).

Global Instance key_le_dec : RelDecision key_le.
Proof. intros a b. unfold key_le. apply _. Defined.

(** [SELECT p.degree, p.branch_code, COUNT(al.log_id) as visit_count ...
     GROUP BY p.degree, p.branch_code ORDER BY p.degree, p.branch_code] *)
Definition select_branch_counts (today : string) (d : Database) : list FlatCount :=
  let visits := student_visits today d in
  (λ k, mkFlat k.1 k.2 (length (filter (λ v, v = k) visits)))
    <$> merge_sort key_le (remove_dups visits).

(** [DELETE FROM rfid_details WHERE user_id = ?] *)
Definition delete_rfid_of (user_id : string) (d : Database) : Database :=
  with_rfid d (filter (λ r, rf_user_id r ≠ user_id) (rfid_details d)).

(** [INSERT INTO rfid_details (user_id, uid) VALUES (?, ?)] *)
Definition insert_rfid (user_id uid : string) (d : Database) : Database :=
  with_rfid d (rfid_details d ++ [mkRfid user_id uid]).

(** [SELECT user_id FROM rfid_details WHERE uid = ? AND user_id != ?] *)
Definition select_uid_taken (uid user_id : string) (d : Database) : list string :=
  rf_user_id <$> filter (λ r, rf_uid r = uid ∧ rf_user_id r ≠ user_id) (rfid_details d).

(** The statements, as the driver sees them. *)
Inductive Statement :=
| SelectRfidUser (uid : string)
| SelectUserDetails (user_id : string)
| SelectOpenLogin (user_id date : string)
| UpdateLogout (t : string) (log_id : nat)
| InsertLogin (user_id date t : string)
| SelectBranchCounts (today : string)
| UpdateAutoLogout (t today : string)
| SelectUidTaken (uid user_id : string)
| DeleteRfidOf (user_id : string)
| InsertRfid (user_id uid : string).

Global Instance Statement_eq_dec : EqDecision Statement.
Proof. solve_decision. Defined.

(** What a statement that completes does to the database. *)
Definition effect (s : Statement) (d : Database) : Database :=
  match s with
  | UpdateLogout t i => update_logout t i d
  | InsertLogin u dt t => insert_login u dt t d
  | UpdateAutoLogout t today => update_auto_logout t today d
  | DeleteRfidOf u => delete_rfid_of u d
  | InsertRfid u x => insert_rfid u x d
  | SelectRfidUser _ | SelectUserDetails _ | SelectOpenLogin _ _
  | SelectBranchCounts _ | SelectUidTaken _ _ => d
  end.

End Db.


(* ===================================================================== *)
(** ** The runtime: world, exceptions, trace                               *)
(* ===================================================================== *)

Module Rt.
Import Db.

Inductive Status := UNREGISTERED | NO_DETAILS | LOGOUT | LOGIN | ERROR | IGNORED.

(** The [eventData] object of [handleCardScan] and the literal the serial
    handler emits for a duplicate. *)
Record EventData := mkEvent {
  ev_uid : string;
  ev_status : option Status;
  ev_details : option UserDetails;
  ev_time : option string;
  ev_message : option string
}.

(** One element of a [groupedCounts[degree]] array. *)
Record BranchCount := mkBranch { branch_code : string; visit_count : nat }.

(** The [groupedCounts] object: degree to array. *)
Abbreviation Counts := (gmap string (list BranchCount)).

(** What [io.emit] broadcasts; the payload is serialised when [emit] is
    called, so later assignments to [eventData] do not alter it. *)
Inductive Event :=
| scan_event (e : EventData)
| counts_update (c : Counts).

Inductive Error :=
| DbError (s : Statement)      (* the driver rejected the statement *)
| DriverError (what : string)   (* getConnection / beginTransaction / commit *)
| TypeError                     (* calling a method that is not there *)
| JsError (msg : string).       (* [throw new Error(msg)] *)

Inductive outcome (A : Type) :=
| Returned (a : A)
| Thrown (e : Error).
Arguments Returned {A} a.
Arguments Thrown {A} e.

Global Instance Status_eq_dec : EqDecision Status.
Proof. solve_decision. Defined.
Global Instance EventData_eq_dec : EqDecision EventData.
Proof. solve_decision. Defined.
Global Instance BranchCount_eq_dec : EqDecision BranchCount.
Proof. solve_decision. Defined.
Global Instance Event_eq_dec : EqDecision Event.
Proof. solve_decision. Defined.
Global Instance Error_eq_dec : EqDecision Error.
Proof. solve_decision. Defined.

(** Everything the process does, in the order it does it. *)
Inductive Action :=
| Issued (s : Statement) (threw : bool)
| Emit (e : Event)
| ConsoleError (label : string) (e : Error)
| TxBegin (threw : bool)
| TxCommit (threw : bool)
| TxRollback.

Global Instance Action_eq_dec : EqDecision Action.
Proof. solve_decision. Defined.

(** [faults] is the driver's oracle: each call to the database consumes one
    entry, [true] meaning that the call throws; an exhausted oracle means
    that every further call completes.  [txn] is the snapshot an open
    transaction would roll back to. *)
Record World := mkWorld {
  db : Database;
  txn : option Database;
  faults : list bool;
  trace : list Action
}.

Definition Prog (S A : Type) : Type := S → outcome A * S.

Definition ret {S A} (a : A) : Prog S A := λ s, (Returned a, s).

Definition bind {S A B} (m : Prog S A) (k : A → Prog S B) : Prog S B :=
  λ s, match m s with
       | (Returned a, s') => k a s'
       | (Thrown e, s') => (Thrown e, s')
       end.

Definition throw {S A} (e : Error) : Prog S A := λ s, (Thrown e, s).

(** [try { body } catch (error) { handler }] *)
Definition try_catch {S A} (body : Prog S A) (handler : Error → Prog S A) : Prog S A :=
  λ s, match body s with
       | (Returned a, s') => (Returned a, s')
       | (Thrown e, s') => handler e s'
       end.

(** [try { body } finally { cleanup }], for a cleanup that cannot throw. *)
Definition finally {S A} (body : Prog S A) (cleanup : S → S) : Prog S A :=
  λ s, let '(r, s') := body s in (r, cleanup s').

Declare Scope prog_scope.
Delimit Scope prog_scope with prog.
Notation "'let!' x := m 'in' k" := (bind m (λ x, k))
  (at level 10, x name, m at level 100, k at level 200) : prog_scope.
Notation "m ;; k" := (bind m (λ _, k))
  (at level 100, k at level 200, right associativity) : prog_scope.

Definition next_fault (w : World) : bool * list bool :=
  match faults w with
  | [] => (false, [])
  | b :: fs => (b, fs)
  end.

Definition log (a : Action) (w : World) : World :=
  mkWorld (db w) (txn w) (faults w) (trace w ++ [a]).

(** [await dbPool.query(sql, params)] / [await connection.query(...)]:
    the rows are those the statement sees, the database then takes the
    statement's effect; a rejected statement leaves the database alone. *)
Definition query {A} (s : Statement) (rows : Database → A) : Prog World A :=
  λ w, let '(threw, fs) := next_fault w in
       if threw
       then (Thrown (DbError s),
             mkWorld (db w) (txn w) fs (trace w ++ [Issued s true]))
       else (Returned (rows (db w)),
             mkWorld (effect s (db w)) (txn w) fs (trace w ++ [Issued s false])).

(** [io.emit(name, payload)] *)
Definition emit (e : Event) : Prog World unit :=
  λ w, (Returned tt, log (Emit e) w).

(** [console.error(label, error)] *)
Definition console_error (label : string) (e : Error) : Prog World unit :=
  λ w, (Returned tt, log (ConsoleError label e) w).

(** [await dbPool.getConnection()]: a connection of the pool, with no
    transaction open on it. *)
Definition getConnection : Prog World unit :=
  λ w, let '(threw, fs) := next_fault w in
       let w' := mkWorld (db w) None fs (trace w) in
       if threw then (Thrown (DriverError "getConnection"), w') else (Returned tt, w').

(** [await connection.beginTransaction()] *)
Definition beginTransaction : Prog World unit :=
  λ w, let '(threw, fs) := next_fault w in
       if threw
       then (Thrown (DriverError "beginTransaction"),
             mkWorld (db w) (txn w) fs (trace w ++ [TxBegin true]))
       else (Returned tt,
             mkWorld (db w) (Some (db w)) fs (trace w ++ [TxBegin false])).

(** [await connection.commit()]; a commit that throws leaves the
    transaction open. *)
Definition commit : Prog World unit :=
  λ w, let '(threw, fs) := next_fault w in
       if threw
       then (Thrown (DriverError "commit"),
             mkWorld (db w) (txn w) fs (trace w ++ [TxCommit true]))
       else (Returned tt,
             mkWorld (db w) None fs (trace w ++ [TxCommit false])).

(** [await connection.rollback()]: back to the snapshot, if a transaction
    is open.  The rollback itself is taken to complete. *)
Definition rollback : Prog World unit :=
  λ w, (Returned tt,
        mkWorld (match txn w with Some d => d | None => db w end) None
                (faults w) (trace w ++ [TxRollback])).

(** What the process did between two worlds. *)
Definition since (w w' : World) : list Action :=
  drop (length (trace w)) (trace w').

(** The events broadcast by a run of actions, oldest first. *)
Definition events_of (acts : list Action) : list Event :=
  omap (λ a, match a with Emit e => Some e | _ => None end) acts.

(** The database a trace leads to: completed statements in order. *)
Definition replay (acts : list Action) (d : Database) : Database :=
  foldl (λ d a, match a with Issued s false => effect s d | _ => d end) d acts.

Definition no_faults (w : World) : Prop := Forall (λ b, b = false) (faults w).

Global Instance no_faults_dec w : Decision (no_faults w).
Proof. unfold no_faults. apply _. Defined.

End Rt.

(* ===================================================================== *)
(** ** Core logic: handleCardScan, getTodayBranchCounts, autoLogout        *)
(* ===================================================================== *)

Module Scan.
Import Db Rt.
Local Open Scope prog_scope.

(** [const now = new Date()] after [format(now, 'yyyy-MM-dd')] and
    [format(now, 'HH:mm:ss')]. *)
Record Clock := mkClock { currentDate : string; currentTime : string }.

(** The local frame of [handleCardScan]: its [eventData] and the world. *)
Record Frame := mkFrame { eventData : EventData; world : World }.

Definition lift {A} (m : Prog World A) : Prog Frame A :=
  λ f, let '(r, w) := m (world f) in (r, mkFrame (eventData f) w).

Definition assign (upd : EventData → EventData) : Prog Frame unit :=
  λ f, (Returned tt, mkFrame (upd (eventData f)) (world f)).

Definition set_status (s : Status) (e : EventData) : EventData :=
  mkEvent (ev_uid e) (Some s) (ev_details e) (ev_time e) (ev_message e).
Definition set_details (d : UserDetails) (e : EventData) : EventData :=
  mkEvent (ev_uid e) (ev_status e) (Some d) (ev_time e) (ev_message e).
Definition set_time (t : string) (e : EventData) : EventData :=
  mkEvent (ev_uid e) (ev_status e) (ev_details e) (Some t) (ev_message e).

(** [io.emit('scan_event', eventData)] *)
Definition emit_scan : Prog Frame unit :=
  λ f, lift (emit (scan_event (eventData f))) f.

(** One turn of the loop of [getTodayBranchCounts]:
    [if (!groupedCounts[row.degree]) groupedCounts[row.degree] = [];
     groupedCounts[row.degree].push({branch_code, visit_count})].
    An own property holds an array, which is truthy.  A name inherited from
    [Object.prototype] reads as a truthy value without [push]. *)
Definition push_count (g : Counts) (row : FlatCount) : outcome Counts :=
  let item := mkBranch (fc_branch_code row) (fc_visit_count row) in
  match g !! fc_degree row with
  | Some arr => Returned (<[fc_degree row := arr ++ [item]]> g)
  | None =>
      if Js.inherited (fc_degree row) then Thrown TypeError
      else Returned (<[fc_degree row := [item]]> g)
  end.

Fixpoint group_counts (rows : list FlatCount) (g : Counts) : outcome Counts :=
  match rows with
  | [] => Returned g
  | row :: rest =>
      match push_count g row with
      | Returned g' => group_counts rest g'
      | Thrown e => Thrown e
      end
  end.

(** The items the loop files under a degree. *)
Definition items_of (deg : string) (rows : list FlatCount) : list BranchCount :=
  (λ r, mkBranch (fc_branch_code r) (fc_visit_count r))
    <$> filter (λ r, fc_degree r = deg) rows.

(** What the loop of [getTodayBranchCounts] makes of the rows the database
    [d] holds for [today]. *)
Definition counts_of (today : string) (d : Database) : outcome Counts :=
  group_counts (select_branch_counts today d) ∅.

(** [getTodayBranchCounts()] (server.js, lines 84-87); [today] is
    [format(new Date(), 'yyyy-MM-dd')] as read when the function is
    entered. *)
Definition getTodayBranchCounts (today : string) : Prog World Counts :=
  let! flatCounts := query (SelectBranchCounts today) (select_branch_counts today) in
  λ w, (group_counts flatCounts ∅, w).

(** [handleCardScan(uid)] (server.js, lines 71-83).  [now] is the clock
    read on entry, [later] the one read by the nested
    [getTodayBranchCounts]. *)
Definition handleCardScan (uid : string) (now later : Clock) : Prog World unit :=
  λ w0,
  let '(r, f) :=
    try_catch
      (let! rfidRows := lift (query (SelectRfidUser uid) (select_rfid_user uid)) in
       match rfidRows with
       | [] => assign (set_status UNREGISTERED) ;; emit_scan
       | user_id :: _ =>
         let! userRows :=
           lift (query (SelectUserDetails user_id) (select_user_details user_id)) in
         match userRows with
         | [] => assign (set_status NO_DETAILS) ;; emit_scan
         | details :: _ =>
           assign (set_details details) ;;
           let! openLogins :=
             lift (query (SelectOpenLogin user_id (currentDate now))
                         (select_open_login user_id (currentDate now))) in
           match openLogins with
           | log_id :: _ =>
             lift (query (UpdateLogout (currentTime now) log_id) (λ _, tt)) ;;
             assign (set_status LOGOUT) ;;
             assign (set_time (currentTime now)) ;;
             emit_scan
           | [] =>
             lift (query (InsertLogin user_id (currentDate now) (currentTime now))
                         (λ _, tt)) ;;
             assign (set_status LOGIN) ;;
             assign (set_time (currentTime now)) ;;
             emit_scan ;;
             let! counts := lift (getTodayBranchCounts (currentDate later)) in
             lift (emit (counts_update counts))
           end
         end
       end)
      (λ error,
         lift (console_error "DB/Logic Error:" error) ;;
         assign (set_status ERROR) ;;
         emit_scan)
      (mkFrame (mkEvent uid None None None None) w0)
  in (r, world f).

(** [autoLogoutCurrentDay()] (server.js, line 310), the job of
    [cron.schedule('5 19 * * *', ...)] (line 312).  The success branch only
    writes to the console. *)
Definition autoLogoutCurrentDay (today : string) : Prog World unit :=
  let logoutTime := "19:00:00" in
  try_catch
    (query (UpdateAutoLogout logoutTime today) (λ _, tt))
    (λ error, console_error "Auto-logout error:" error).

End Scan.


(* ===================================================================== *)
(** ** The serial line handler and the duplicate filter                    *)
(* ===================================================================== *)

Module Serial.
Import Db Rt Scan.

Definition SCAN_TIMEOUT_MS : Z := 5000.

(** [new ReadlineParser({ delimiter: '\r\n' })]. *)
Definition delimiter : string := String "013" (String "010" EmptyString).

(** The parser's scan of its pending data: every piece that ends at a
    delimiter is pushed ([this.push], without the delimiter), what follows
    the last delimiter stays behind.  [line] is the piece being read. *)
Fixpoint readline (line data : string) : list string * string :=
  match data with
  | EmptyString => ([], line)
  | String c rest =>
      match rest with
      | String c' rest' =>
          if Ascii.eqb c "013" && Ascii.eqb c' "010"
          then let '(ls, b) := readline EmptyString rest' in (line :: ls, b)
          else readline (line +:+ String c EmptyString) rest
      | EmptyString => ([], line +:+ String c EmptyString)
      end
  end.

(** Lines and the rest put back on the wire. *)
Definition join (ls : list string) (b : string) : string :=
  foldr (λ l r, l +:+ delimiter +:+ r) b ls.

(** What the stream makes of the pieces pushed: a piece of length zero is
    dropped, it raises no ['data'] event. *)
Definition delivered (pushed : list string) : list string :=
  filter (λ l, l ≠ EmptyString) pushed.

(** [_transform(chunk)]: the pending buffer and the chunk are joined and
    scanned; the result is the lines handed to [parser.on('data')] and the
    new buffer. *)
Definition transform (buffer chunk : string) : list string * string :=
  let '(pushed, b) := readline EmptyString (buffer +:+ chunk) in
  (delivered pushed, b).

(** The argument of [line.startsWith(...)]. *)
Definition tag_prefix : string := "RFID Tag UID:".

(** The message of the duplicate event,
    [`Duplicate scan. Wait ${SCAN_TIMEOUT_MS / 1000}s.`]. *)
Definition duplicate_message : string := "Duplicate scan. Wait 5s.".

(** [line.split(":")[1].trim()]; [None] when [split] has no second piece,
    where JavaScript would throw on [undefined.trim()]. *)
Definition extract_uid (line : string) : option string :=
  Js.trim <$> (Js.split ":" line !! 1%nat).

(** The text of a line after the prefix, [line.slice(tag_prefix.length)]:
    what the reader printed as the identifier. *)
Definition remainder (line : string) : string :=
  String.substring (String.length tag_prefix)
                   (String.length line - String.length tag_prefix) line.

(** The process state next to the world: the [scannedRecently] set and the
    pending [setTimeout] callbacks, each with the time it becomes due and
    the [uid] its closure captured. *)
Record Server := mkServer {
  srv_world : World;
  scannedRecently : gset string;
  timers : list (Z * string)
}.

Definition init (w : World) : Server := mkServer w ∅ [].

(** The three ways the callback can go. *)
Inductive Verdict :=
| NotATag                       (* the line does not start with the prefix *)
| Suppressed (uid : string)     (* [scannedRecently.has(uid)] *)
| Accepted (uid : string).      (* [handleCardScan(uid)] is called *)

(** [parser.on('data', (line) => { ... })] (server.js, line 92), run at
    time [t] (milliseconds).  [handleCardScan] is not awaited: its outcome
    is dropped, and the callback goes on to the set and the timer at once.
    The statements of the scan are taken to have run by the time the next
    event is handled: [srv_world] of the next state is the world the scan
    leaves.  Scans whose statements interleave are not described;
    [scannedRecently] and [timers] do not depend on this. *)
Definition on_data (t : Z) (now later : Clock) (line : string) (s : Server)
  : outcome Verdict * Server :=
  if Js.startsWith line tag_prefix then
    match extract_uid line with
    | None => (Thrown TypeError, s)
    | Some uid =>
        if decide (uid ∈ scannedRecently s) then
          (Returned (Suppressed uid),
           mkServer
             (log (Emit (scan_event
                (mkEvent uid (Some IGNORED) None None (Some duplicate_message))))
                (srv_world s))
             (scannedRecently s) (timers s))
        else
          (Returned (Accepted uid),
           mkServer
             (handleCardScan uid now later (srv_world s)).2
             ({[uid]} ∪ scannedRecently s)
             (timers s ++ [(t + SCAN_TIMEOUT_MS, uid)%Z]))
    end
  else (Returned NotATag, s).

(** The callback [() => { scannedRecently.delete(uid); }] of the [k]-th
    pending timer, run at time [t].  The event loop never runs a timer
    before it is due: such a schedule is [None]. *)
Definition on_timeout (t : Z) (k : nat) (s : Server) : option Server :=
  match timers s !! k with
  | Some (due, uid) =>
      if decide (due ≤ t)%Z
      then Some (mkServer (srv_world s) (scannedRecently s ∖ {[uid]})
                          (delete k (timers s)))
      else None
  | None => None
  end.

(** What the event loop hands to the process. *)
Inductive Input :=
| Data (now later : Clock) (line : string)
| Timeout (k : nat).

Definition step (s : Server) (ev : Z * Input) : option Server :=
  match ev.2 with
  | Data now later line =>
      match on_data ev.1 now later line s with
      | (Returned _, s') => Some s'
      | (Thrown _, _) => None
      end
  | Timeout k => on_timeout ev.1 k s
  end.

Fixpoint run (evs : list (Z * Input)) (s : Server) : option Server :=
  match evs with
  | [] => Some s
  | ev :: rest =>
      match step s ev with
      | Some s' => run rest s'
      | None => None
      end
  end.

End Serial.

(* ===================================================================== *)
(** ** Web routes                                                          *)
(* ===================================================================== *)

Module Web.
Import Db Rt.
Local Open Scope prog_scope.

Inductive Method := GET | POST.

Global Instance Method_eq_dec : EqDecision Method.
Proof. solve_decision. Defined.

(** [req.session.user], as stored by [POST /login]. *)
Record SessionUser := mkSessionUser {
  username : string;
  role : string;
  linked_user_id : option string
}.

(** The parts of a request the handlers below read.  A missing body field
    is [None] ([undefined]). *)
Record Request := mkRequest {
  req_method : Method;
  req_path : string;
  session_user : option SessionUser;
  body_user_id : option string;
  body_new_uid : option string
}.

Inductive Response :=
| Redirect (url : string)
(** [`${path}?error=${encodeURIComponent(error.message || 'Update failed.')}
      &user_id_search=${encodeURIComponent(user_id)}`] *)
| RedirectError (path : string) (e : Error) (user_id_search : string).

(** A middleware either calls [next()] or ends the request. *)
Inductive Flow := Next | Done (r : Response).

(** [isAuthenticated] (server.js, lines 58-66); an object stored in the
    session is truthy.  The two [console.log] lines are left out. *)
Definition isAuthenticated (req : Request) : Flow :=
  match session_user req with
  | Some _ => Next
  | None => Done (Redirect "/login?error=Please login to access this page.")
  end.

Inductive Middleware := IsAuthenticated | UploadSingle (field : string).

Global Instance Middleware_eq_dec : EqDecision Middleware.
Proof. solve_decision. Defined.

(** [upload.single(field)] parses the upload and calls [next()]. *)
Definition run_middleware (m : Middleware) (req : Request) : Flow :=
  match m with
  | IsAuthenticated => isAuthenticated req
  | UploadSingle _ => Next
  end.

Record Route := mkRoute {
  r_method : Method;
  r_pattern : string;
  r_middleware : list Middleware
}.

(** The registrations [app.get(...)] / [app.post(...)], in source order:
    first those of the sections "Public Routes" and "Login/Logout" (with
    the root redirect), ... *)
Definition public_routes : list Route :=
  [ mkRoute GET "/" [];
    mkRoute GET "/dashboard" [];
    mkRoute GET "/register" [];
    mkRoute POST "/add" [];
    mkRoute GET "/login" [];
    mkRoute POST "/login" [];
    mkRoute GET "/logout" [] ].

(** ... then those that follow the comment
    "Admin Routes (Protected by isAuthenticated)". *)
Definition admin_routes : list Route :=
  [ mkRoute GET "/home" [IsAuthenticated];
    mkRoute GET "/actions/:userType" [IsAuthenticated];
    mkRoute GET "/reports/student" [IsAuthenticated];
    mkRoute GET "/reports/faculty" [IsAuthenticated];
    mkRoute POST "/reports/preview" [IsAuthenticated];
    mkRoute POST "/reports/download" [IsAuthenticated];
    mkRoute GET "/manage-student" [IsAuthenticated];
    mkRoute GET "/manage-faculty" [IsAuthenticated];
    mkRoute POST "/add-student-manual" [IsAuthenticated];
    mkRoute POST "/upload-students-excel" [IsAuthenticated; UploadSingle "userFile"];
    mkRoute POST "/add-faculty-manual" [IsAuthenticated];
    mkRoute POST "/upload-faculty-excel" [IsAuthenticated; UploadSingle "userFile"];
    mkRoute GET "/edit-rfid" [IsAuthenticated];
    mkRoute POST "/edit-rfid/search" [IsAuthenticated];
    mkRoute POST "/edit-rfid/update" [IsAuthenticated];
    mkRoute GET "/manage-programs" [IsAuthenticated];
    mkRoute POST "/manage-programs/add" [IsAuthenticated];
    mkRoute POST "/manage-programs/delete/:id" [IsAuthenticated] ].

Definition routes : list Route := public_routes ++ admin_routes.

(** Express compiles a path with its defaults: the match is not case
    sensitive, one trailing slash is optional, a segment [:name] binds any
    non-empty path segment and any other segment matches itself. *)
Definition strip_slash (path : string) : string :=
  match String.rev path with
  | String "/" r => String.rev r
  | _ => path
  end.

Definition segment_matches (pat seg : string) : bool :=
  match pat with
  | String ":" _ => Js.truthy seg
  | _ => bool_decide (Js.toLowerCase pat = Js.toLowerCase seg)
  end.

Fixpoint segments_match (pats segs : list string) : bool :=
  match pats, segs with
  | [], [] => true
  | p :: ps, s :: ss => segment_matches p s && segments_match ps ss
  | _, _ => false
  end.

(** [req_path] is [req.path]: the URL without its query string. *)
Definition matches (r : Route) (req : Request) : bool :=
  bool_decide (r_method r = req_method req)
  && segments_match (Js.split "/" (strip_slash (r_pattern r)))
                    (Js.split "/" (strip_slash (req_path req))).

(** The router takes the first registration that matches. *)
Definition find_route (req : Request) : option Route :=
  List.find (λ r, matches r req) routes.

(** Running the callbacks of a registration in order: the last one, the
    handler, runs only if every middleware before it called [next()]. *)
Inductive Dispatch :=
| RunsHandler
| Ends (r : Response).

Fixpoint run_chain (ms : list Middleware) (req : Request) : Dispatch :=
  match ms with
  | [] => RunsHandler
  | m :: rest =>
      match run_middleware m req with
      | Next => run_chain rest req
      | Done r => Ends r
      end
  end.

Definition dispatch (req : Request) : option (Route * Dispatch) :=
  match find_route req with
  | Some r => Some (r, run_chain (r_middleware r) req)
  | None => None
  end.

(** A body field that is present and not the empty string. *)
Definition present (field : option string) : option string :=
  match field with
  | Some s => if Js.truthy s then Some s else None
  | None => None
  end.

(** [connection.release()]: the connection goes back to the pool. *)
Definition release (w : World) : World := w.

(** The handler of [POST /edit-rfid/update] (server.js, lines 287-295). *)
Definition edit_rfid_update (req : Request) : Prog World Response :=
  match present (body_user_id req) with
  | None => ret (Redirect "/edit-rfid?error=User ID missing.")
  | Some user_id =>
    getConnection ;;
    finally
      (try_catch
         (beginTransaction ;;
          match present (body_new_uid req) with
          | Some new_uid =>
              let! existingUidRows :=
                query (SelectUidTaken new_uid user_id) (select_uid_taken new_uid user_id) in
              match existingUidRows with
              | other :: _ =>
                  throw (JsError ("UID '" +:+ new_uid +:+ "' already assigned to "
                                  +:+ other +:+ "."))
              | [] => ret tt
              end
          | None => ret tt
          end ;;
          query (DeleteRfidOf user_id) (λ _, tt) ;;
          match present (body_new_uid req) with
          | Some new_uid => query (InsertRfid user_id new_uid) (λ _, tt)
          | None => ret tt
          end ;;
          commit ;;
          ret (Redirect ("/edit-rfid?success=Updated RFID for " +:+ user_id +:+ ".")))
         (λ error,
            rollback ;;
            console_error "RFID Update Error:" error ;;
            ret (RedirectError "/edit-rfid" error user_id)))
      release
  end.

(** [rfid_details] after a completed update of [user_id] to [new_uid]. *)
Definition rebound (user_id : string) (new_uid : option string) (d : Database)
  : Database :=
  let d1 := delete_rfid_of user_id d in
  match new_uid with
  | Some x => insert_rfid user_id x d1
  | None => d1
  end.

(** The response of a completed update. *)
Definition updated_response (user_id : string) : outcome Response :=
  Returned (Redirect ("/edit-rfid?success=Updated RFID for " +:+ user_id +:+ ".")).

(** The whole registration: guard, then handler. *)
Definition post_edit_rfid_update (req : Request) : Prog World Response :=
  match isAuthenticated req with
  | Next => edit_rfid_update req
  | Done r => ret r
  end.

End Web.


(* ===================================================================== *)
(** ** A small installation                                                *)
(* ===================================================================== *)

(** One student and one lecturer, each with a card; nobody has come in
    yet.  The theorems below are exercised on it. *)
Module Sample.
Import Db Rt Scan Serial Web.

Definition ann : UserRow :=
  mkUser "S1" "student" "Ann" (Some "2") None (Some 1) None.

Definition bob : UserRow :=
  mkUser "F1" "faculty" "Bob" None (Some "Professor") None (Some 1).

Definition library : Database :=
  mkDb [mkRfid "S1" "AB"; mkRfid "F1" "CD"]
       [ann; bob]
       [mkProgram 1 "B.Tech" "Computer Science" "CSE"]
       [mkDepartment 1 "Mathematics"]
       [] 1.

Definition morning : Clock := mkClock "2024-01-01" "09:00:00".
Definition noon : Clock := mkClock "2024-01-01" "12:00:00".

(** The driver works. *)
Definition quiet : World := mkWorld library None [] [].

(** The driver rejects the next statement. *)
Definition broken : World := mkWorld library None [true] [].

(** After Ann came in. *)
Definition busy : World := (handleCardScan "AB" morning morning quiet).2.

Definition admin : SessionUser := mkSessionUser "admin" "admin" None.

(** Give Ann the card [EF]. *)
Definition rebind : Request :=
  mkRequest POST "/edit-rfid/update" (Some admin) (Some "S1") (Some "EF").

(** Give Ann the card Bob holds. *)
Definition steal : Request :=
  mkRequest POST "/edit-rfid/update" (Some admin) (Some "S1") (Some "CD").

Definition visitor : Request := mkRequest GET "/home" None None None.

End Sample.

(* ===================================================================== *)
(** ** Statements outside the scan logic                                   *)
(* ===================================================================== *)

Module Sql.
Import Db Rt.

(** [await dbPool.query(sql, params)] for the statements of the routes and
    jobs below.  It consumes the oracle like [query]; it writes no trace
    entry.  [code] is the [code] property the error carries should the
    driver reject the statement. *)
Definition run {A} (code : string) (rows : Database → A)
    (eff : Database → Database) : Prog World A :=
  λ w, let '(threw, fs) := next_fault w in
       if threw
       then (Thrown (DriverError code), mkWorld (db w) (txn w) fs (trace w))
       else (Returned (rows (db w)), mkWorld (eff (db w)) (txn w) fs (trace w)).

(** [error.code] *)
Definition code_of (e : Error) : string :=
  match e with
  | DriverError c => c
  | _ => EmptyString
  end.

(** [log_date < ?]: dates are ['yyyy-MM-dd'] strings, on which the order of
    code units is the order of the calendar. *)
Definition before (a b : string) : Prop := String.ltb a b = true.

Global Instance before_dec a b : Decision (before a b).
Proof. unfold before. apply _. Defined.

(** [UPDATE attendance_log SET logout_time = ? WHERE log_date < ?
     AND logout_time IS NULL] *)
Definition update_cleanup (t today : string) (d : Database) : Database :=
  with_attendance d
    ((λ r, if decide (before (al_log_date r) today ∧ al_logout_time r = None)
           then set_logout t r else r) <$> attendance_log d)
    (auto_increment d).

End Sql.

(* ===================================================================== *)
(** ** Startup                                                             *)
(* ===================================================================== *)

Module Startup.
Import Db Rt Sql.
Local Open Scope prog_scope.

(** [cleanupPreviousDays()] (server.js, line 311), called once the server
    listens (line 317).  The success branch only writes to the console. *)
Definition cleanupPreviousDays (today : string) : Prog World unit :=
  let logoutTime := "19:00:00" in
  try_catch
    (run EmptyString (λ _, tt) (update_cleanup logoutTime today))
    (λ error, console_error "Cleanup error:" error).

End Startup.

(* ===================================================================== *)
(** ** Registration, login and the desk routes                             *)
(* ===================================================================== *)

Module Admin.
Import Db Rt Scan Sql Web.
Local Open Scope prog_scope.

(** The redirect of a registration that went through. *)
Definition registered : Response :=
  Redirect "/register?success=Registration successful!".

(** The handler of [POST /add] (server.js, lines 121-126); [user_id] and
    [uid] are the body fields, [code] the code of the error should the
    driver reject the insert. *)
Definition post_add (user_id uid : option string) (code : string)
  : Prog World Response :=
  match present user_id, present uid with
  | Some u, Some x =>
      try_catch
        (run code (λ _, tt) (insert_rfid u x) ;;
         ret registered)
        (λ err,
           if decide (code_of err = "ER_DUP_ENTRY")
           then ret (Redirect "/register?error=Duplicate User ID or UID.")
           else if decide (code_of err = "ER_NO_REFERENCED_ROW_2")
           then ret (Redirect ("/register?error=User ID " +:+ u
                               +:+ " does not exist."))
           else ret (Redirect "/register?error=Database error."))
  | _, _ => ret (Redirect "/register?error=All fields are required.")
  end.

(** A row of [credentials]; the password is stored as it is typed. *)
Record CredRow := mkCred {
  c_username : string;
  c_password : option string;
  c_role : string;
  c_user_id : option string
}.

(** [SELECT username, password, role, user_id FROM credentials
     WHERE username = ?] *)
Definition select_credentials (username : string) (credentials : list CredRow)
  : list CredRow :=
  filter (λ c, c_username c = username) credentials.

(** The handler of [POST /login] (server.js, lines 135-197).
    [query_throws]: the driver rejects the query; [save_err]: the callback
    of [req.session.save] is given an error.  The result is
    [req.session.user] as the handler leaves it, and the response.  The
    [console] lines are left out. *)
Definition post_login (username password : option string)
    (credentials : list CredRow) (query_throws save_err : bool)
    (session : option SessionUser) : option SessionUser * Response :=
  match present username, present password with
  | Some name, Some pw =>
      if query_throws
      then (session, Redirect "/login?error=An error occurred during login.")
      else
        match select_credentials name credentials with
        | [] => (session, Redirect "/login?error=Invalid username or password.")
        | user :: _ =>
            if decide (Some pw = c_password user)
            then
              (Some (mkSessionUser (c_username user) (c_role user) (c_user_id user)),
               if save_err
               then Redirect "/login?error=Session error during save."
               else Redirect "/home")
            else (session, Redirect "/login?error=Invalid username or password.")
        end
  | _, _ => (session, Redirect "/login?error=Username and password are required.")
  end.

(** What [res.render('edit-rfid', ...)] is given by the search: an error
    message in [messages] with [searchResult: null], or the [searchResult]
    [{ ...user, currentUid }], beside which [messages] is the query string
    of the request, which is not modelled. *)
Record SearchResult := mkSearchResult {
  sr_user_id : string;
  sr_user_name : string;
  sr_user_type : string;
  sr_currentUid : option string
}.

Inductive SearchPage :=
| SearchError (msg : string)
| SearchFound (r : SearchResult).

(** [SELECT user_id, user_name, user_type FROM users WHERE user_id = ?] *)
Definition select_user (user_id : string) (d : Database) : list UserRow :=
  filter (λ u, u_user_id u = user_id) (users d).

(** [SELECT uid FROM rfid_details WHERE user_id = ?] *)
Definition select_uid_of (user_id : string) (d : Database) : list string :=
  rf_uid <$> filter (λ r, rf_user_id r = user_id) (rfid_details d).

(** The handler of [POST /edit-rfid/search] (server.js, lines 283-286). *)
Definition post_edit_rfid_search (user_id_search : option string)
  : Prog World SearchPage :=
  match present user_id_search with
  | None => ret (SearchError "Please enter a User ID.")
  | Some id =>
      try_catch
        (let! userRows := run EmptyString (select_user id) (λ d, d) in
         match userRows with
         | [] => ret (SearchError ("User ID '" +:+ id +:+ "' not found."))
         | user :: _ =>
             let! rfidRows := run EmptyString (select_uid_of id) (λ d, d) in
             ret (SearchFound
                    (mkSearchResult (u_user_id user) (u_user_name user)
                                    (u_user_type user) (head rfidRows)))
         end)
        (λ error,
           console_error "RFID Search Error:" error ;;
           ret (SearchError "Error searching."))
  end.

Definition with_programs (d : Database) (l : list ProgramRow) : Database :=
  mkDb (rfid_details d) (users d) l (departments d) (attendance_log d)
       (auto_increment d).

Definition with_users (d : Database) (l : list UserRow) : Database :=
  mkDb (rfid_details d) l (programs d) (departments d) (attendance_log d)
       (auto_increment d).

(** [SELECT COUNT( * ) as count FROM users WHERE program_id = ?] *)
Definition count_users_of_program (program_id : nat) (d : Database) : nat :=
  length (filter (λ u, u_program_id u = Some program_id) (users d)).

(** [DELETE FROM programs WHERE program_id = ?], and its [affectedRows]. *)
Definition delete_program (program_id : nat) (d : Database) : Database :=
  with_programs d (filter (λ p, p_program_id p ≠ program_id) (programs d)).

Definition affected_by_delete (program_id : nat) (d : Database) : nat :=
  length (filter (λ p, p_program_id p = program_id) (programs d)).

(** The handler of [POST /manage-programs/delete/:id] (server.js, lines
    305-307).  [programId] is the number the database reads [req.params.id]
    as; [code] is the code of the error should the driver reject a
    statement. *)
Definition post_delete_program (programId : nat) (code : string)
  : Prog World Response :=
  try_catch
    (let! count := run code (count_users_of_program programId) (λ d, d) in
     if decide (0 < count)%nat
     then ret (Redirect ("/manage-programs?error=Cannot delete: "
                         +:+ pretty count +:+ " student(s) assigned."))
     else
       let! affectedRows :=
         run code (affected_by_delete programId) (delete_program programId) in
       if decide (0 < affectedRows)%nat
       then ret (Redirect "/manage-programs?success=Deleted!")
       else ret (Redirect "/manage-programs?error=Not found."))
    (λ error,
       console_error "Error deleting program:" error ;;
       if decide (code_of error = "ER_ROW_IS_REFERENCED_2")
       then ret (Redirect "/manage-programs?error=Cannot delete: Referenced by users.")
       else ret (Redirect "/manage-programs?error=Failed."))%prog.

(** [INSERT INTO users (user_id, user_type, user_name, year, program_id)
     VALUES (?, 'student', ?, ?, ?)] *)
Definition insert_student (user_id user_name : string) (year : option string)
    (program_id : option nat) (d : Database) : Database :=
  with_users d
    (users d ++ [mkUser user_id "student" user_name year None program_id None]).

(** The answer of a form that went through. *)
Definition student_added : outcome Response :=
  Returned (Redirect "/manage-student?success=Student added!").

(** The handler of [POST /add-student-manual] (server.js, lines 260-262),
    for a request that carries a [user_id]; [program_id] is the number the
    database reads the field as. *)
Definition post_add_student_manual (user_id user_name : string)
    (year : option string) (program_id : option nat) (code : string)
  : Prog World Response :=
  try_catch
    (run code (λ _, tt) (insert_student user_id user_name year program_id) ;;
     ret (Redirect "/manage-student?success=Student added!"))
    (λ error,
       if decide (code_of error = "ER_DUP_ENTRY")
       then ret (Redirect "/manage-student?error=ID exists.")
       else ret (Redirect "/manage-student?error=Failed.")).

(** One row of the log query of the dashboard:
    [al.user_id, al.login_time, al.logout_time, u.user_name]. *)
Record DashRow := mkDash {
  dr_user_id : string;
  dr_login_time : string;
  dr_logout_time : option string;
  dr_user_name : string
}.

(** The rows of [attendance_log al JOIN users u ON al.user_id = u.user_id
    WHERE al.log_date = ?]. *)
Definition todays_rows (today : string) (d : Database) : list DashRow :=
  al ← attendance_log d;
  u ← filter (λ u, al_user_id al = u_user_id u) (users d);
  if decide (al_log_date al = today)
  then [mkDash (al_user_id al) (al_login_time al) (al_logout_time al)
               (u_user_name u)]
  else [].

(** [ORDER BY al.login_time DESC].  The order of rows with the same
    [login_time] is the database's choice; the sort below keeps them in
    table order. *)
Definition later_first (a b : DashRow) : Prop :=
  String.le (dr_login_time b) (dr_login_time a).

Global Instance later_first_dec : RelDecision later_first.
Proof. intros a b. unfold later_first. apply _. Defined.

Definition select_todays_log (today : string) (d : Database) : list DashRow :=
  merge_sort later_first (todays_rows today d).

(** What [res.render('dashboard', ...)] is given. *)
Record Dashboard := mkDashboard {
  logs : list DashRow;
  counts : Counts
}.

(** The handler of [GET /dashboard] (server.js, lines 105-115); [today] is
    the date the handler reads, [later] the one read by the nested
    [getTodayBranchCounts]. *)
Definition get_dashboard (today later : string) : Prog World Dashboard :=
  try_catch
    (let! todaysLog := run EmptyString (select_todays_log today) (λ d, d) in
     let! counts := getTodayBranchCounts later in
     ret (mkDashboard todaysLog counts))
    (λ error,
       console_error "Dashboard load error:" error ;;
       ret (mkDashboard [] ∅)).

End Admin.

(* ===================================================================== *)
(** ** The report preview                                                  *)
(* ===================================================================== *)

Module Reports.
Import Db Rt Sql Web.
Local Open Scope prog_scope.

(** One row of a detail query: [al.*, u.user_name, ... as group_name]. *)
Record ReportRow := mkReportRow {
  rr_log : LogRow;
  rr_user_name : string;
  rr_group_name : string
}.

(** One row of a count query: the label of the group ([degree] for
    students, [group_name] for faculty) and [count]. *)
Record CountRow := mkCountRow {
  cr_label : string;
  cr_count : nat
}.

(** [al.log_date BETWEEN ? AND ?] on ['yyyy-MM-dd'] strings. *)
Definition between (start_date end_date date : string) : Prop :=
  String.le start_date date ∧ String.le date end_date.

Global Instance between_dec s e x : Decision (between s e x).
Proof. unfold between. apply _. Defined.

(** The rows of
    [attendance_log al JOIN users u ON al.user_id = u.user_id
     JOIN programs p ON u.program_id = p.program_id
     WHERE u.user_type = 'student' AND al.log_date BETWEEN ? AND ?],
    the [FROM] and [WHERE] of both student queries: each with what the
    detail query selects and with [p.degree], the key of the count
    query. *)
Definition student_rows (start_date end_date : string) (d : Database)
  : list (ReportRow * string) :=
  al ← attendance_log d;
  u ← filter (λ u, al_user_id al = u_user_id u) (users d);
  p ← filter (λ p, u_program_id u = Some (p_program_id p)) (programs d);
  if decide (u_user_type u = "student"
             ∧ between start_date end_date (al_log_date al))
  then [(mkReportRow al (u_user_name u) (p_branch_name p), p_degree p)]
  else [].

(** The same for the two faculty queries, whose join is with
    [departments] and whose key is [d.department_name]. *)
Definition faculty_rows (start_date end_date : string) (d : Database)
  : list (ReportRow * string) :=
  al ← attendance_log d;
  u ← filter (λ u, al_user_id al = u_user_id u) (users d);
  x ← filter (λ x, u_department_id u = Some (d_department_id x)) (departments d);
  if decide (u_user_type u = "faculty"
             ∧ between start_date end_date (al_log_date al))
  then [(mkReportRow al (u_user_name u) (d_department_name x),
         d_department_name x)]
  else [].

(** [if (user_type === 'student') {...} else {...}] *)
Definition report_rows (user_type : option string) (start_date end_date : string)
    (d : Database) : list (ReportRow * string) :=
  if decide (user_type = Some "student")
  then student_rows start_date end_date d
  else faculty_rows start_date end_date d.

(** [ORDER BY al.log_date, al.login_time]; rows that agree on both come
    in table order. *)
Definition report_order (a b : ReportRow) : Prop :=
  String.le (al_log_date (rr_log a)) (al_log_date (rr_log b))
  ∧ (al_log_date (rr_log a) = al_log_date (rr_log b) →
     String.le (al_login_time (rr_log a)) (al_login_time (rr_log b))).

Global Instance report_order_dec : RelDecision report_order.
Proof. intros a b. unfold report_order. apply _. Defined.

(** [detailQuery] *)
Definition select_report (user_type : option string) (start_date end_date : string)
    (d : Database) : list ReportRow :=
  merge_sort report_order (fst <$> report_rows user_type start_date end_date d).

(** [countQuery]: [COUNT(al.log_id) ... GROUP BY key ORDER BY key]. *)
Definition select_report_counts (user_type : option string)
    (start_date end_date : string) (d : Database) : list CountRow :=
  let labels := snd <$> report_rows user_type start_date end_date d in
  (λ k, mkCountRow k (length (filter (λ v, v = k) labels)))
    <$> merge_sort String.le (remove_dups labels).

(** [`${v}`] of a body field. *)
Definition template (v : option string) : string := default "undefined" v.

(** What the handler answers: the page with [userType], [reportData] and
    [visitCounts] ([filters] is the body as it came), or a redirect. *)
Inductive ReportReply :=
| ReportPage (userType : option string) (reportData : list ReportRow)
             (visitCounts : list CountRow)
| ReportRedirect (url : string).

(** The handler of [POST /reports/preview] (server.js, lines 234-240), for
    a request that carries both dates. *)
Definition post_reports_preview (user_type : option string)
    (start_date end_date : string) : Prog World ReportReply :=
  try_catch
    (let! reportData :=
       run EmptyString (select_report user_type start_date end_date) (λ d, d) in
     let! visitCounts :=
       run EmptyString (select_report_counts user_type start_date end_date)
           (λ d, d) in
     ret (ReportPage user_type reportData visitCounts))
    (λ error,
       console_error "Report preview error:" error ;;
       ret (ReportRedirect ("/reports/" +:+ template user_type
                            +:+ "?error=Failed to generate report."))).

End Reports.

(* ===================================================================== *)
(** ** Shapes of the attendance log                                        *)
(* ===================================================================== *)

Module Log.
Import Db.

(** [log_id] is a key, and every id in use lies below the counter. *)
Definition keyed (d : Database) : Prop :=
  NoDup (al_log_id <$> attendance_log d)
  ∧ Forall (λ r, (al_log_id r < auto_increment d)%nat) (attendance_log d).

Global Instance keyed_dec d : Decision (keyed d).
Proof. unfold keyed. apply _. Defined.

(** Nobody has two open sessions on one day. *)
Definition single_open (d : Database) : Prop :=
  ∀ user_id date,
    (length (filter (is_open user_id date) (attendance_log d)) ≤ 1)%nat.

(** The visits the count query sees under a pair [(degree, branch_code)]
    on a day: the [visit_count] of the pair's row, or 0 without a row. *)
Definition visits_under (k : string * string) (today : string) (d : Database)
  : nat :=
  length (filter (λ v, v = k) (student_visits today d)).

(** The same visit, whatever its [logout_time]. *)
Definition same_visit (r r' : LogRow) : Prop :=
  al_log_id r' = al_log_id r
  ∧ al_user_id r' = al_user_id r
  ∧ al_log_date r' = al_log_date r
  ∧ al_login_time r' = al_login_time r.

(** The foreign key of [users.program_id]: the program a user is assigned
    to is a row of [programs]. *)
Definition assigned_programs_exist (d : Database) : Prop :=
  ∀ u p, u ∈ users d → u_program_id u = Some p →
         ∃ r, r ∈ programs d ∧ p_program_id r = p.

End Log.

(* ===================================================================== *)
(** ** More installations                                                  *)
(* ===================================================================== *)

Module Cases.
Import Db Rt Scan.

(** A card was registered for [G1], but nobody entered [G1] as a user. *)
Definition orphan : World :=
  mkWorld (mkDb [mkRfid "G1" "ZZ"] [] [] [] [] 1) None [] [].

(** The library with a program nobody is enrolled in. *)
Definition catalogue : World :=
  mkWorld
    (mkDb (rfid_details Sample.library) (users Sample.library)
          (programs Sample.library ++ [mkProgram 2 "M.Tech" "VLSI Design" "VLSI"])
          (departments Sample.library) [] 1)
    None [] [].

(** The accounts of the console. *)
Definition accounts : list Admin.CredRow :=
  [Admin.mkCred "admin" (Some "secret") "admin" None].

End Cases.

(* ===================================================================== *)
(** * Properties                                                          *)
(* ===================================================================== *)

(** ** Strings *)

Section StringFacts.

Lemma prefix_split (p s : string) :
  String.prefix p s = true → ∃ r, s = p +:+ r.
Proof.
  revert s. induction p as [|c p IH]; intros s H.
  - exists s. reflexivity.
  - destruct s as [|c' s]; simpl in H; [discriminate|].
    destruct (ascii_dec c c') as [->|]; [|discriminate].
    destruct (IH s H) as [r ->]. exists r. reflexivity.
Qed.

Lemma prefix_append (p r : string) : String.prefix p (p +:+ r) = true.
Proof.
  induction p as [|c p IH]; simpl.
  - destruct r; reflexivity.
  - destruct (ascii_dec c c); [exact IH|congruence].
Qed.

Lemma append_assoc (a b c : string) : (a +:+ b) +:+ c = a +:+ (b +:+ c).
Proof.
  induction a as [|x a IH]; [reflexivity|].
  change (String x ((a +:+ b) +:+ c) = String x (a +:+ (b +:+ c))).
  by rewrite IH.
Qed.

Lemma append_empty_r (a : string) : a +:+ "" = a.
Proof.
  induction a as [|x a IH]; [reflexivity|].
  change (String x (a +:+ "") = String x a). by rewrite IH.
Qed.

Lemma split_nonempty sep s : Js.split sep s ≠ [].
Proof.
  destruct s as [|c s]; simpl; [done|].
  destruct (Ascii.eqb c sep); [done|]. destruct (Js.split sep s); done.
Qed.

Lemma split_free sep s : Js.free_of sep s = true → Js.split sep s = [s].
Proof.
  induction s as [|c s IH]; simpl; [done|].
  intros [Hc Hs]%andb_prop. apply negb_true_iff in Hc. rewrite Hc.
  rewrite (IH Hs). reflexivity.
Qed.

Lemma split_app_sep sep a b :
  Js.free_of sep a = true →
  Js.split sep (a +:+ String sep b) = a :: Js.split sep b.
Proof.
  induction a as [|c a IH]; simpl.
  - intros _. rewrite Ascii.eqb_refl. reflexivity.
  - intros [Hc Ha]%andb_prop. apply negb_true_iff in Hc. rewrite Hc.
    rewrite (IH Ha). reflexivity.
Qed.

(** The head of a split is the text before the first separator, and the
    second piece, when the rest has a separator, stops there. *)
Lemma split_second sep a b c :
  Js.free_of sep a = true → Js.free_of sep b = true →
  Js.split sep (a +:+ String sep (b +:+ String sep c)) !! 1%nat = Some b.
Proof.
  intros Ha Hb. rewrite (split_app_sep _ _ _ Ha), (split_app_sep _ _ _ Hb).
  reflexivity.
Qed.

End StringFacts.

(** ** The serial handler *)

Section SerialFacts.
Import Db Rt Scan Serial.

Lemma tag_line_shape line :
  Js.startsWith line tag_prefix = true →
  ∃ r, line = "RFID Tag UID" +:+ String ":" r.
Proof.
  intros H. destruct (prefix_split _ _ H) as [r ->]. exists r. reflexivity.
Qed.

Lemma substring_all s : String.substring 0 (String.length s) s = s.
Proof. induction s as [|c s IH]; simpl; [done|]. by rewrite IH. Qed.

Lemma remainder_tag r : remainder (tag_prefix +:+ r) = r.
Proof.
  unfold remainder, tag_prefix. simpl. rewrite Nat.sub_0_r. apply substring_all.
Qed.

(** On a tagged line [split] always has a second piece: the callback never
    throws. *)
Lemma extract_uid_defined line :
  Js.startsWith line tag_prefix = true → is_Some (extract_uid line).
Proof.
  intros [r ->]%tag_line_shape. unfold extract_uid.
  rewrite split_app_sep by reflexivity.
  simpl. destruct (Js.split ":" r) eqn:E.
  - by apply split_nonempty in E.
  - simpl. eauto.
Qed.

(** When the text after the prefix holds no further colon, the identifier
    is that text, trimmed. *)
Lemma extract_uid_no_colon r :
  Js.free_of ":" r = true →
  extract_uid (tag_prefix +:+ r) = Some (Js.trim r).
Proof.
  intros Hr. unfold extract_uid.
  change (tag_prefix +:+ r) with ("RFID Tag UID" +:+ String ":" r).
  rewrite split_app_sep by reflexivity. rewrite (split_free _ _ Hr).
  reflexivity.
Qed.

(** With a further colon the identifier stops at it. *)
Lemma extract_uid_colon a b :
  Js.free_of ":" a = true →
  extract_uid (tag_prefix +:+ a +:+ String ":" b) = Some (Js.trim a).
Proof.
  intros Ha. unfold extract_uid.
  change (tag_prefix +:+ a +:+ String ":" b)
    with ("RFID Tag UID" +:+ String ":" (a +:+ String ":" b)).
  rewrite split_app_sep by reflexivity. rewrite (split_app_sep _ _ _ Ha).
  reflexivity.
Qed.

Lemma on_data_not_tag t now later line s :
  Js.startsWith line tag_prefix = false →
  on_data t now later line s = (Returned NotATag, s).
Proof. intros H. unfold on_data. by rewrite H. Qed.

Lemma on_data_suppressed t now later line s u :
  Js.startsWith line tag_prefix = true → extract_uid line = Some u →
  u ∈ scannedRecently s →
  on_data t now later line s =
    (Returned (Suppressed u),
     mkServer (log (Emit (scan_event
                 (mkEvent u (Some IGNORED) None None (Some duplicate_message))))
                 (srv_world s))
              (scannedRecently s) (timers s)).
Proof.
  intros H E Hin. unfold on_data. rewrite H, E.
  destruct (decide (u ∈ scannedRecently s)); [reflexivity|contradiction].
Qed.

Lemma on_data_accepted t now later line s u :
  Js.startsWith line tag_prefix = true → extract_uid line = Some u →
  u ∉ scannedRecently s →
  on_data t now later line s =
    (Returned (Accepted u),
     mkServer (handleCardScan u now later (srv_world s)).2
              ({[u]} ∪ scannedRecently s)
              (timers s ++ [((t + SCAN_TIMEOUT_MS)%Z, u)])).
Proof.
  intros H E Hin. unfold on_data. rewrite H, E.
  destruct (decide (u ∈ scannedRecently s)); [contradiction|reflexivity].
Qed.

(** The verdict of the callback, read backwards. *)
Lemma on_data_verdict t now later line s v :
  (on_data t now later line s).1 = Returned v →
  match v with
  | NotATag => Js.startsWith line tag_prefix = false
  | Suppressed u =>
      Js.startsWith line tag_prefix = true ∧ extract_uid line = Some u
      ∧ u ∈ scannedRecently s
  | Accepted u =>
      Js.startsWith line tag_prefix = true ∧ extract_uid line = Some u
      ∧ u ∉ scannedRecently s
  end.
Proof.
  unfold on_data. destruct (Js.startsWith line tag_prefix) eqn:H.
  - destruct (extract_uid line) as [u|] eqn:E; simpl; [|discriminate].
    destruct (decide (u ∈ scannedRecently s)); simpl; intros [= <-]; auto.
  - simpl. intros [= <-]. reflexivity.
Qed.

Lemma on_data_never_throws t now later line s :
  ∃ v, (on_data t now later line s).1 = Returned v.
Proof.
  unfold on_data. destruct (Js.startsWith line tag_prefix) eqn:H; [|eauto].
  destruct (extract_uid_defined _ H) as [u ->].
  destruct (decide (u ∈ scannedRecently s)); eauto.
Qed.

End SerialFacts.

(** ** The line protocol *)

Section LineProtocol.
Import Db Rt Scan Serial.

Lemma readline_step line c c' rest :
  readline line (String c (String c' rest)) =
    if Ascii.eqb c "013" && Ascii.eqb c' "010"
    then let '(ls, b) := readline EmptyString rest in (line :: ls, b)
    else readline (line +:+ String c EmptyString) (String c' rest).
Proof. reflexivity. Qed.

(** The parser loses nothing: the lines it pushes, each followed by the
    delimiter, and the buffer it keeps are the data it was given. *)
Lemma readline_join_bounded n : ∀ data line,
  (String.length data ≤ n)%nat →
  join (readline line data).1 (readline line data).2 = line +:+ data.
Proof.
  induction n as [|n IH]; intros data line Hn.
  - destruct data; [|simpl in Hn; lia]. simpl. by rewrite append_empty_r.
  - destruct data as [|c rest]; [simpl; by rewrite append_empty_r|].
    destruct rest as [|c' rest'].
    + reflexivity.
    + rewrite readline_step.
      destruct (Ascii.eqb c "013" && Ascii.eqb c' "010") eqn:E.
      * apply andb_prop in E as [->%Ascii.eqb_eq ->%Ascii.eqb_eq].
        specialize (IH rest' "" ltac:(simpl in Hn; lia)).
        destruct (readline "" rest') as [ls b]. simpl in *. rewrite IH.
        reflexivity.
      * rewrite IH by (simpl in *; lia). by rewrite append_assoc.
Qed.

(** What reaches the callback are the pieces pushed that are not empty. *)
Lemma transform_join buffer chunk :
  ∃ pushed,
    (transform buffer chunk).1 = delivered pushed
    ∧ join pushed (transform buffer chunk).2 = buffer +:+ chunk
    ∧ ∀ line, line ∈ (transform buffer chunk).1 ↔
              line ∈ pushed ∧ line ≠ EmptyString.
Proof.
  unfold transform.
  pose proof (readline_join_bounded _ (buffer +:+ chunk) "" (le_n _)) as H.
  destruct (readline "" (buffer +:+ chunk)) as [pushed b]. simpl in *.
  exists pushed. split_and!; [done|done|].
  intros line. unfold delivered. rewrite list_elem_of_filter. tauto.
Qed.

(** A line reaches the scan logic (filter, then [handleCardScan]) exactly
    when it starts with the prefix. *)
Lemma scan_handling_iff_prefix t now later line s :
  (∃ u, (on_data t now later line s).1 = Returned (Suppressed u)
        ∨ (on_data t now later line s).1 = Returned (Accepted u))
  ↔ Js.startsWith line tag_prefix = true.
Proof.
  split.
  - intros [u [H|H]]; apply on_data_verdict in H; tauto.
  - intros H. destruct (extract_uid_defined _ H) as [u E]. exists u.
    destruct (decide (u ∈ scannedRecently s)).
    + left. by rewrite (on_data_suppressed _ _ _ _ _ _ H E).
    + right. by rewrite (on_data_accepted _ _ _ _ _ _ H E).
Qed.

(** The identifier a tagged line is scanned under is the piece between the
    first and the second colon, trimmed. *)
Lemma scanned_uid_is_second_piece t now later line s u :
  (on_data t now later line s).1 = Returned (Accepted u) →
  ∃ piece, Js.split ":" line !! 1%nat = Some piece ∧ u = Js.trim piece.
Proof.
  intros (_ & E & _)%on_data_verdict. unfold extract_uid in E.
  destruct (Js.split ":" line !! 1%nat) as [piece|]; [|discriminate].
  exists piece. split; [done|]. by injection E.
Qed.

(** C4, at the line [RFID Tag UID: AB:CD].  The parser hands the bytes
    before the delimiter over as one line.  The line starts with the
    prefix, so it is scanned; the text after the prefix, trimmed, is
    [AB:CD], but the identifier handed to [handleCardScan] is [AB]:
    [split(":")[1]] stops at the colon inside the identifier. *)
Theorem C4_uid_cut_at_inner_colon :
  let line := "RFID Tag UID: AB:CD" in
  transform "" (line +:+ delimiter) = ([line], "")
  ∧ Js.startsWith line tag_prefix = true
  ∧ Js.trim (remainder line) = "AB:CD"
  ∧ extract_uid line = Some "AB"
  ∧ ∀ w t now later,
      (on_data t now later line (init w)).1 = Returned (Accepted "AB").
Proof.
  simpl. split_and!; [reflexivity..|].
  intros w t now later.
  rewrite (on_data_accepted t now later _ (init w) "AB"); try reflexivity.
  simpl. set_solver.
Qed.

(** Two readers' lines that differ only after an inner colon are scanned
    under one identifier. *)
Lemma inner_colon_conflates :
  extract_uid "RFID Tag UID: AB:CD" = extract_uid "RFID Tag UID: AB:EF".
Proof. reflexivity. Qed.

End LineProtocol.

(** ** The duplicate filter *)

Section DuplicateFilter.
Import Db Rt Scan Serial.

(** A uid is in the set exactly while one of its timers is pending, and no
    uid has two pending timers. *)
Definition filter_inv (s : Server) : Prop :=
  (∀ u, u ∈ scannedRecently s ↔ u ∈ (timers s).*2) ∧ NoDup (timers s).*2.

Lemma filter_inv_init w : filter_inv (init w).
Proof. split; simpl; [set_solver|constructor]. Qed.

Lemma delete_pending (l : list (Z * string)) k due u :
  NoDup l.*2 → l !! k = Some (due, u) →
  NoDup (delete k l).*2 ∧ ∀ x, x ∈ (delete k l).*2 ↔ x ∈ l.*2 ∧ x ≠ u.
Proof.
  intros Hnd Hk.
  pose proof (take_drop_middle l k _ Hk) as Hl.
  rewrite delete_take_drop. rewrite <- Hl in Hnd.
  rewrite fmap_app in Hnd. csimpl in Hnd.
  apply NoDup_app in Hnd as (H1 & H2 & H3).
  apply NoDup_cons in H3 as (H3 & H4).
  split.
  - rewrite fmap_app. apply NoDup_app. split_and!; [done| |done].
    intros x Hx Hx'. apply (H2 x Hx). by right.
  - intros x.
    assert (l.*2 = (take k l).*2 ++ u :: (drop (S k) l).*2) as ->.
    { rewrite <- Hl at 1. by rewrite fmap_app. }
    rewrite fmap_app, !elem_of_app, elem_of_cons. split.
    + intros [Hx|Hx]; (split; [tauto|]); intros ->.
      * apply (H2 u Hx). by left.
      * by apply H3.
    + intros [[Hx|[->|Hx]] Hne]; tauto.
Qed.

Lemma filter_inv_step s ev s' :
  filter_inv s → step s ev = Some s' → filter_inv s'.
Proof.
  intros [Hset Hnd]. destruct ev as [t [now later line|k]]; unfold step; simpl.
  - destruct (on_data t now later line s) as [[v|e] s1] eqn:E; [|discriminate].
    intros [= <-].
    pose proof (on_data_verdict t now later line s v) as Hv.
    rewrite E in Hv. specialize (Hv eq_refl).
    destruct v as [|u|u].
    + rewrite (on_data_not_tag _ _ _ _ _ Hv) in E. injection E as <-. by split.
    + destruct Hv as (H1 & H2 & H3).
      rewrite (on_data_suppressed _ _ _ _ _ _ H1 H2 H3) in E.
      injection E as <-. by split.
    + destruct Hv as (H1 & H2 & H3).
      rewrite (on_data_accepted _ _ _ _ _ _ H1 H2 H3) in E.
      injection E as <-. split; simpl.
      * intros x. rewrite fmap_app, elem_of_app, elem_of_union, Hset.
        csimpl. rewrite elem_of_singleton, list_elem_of_singleton. tauto.
      * rewrite fmap_app. apply NoDup_app. split_and!; [done| |].
        -- intros x Hx Hx'. apply list_elem_of_singleton in Hx' as ->.
           by apply H3, Hset.
        -- apply NoDup_singleton.
  - unfold on_timeout. destruct (timers s !! k) as [[due u]|] eqn:Hk; [|discriminate].
    destruct (decide (due ≤ t)%Z); [|discriminate]. intros [= <-].
    destruct (delete_pending _ _ _ _ Hnd Hk) as [Hnd' Hmem].
    split; simpl; [|done].
    intros x. rewrite Hmem, elem_of_difference, Hset, elem_of_singleton. tauto.
Qed.

Lemma filter_inv_run evs s s' :
  filter_inv s → run evs s = Some s' → filter_inv s'.
Proof.
  revert s. induction evs as [|ev evs IH]; simpl; intros s Hs.
  - by intros [= <-].
  - destruct (step s ev) as [s1|] eqn:E; [|discriminate].
    apply IH. by eapply filter_inv_step.
Qed.




End DuplicateFilter.

Section DuplicateWindow.
Import Db Rt Scan Serial.



End DuplicateWindow.

(** ** Tables *)

Section TableFacts.
Import Db.

(** The first row that satisfies a decidable condition. *)
Lemma first_match {A} (P : A → Prop) `{∀ x, Decision (P x)} (l : list A) x rest :
  filter P l = x :: rest →
  ∃ pre post, l = pre ++ x :: post ∧ P x ∧ Forall (λ y, ¬ P y) pre
              ∧ rest = filter P post.
Proof.
  induction l as [|a l IH]; [done|].
  rewrite filter_cons. destruct (decide (P a)) as [Ha|Ha].
  - intros [= -> <-]. exists [], l. by split_and!.
  - intros (pre & post & -> & Hx & Hpre & Hrest)%IH.
    exists (a :: pre), post. split_and!; [done|done| |done]. by constructor.
Qed.

Lemma filter_nil_iff {A} (P : A → Prop) `{∀ x, Decision (P x)} (l : list A) :
  filter P l = [] ↔ ∀ x, x ∈ l → ¬ P x.
Proof.
  split.
  - intros E x Hx HP. assert (x ∈ filter P l) as Hin by (by apply list_elem_of_filter).
    rewrite E in Hin. by apply elem_of_nil in Hin.
  - intros Hall. destruct (filter P l) as [|x rest] eqn:E; [done|].
    assert (x ∈ filter P l) as [HP Hx]%list_elem_of_filter by (rewrite E; left).
    by destruct (Hall x Hx).
Qed.

(** Updating by key touches the one row that has the key. *)
Lemma update_by_key {A K} `{EqDecision K} (key : A → K) (g : A → A) pre r post :
  NoDup (key <$> (pre ++ r :: post)) →
  (λ x, if decide (key x = key r) then g x else x) <$> (pre ++ r :: post)
  = pre ++ g r :: post.
Proof.
  rewrite fmap_app, fmap_cons.
  intros (_ & Hpre & (Hr & _)%NoDup_cons)%NoDup_app.
  rewrite fmap_app, fmap_cons. f_equal; [|f_equal].
  - rewrite <- (list_fmap_id pre) at 2. apply list_fmap_ext.
    intros i x Hx. destruct (decide (key x = key r)) as [E|]; [|done].
    exfalso. apply (Hpre (key x)).
    + apply list_elem_of_fmap_2. by eapply list_elem_of_lookup_2.
    + rewrite E. left.
  - by destruct (decide (key r = key r)).
  - rewrite <- (list_fmap_id post) at 2. apply list_fmap_ext.
    intros i x Hx. destruct (decide (key x = key r)) as [E|]; [|done].
    exfalso. apply Hr. rewrite <- E.
    apply list_elem_of_fmap_2. by eapply list_elem_of_lookup_2.
Qed.

(** The open-session query returns the id of the first open row. *)
Lemma select_open_login_first user_id date d log_id rest :
  select_open_login user_id date d = log_id :: rest →
  ∃ pre r post,
    attendance_log d = pre ++ r :: post ∧ is_open user_id date r
    ∧ Forall (λ y, ¬ is_open user_id date y) pre ∧ al_log_id r = log_id.
Proof.
  unfold select_open_login.
  destruct (filter (is_open user_id date) (attendance_log d)) as [|r l] eqn:E;
    [done|].
  destruct (first_match _ _ _ _ E) as (pre & post & Hl & Hr & Hpre & _).
  csimpl. rewrite take_0. intros [= <- _]. by exists pre, r, post.
Qed.

Lemma select_open_login_nil user_id date d :
  select_open_login user_id date d = [] ↔
  ∀ r, r ∈ attendance_log d → ¬ is_open user_id date r.
Proof.
  rewrite <- (filter_nil_iff (is_open user_id date) (attendance_log d)).
  unfold select_open_login.
  destruct (filter (is_open user_id date) (attendance_log d)); [by split|].
  csimpl. split; discriminate.
Qed.

(** The grouping key of a log row does not read [logout_time]. *)
Lemma student_visits_logout today t F d :
  (∀ r, F r = r ∨ F r = set_logout t r) →
  student_visits today (with_attendance d (F <$> attendance_log d) (auto_increment d))
  = student_visits today d.
Proof.
  intros HF. unfold student_visits. simpl.
  induction (attendance_log d) as [|r l IH]; [done|].
  csimpl. rewrite IH. f_equal.
  destruct (HF r) as [->| ->]; reflexivity.
Qed.

Lemma student_visits_update_logout today t log_id d :
  student_visits today (update_logout t log_id d) = student_visits today d.
Proof.
  unfold update_logout. apply (student_visits_logout today t).
  intros r. destruct (decide _); auto.
Qed.

Lemma student_visits_auto_logout today t day d :
  student_visits today (update_auto_logout t day d) = student_visits today d.
Proof.
  unfold update_auto_logout. apply (student_visits_logout today t).
  intros r. destruct (decide _); auto.
Qed.

(** A new row of a user who is no student adds no visit. *)
Lemma student_visits_insert_other today user_id date t d :
  (∀ u, u ∈ users d → u_user_id u = user_id → u_user_type u ≠ "student") →
  student_visits today (insert_login user_id date t d) = student_visits today d.
Proof.
  intros Hno. unfold student_visits. simpl.
  rewrite bind_app. csimpl. rewrite app_nil_r.
  match goal with |- _ ++ ?x = _ => assert (x = []) as ->; [|by rewrite app_nil_r] end.
  induction (users d) as [|u us IH]; [done|].
  rewrite filter_cons. destruct (decide (user_id = u_user_id u)) as [E|].
  - csimpl. rewrite IH by (intros; apply Hno; [by right|done]).
    rewrite app_nil_r.
    assert (u_user_type u ≠ "student") as Hu by (apply Hno; [left|done]).
    induction (filter _ (programs d)) as [|p ps IHp]; [done|].
    csimpl. rewrite IHp.
    destruct (decide (date = today ∧ u_user_type u = "student")); [tauto|done].
  - apply IH. intros; apply Hno; [by right|done].
Qed.

Lemma select_branch_counts_ext today d d' :
  student_visits today d' = student_visits today d →
  select_branch_counts today d' = select_branch_counts today d.
Proof. unfold select_branch_counts. by intros ->. Qed.

End TableFacts.

(** ** Running [handleCardScan] *)

#[local] Arguments Db.select_rfid_user : simpl never.
#[local] Arguments Db.select_user_details : simpl never.
#[local] Arguments Db.select_open_login : simpl never.
#[local] Arguments Db.select_branch_counts : simpl never.
#[local] Arguments Db.select_uid_taken : simpl never.
#[local] Arguments Db.update_logout : simpl never.
#[local] Arguments Db.insert_login : simpl never.
#[local] Arguments Db.update_auto_logout : simpl never.
#[local] Arguments Db.delete_rfid_of : simpl never.
#[local] Arguments Db.insert_rfid : simpl never.
#[local] Arguments Scan.group_counts : simpl never.

Ltac prog_unfold :=
  unfold Scan.handleCardScan, Scan.getTodayBranchCounts, Scan.autoLogoutCurrentDay,
    Scan.counts_of, Scan.lift, Scan.emit_scan, Scan.assign,
    Rt.try_catch, Rt.finally, Rt.bind, Rt.ret, Rt.throw, Rt.query, Rt.emit,
    Rt.console_error, Rt.getConnection, Rt.beginTransaction, Rt.commit,
    Rt.rollback, Rt.next_fault, Rt.log, Rt.since, Rt.no_faults in *;
  simpl in *.

(** The oracle of a world without faults answers [false]. *)
Ltac pop_ok :=
  match goal with
  | Hnf : Forall _ ?fl |- context [match ?fl with [] => _ | _ :: _ => _ end] =>
      destruct fl as [|? ?]; [|apply Forall_cons in Hnf as [-> Hnf]]; simpl
  end.

Ltac use_rows :=
  match goal with
  | H : ?x = _ |- context [match ?x with [] => _ | _ :: _ => _ end] =>
      rewrite H; simpl
  end.

(** Any oracle, any rows: one goal per path through the function. *)
Ltac all_paths :=
  repeat match goal with
  | |- context [match ?fl with [] => _ | _ :: _ => _ end] =>
      is_var fl; destruct fl as [|[] ?]; simpl
  | |- context [match Db.select_rfid_user ?u ?d with [] => _ | _ :: _ => _ end] =>
      destruct (Db.select_rfid_user u d) eqn:?; simpl
  | |- context [match Db.select_user_details ?u ?d with [] => _ | _ :: _ => _ end] =>
      destruct (Db.select_user_details u d) eqn:?; simpl
  | |- context [match Db.select_open_login ?u ?t ?d with [] => _ | _ :: _ => _ end] =>
      destruct (Db.select_open_login u t d) eqn:?; simpl
  | |- context [match Scan.group_counts ?r ?g with Rt.Returned _ => _ | Rt.Thrown _ => _ end] =>
      destruct (Scan.group_counts r g) eqn:?; simpl
  end.

Ltac trace_norm := rewrite <- ?app_assoc; simpl; rewrite ?drop_app_length; simpl.

Section ScanPaths.
Import Db Rt Scan.

Lemma handleCardScan_returns uid now later w :
  (handleCardScan uid now later w).1 = Returned tt.
Proof. destruct w as [d tx fl tr]. prog_unfold. all_paths; reflexivity. Qed.

(** The trace only grows, and the transaction snapshot is not touched. *)
Lemma handleCardScan_extends uid now later w :
  let w' := (handleCardScan uid now later w).2 in
  trace w' = trace w ++ since w w' ∧ txn w' = txn w.
Proof.
  destruct w as [d tx fl tr]. prog_unfold.
  all_paths; trace_norm; done.
Qed.

(** What a scan can do to the database: nothing, close one session, or
    open one. *)
Lemma handleCardScan_db uid now later w :
  let w' := (handleCardScan uid now later w).2 in
  db w' = db w
  ∨ (∃ user_id r1 log_id r3,
        select_rfid_user uid (db w) = user_id :: r1
        ∧ select_open_login user_id (currentDate now) (db w) = log_id :: r3
        ∧ db w' = update_logout (currentTime now) log_id (db w))
  ∨ (∃ user_id r1,
        select_rfid_user uid (db w) = user_id :: r1
        ∧ select_open_login user_id (currentDate now) (db w) = []
        ∧ db w' = insert_login user_id (currentDate now) (currentTime now) (db w)).
Proof.
  destruct w as [d tx fl tr]. prog_unfold.
  all_paths; eauto 10.
Qed.

(** The four paths of a scan whose statements all complete. *)
Lemma scan_unregistered uid now later w :
  no_faults w →
  select_rfid_user uid (db w) = [] →
  let w' := (handleCardScan uid now later w).2 in
  db w' = db w
  ∧ since w w' =
      [ Issued (SelectRfidUser uid) false;
        Emit (scan_event (mkEvent uid (Some UNREGISTERED) None None None)) ].
Proof.
  intros Hnf H1. destruct w as [d tx fl tr]. prog_unfold.
  repeat (first [pop_ok | use_rows]); trace_norm; done.
Qed.

Lemma scan_no_details uid now later w user_id r1 :
  no_faults w →
  select_rfid_user uid (db w) = user_id :: r1 →
  select_user_details user_id (db w) = [] →
  let w' := (handleCardScan uid now later w).2 in
  db w' = db w
  ∧ since w w' =
      [ Issued (SelectRfidUser uid) false;
        Issued (SelectUserDetails user_id) false;
        Emit (scan_event (mkEvent uid (Some NO_DETAILS) None None None)) ].
Proof.
  intros Hnf H1 H2. destruct w as [d tx fl tr]. prog_unfold.
  repeat (first [pop_ok | use_rows]); trace_norm; done.
Qed.

Lemma scan_logout uid now later w user_id r1 details r2 log_id r3 :
  no_faults w →
  select_rfid_user uid (db w) = user_id :: r1 →
  select_user_details user_id (db w) = details :: r2 →
  select_open_login user_id (currentDate now) (db w) = log_id :: r3 →
  let w' := (handleCardScan uid now later w).2 in
  db w' = update_logout (currentTime now) log_id (db w)
  ∧ since w w' =
      [ Issued (SelectRfidUser uid) false;
        Issued (SelectUserDetails user_id) false;
        Issued (SelectOpenLogin user_id (currentDate now)) false;
        Issued (UpdateLogout (currentTime now) log_id) false;
        Emit (scan_event (mkEvent uid (Some LOGOUT) (Some details)
                                  (Some (currentTime now)) None)) ].
Proof.
  intros Hnf H1 H2 H3. destruct w as [d tx fl tr]. prog_unfold.
  repeat (first [pop_ok | use_rows]); trace_norm; done.
Qed.

Lemma scan_login uid now later w user_id r1 details r2 :
  no_faults w →
  select_rfid_user uid (db w) = user_id :: r1 →
  select_user_details user_id (db w) = details :: r2 →
  select_open_login user_id (currentDate now) (db w) = [] →
  let w' := (handleCardScan uid now later w).2 in
  let login := mkEvent uid (Some LOGIN) (Some details) (Some (currentTime now)) None in
  db w' = insert_login user_id (currentDate now) (currentTime now) (db w)
  ∧ since w w' =
      [ Issued (SelectRfidUser uid) false;
        Issued (SelectUserDetails user_id) false;
        Issued (SelectOpenLogin user_id (currentDate now)) false;
        Issued (InsertLogin user_id (currentDate now) (currentTime now)) false;
        Emit (scan_event login);
        Issued (SelectBranchCounts (currentDate later)) false ]
      ++ match counts_of (currentDate later) (db w') with
         | Returned counts => [ Emit (counts_update counts) ]
         | Thrown e => [ ConsoleError "DB/Logic Error:" e;
                         Emit (scan_event (set_status ERROR login)) ]
         end.
Proof.
  intros Hnf H1 H2 H3. destruct w as [d tx fl tr]. prog_unfold.
  repeat (first [pop_ok | use_rows]);
    match goal with
    | |- context [match group_counts ?r ?g with Returned _ => _ | Thrown _ => _ end] =>
        destruct (group_counts r g) eqn:E
    end; simpl; trace_norm; rewrite ?E; done.
Qed.

End ScanPaths.

(** ** The scan decision *)

(** Case analysis on membership in an explicit list. *)
Ltac in_list H :=
  repeat (apply elem_of_cons in H as [H|H]; [try discriminate H|]);
  try (by apply elem_of_nil in H).

Section ScanDecision.
Import Db Rt Scan.

Lemma select_rfid_user_bound uid user_id d :
  mkRfid user_id uid ∈ rfid_details d →
  (∀ r, r ∈ rfid_details d → rf_uid r = uid → rf_user_id r = user_id) →
  ∃ r1, select_rfid_user uid d = user_id :: r1.
Proof.
  intros Hin Huniq. unfold select_rfid_user.
  destruct (filter (λ r, rf_uid r = uid) (rfid_details d)) as [|r l] eqn:E.
  - exfalso. eapply (filter_nil_iff (λ r, rf_uid r = uid)); eauto.
  - assert (r ∈ filter (λ r, rf_uid r = uid) (rfid_details d)) as [Hu Hr]%list_elem_of_filter
      by (rewrite E; left).
    csimpl. rewrite (Huniq r Hr Hu). eauto.
Qed.

Lemma select_rfid_user_unbound uid d :
  (∀ r, r ∈ rfid_details d → rf_uid r ≠ uid) → select_rfid_user uid d = [].
Proof.
  intros Hno. unfold select_rfid_user.
  rewrite (proj2 (filter_nil_iff (λ r, rf_uid r = uid) (rfid_details d))); [done|].
  intros r Hr. by apply Hno.
Qed.

Lemma left_join_nonempty {B} (l : list B) : left_join l ≠ [].
Proof. by destruct l. Qed.

Lemma select_user_details_exist user_id d :
  (∃ u, u ∈ users d ∧ u_user_id u = user_id) →
  ∃ details r2, select_user_details user_id d = details :: r2.
Proof.
  intros (u & Hu & Hid). unfold select_user_details.
  destruct (filter (λ u, u_user_id u = user_id) (users d)) as [|u0 us] eqn:E.
  - exfalso. eapply (filter_nil_iff (λ u, u_user_id u = user_id)); eauto.
  - csimpl.
    destruct (left_join (filter (λ p, u_program_id u0 = Some (p_program_id p)) (programs d)))
      as [|p ps] eqn:Ep; [by apply left_join_nonempty in Ep|].
    csimpl.
    destruct (left_join (filter (λ x, u_department_id u0 = Some (d_department_id x)) (departments d)))
      as [|x xs] eqn:Ed; [by apply left_join_nonempty in Ed|].
    csimpl. eauto.
Qed.

(** C1.  Let [uid] be bound in [rfid_details] to [user_id] (and to no one
    else), let a [users] row exist for [user_id], let [log_id] be a key of
    [attendance_log], and let every statement complete.  Then the scan is
    decided by one condition, whether [attendance_log] holds a row of
    [user_id] with today's date and no [logout_time]:
    - if it does, one such row [r] becomes
      [(log_id r, user_id, today, login_time r, current time)], nothing
      else in the database changes, and the only event is a [scan_event]
      with status [LOGOUT];
    - if it does not, one row [(user_id, today, current time, NULL)] is
      appended and the first event is a [scan_event] with status [LOGIN]
      (followed by the [counts_update], or by an [ERROR] event should the
      grouping of the counts throw). *)
Theorem C1_login_logout_toggle w uid now later user_id :
  no_faults w →
  mkRfid user_id uid ∈ rfid_details (db w) →
  (∀ r, r ∈ rfid_details (db w) → rf_uid r = uid → rf_user_id r = user_id) →
  (∃ u, u ∈ users (db w) ∧ u_user_id u = user_id) →
  NoDup (al_log_id <$> attendance_log (db w)) →
  let w' := (handleCardScan uid now later w).2 in
  let today := currentDate now in
  let t := currentTime now in
  ∃ details,
    head (select_user_details user_id (db w)) = Some details
    ∧ ((∃ r, r ∈ attendance_log (db w) ∧ is_open user_id today r) →
        ∃ pre r post,
          attendance_log (db w) = pre ++ r :: post
          ∧ is_open user_id today r
          ∧ db w' = with_attendance (db w)
                      (pre ++ mkLog (al_log_id r) user_id today (al_login_time r)
                                    (Some t) :: post)
                      (auto_increment (db w))
          ∧ events_of (since w w') =
              [scan_event (mkEvent uid (Some LOGOUT) (Some details) (Some t) None)])
    ∧ (¬ (∃ r, r ∈ attendance_log (db w) ∧ is_open user_id today r) →
        let login := mkEvent uid (Some LOGIN) (Some details) (Some t) None in
        db w' = with_attendance (db w)
                  (attendance_log (db w)
                     ++ [mkLog (auto_increment (db w)) user_id today t None])
                  (S (auto_increment (db w)))
        ∧ events_of (since w w') =
            scan_event login ::
            match counts_of (currentDate later) (db w') with
            | Returned counts => [counts_update counts]
            | Thrown _ => [scan_event (set_status ERROR login)]
            end).
Proof.
  intros Hnf Hin Huniq Huser Hkey w' today t.
  destruct (select_rfid_user_bound _ _ _ Hin Huniq) as [r1 H1].
  destruct (select_user_details_exist _ _ Huser) as (details & r2 & H2).
  exists details. split; [by rewrite H2|]. split.
  - intros (r0 & Hr0 & Hopen).
    destruct (select_open_login user_id today (db w)) as [|log_id r3] eqn:H3.
    { exfalso. by eapply select_open_login_nil. }
    destruct (select_open_login_first _ _ _ _ _ H3)
      as (pre & r & post & Hl & Hr & _ & Hid).
    destruct (scan_logout uid now later w _ _ _ _ _ _ Hnf H1 H2 H3) as [Hdb Hacts].
    exists pre, r, post. split_and!; [done|done| |].
    + fold w' in Hdb. rewrite Hdb. unfold update_logout. f_equal.
      rewrite Hl, <- Hid. rewrite update_by_key by (by rewrite <- Hl).
      destruct Hr as (Hu & Hd & _). unfold set_logout. by rewrite Hu, Hd.
    + fold w' in Hacts. by rewrite Hacts.
  - intros Hnone.
    assert (select_open_login user_id today (db w) = []) as H3.
    { apply select_open_login_nil. intros r Hr Hopen. apply Hnone. eauto. }
    destruct (scan_login uid now later w _ _ _ _ Hnf H1 H2 H3) as [Hdb Hacts].
    fold w' in Hdb, Hacts. split; [by rewrite Hdb|].
    rewrite Hacts. simpl. by destruct (counts_of _ _).
Qed.

(** C6.  A uid with no row in [rfid_details]: the database is left as it
    is whatever the driver does, the only statement ever issued is the
    lookup in [rfid_details] (no user-details query, no insert, no update),
    and when the lookup completes the scan consists of that lookup and one
    [scan_event] with status [UNREGISTERED]. *)
Theorem C6_unregistered_scan w uid now later :
  (∀ r, r ∈ rfid_details (db w) → rf_uid r ≠ uid) →
  let w' := (handleCardScan uid now later w).2 in
  db w' = db w
  ∧ (∀ q b, Issued q b ∈ since w w' → q = SelectRfidUser uid)
  ∧ (no_faults w →
       (handleCardScan uid now later w).1 = Returned tt
       ∧ since w w' =
           [ Issued (SelectRfidUser uid) false;
             Emit (scan_event (mkEvent uid (Some UNREGISTERED) None None None)) ]).
Proof.
  intros Hno%select_rfid_user_unbound w'. split_and!.
  - subst w'. destruct w as [d tx fl tr]. prog_unfold. rewrite Hno.
    all_paths; reflexivity.
  - subst w'. destruct w as [d tx fl tr]. prog_unfold. rewrite Hno.
    all_paths; trace_norm; intros q b H; in_list H; by injection H as <- _.
  - intros Hnf. split; [apply handleCardScan_returns|].
    by apply scan_unregistered.
Qed.

(** Whatever the oracle, [getTodayBranchCounts] returns what [counts_of]
    makes of the database when its query completes. *)
Lemma getTodayBranchCounts_result today w :
  (next_fault w).1 = false →
  (getTodayBranchCounts today w).1 = counts_of today (db w)
  ∧ db (getTodayBranchCounts today w).2 = db w.
Proof.
  destruct w as [d tx fl tr]. prog_unfold.
  destruct fl as [|[] ?]; simpl; done.
Qed.

Lemma counts_of_update_logout today t log_id d :
  counts_of today (update_logout t log_id d) = counts_of today d.
Proof.
  unfold counts_of. f_equal. apply select_branch_counts_ext.
  apply student_visits_update_logout.
Qed.

(** C3.  Let [log_id] be a key of [attendance_log].
    (a) If the scan emits a [scan_event] with status [LOGOUT], the database
        differs from the one before in the [logout_time] of one
        [attendance_log] row only, [getTodayBranchCounts] computes the same
        counts after as before for every day, and no [counts_update] is
        emitted.
    (b) If the scan emits a [counts_update], it has emitted a [scan_event]
        with status [LOGIN], and the payload is what the grouping makes of
        the database as the scan leaves it. *)
Theorem C3_counts_consistent w uid now later :
  NoDup (al_log_id <$> attendance_log (db w)) →
  let w' := (handleCardScan uid now later w).2 in
  (∀ e, Emit (scan_event e) ∈ since w w' → ev_status e = Some LOGOUT →
      (∃ pre r post t,
          attendance_log (db w) = pre ++ r :: post
          ∧ db w' = with_attendance (db w) (pre ++ set_logout t r :: post)
                                    (auto_increment (db w)))
      ∧ (∀ today, counts_of today (db w') = counts_of today (db w))
      ∧ (∀ c, Emit (counts_update c) ∉ since w w'))
  ∧ (∀ c, Emit (counts_update c) ∈ since w w' →
      (∃ e, Emit (scan_event e) ∈ since w w' ∧ ev_status e = Some LOGIN)
      ∧ counts_of (currentDate later) (db w') = Returned c).
Proof.
  intros Hkey w'. subst w'. destruct w as [d tx fl tr]. prog_unfold. split.
  - all_paths; trace_norm; intros ev H Hst; in_list H;
      injection H as ->; try discriminate Hst.
    all: match goal with
         | H3 : select_open_login _ _ _ = _ :: _ |- _ =>
             destruct (select_open_login_first _ _ _ _ _ H3)
               as (pre & r & post & Hl & Hr & _ & Hid)
         end.
    all: split_and!;
      [ exists pre, r, post, (currentTime now); split; [done|];
        unfold update_logout; f_equal; rewrite Hl, <- Hid;
        apply update_by_key; by rewrite <- Hl
      | intros today; apply counts_of_update_logout
      | intros cu Hc; in_list Hc ].
  - all_paths; trace_norm; intros cu H; in_list H; injection H as ->.
    all: split; [|done].
    all: eexists; split; [apply list_elem_of_In; simpl; eauto 10|reflexivity].
Qed.

End ScanDecision.

(** ** Failures inside a scan *)

Ltac split_trace :=
  first
    [ exists []; eexists; split; [reflexivity|]
    | eexists [_]; eexists; split; [reflexivity|]
    | eexists [_; _]; eexists; split; [reflexivity|]
    | eexists [_; _; _]; eexists; split; [reflexivity|]
    | eexists [_; _; _; _]; eexists; split; [reflexivity|]
    | eexists [_; _; _; _; _]; eexists; split; [reflexivity|]
    | eexists [_; _; _; _; _; _]; eexists; split; [reflexivity|] ].

Section ScanFailures.
Import Db Rt Scan.

(** The database after a scan is the one its completed statements lead to. *)
Lemma handleCardScan_replay uid now later w :
  let w' := (handleCardScan uid now later w).2 in
  db w' = replay (since w w') (db w).
Proof.
  destruct w as [d tx fl tr]. prog_unfold. all_paths; trace_norm; reflexivity.
Qed.

(** C7.  If a statement [q] issued during the scan throws, then the call
    still returns normally (the error does not escape), and what the scan
    did ends with exactly three steps: the statement that threw, one
    [console.error] of that error, one [scan_event] carrying the scanned
    uid and the status [ERROR].  No statement before it threw, none is
    issued after it (no retry, no compensating write), and the database is
    the one left by the statements that completed before the failure. *)
Theorem C7_error_is_logged_and_reported w uid now later q :
  let w' := (handleCardScan uid now later w).2 in
  Issued q true ∈ since w w' →
  (handleCardScan uid now later w).1 = Returned tt
  ∧ ∃ pre e,
      since w w' =
        pre ++ [ Issued q true;
                 ConsoleError "DB/Logic Error:" (DbError q);
                 Emit (scan_event e) ]
      ∧ ev_uid e = uid
      ∧ ev_status e = Some ERROR
      ∧ (∀ q' b, Issued q' b ∈ pre → b = false)
      ∧ db w' = replay pre (db w).
Proof.
  intros w'. subst w'. destruct w as [d tx fl tr]. prog_unfold.
  all_paths; trace_norm; intros H; in_list H; injection H as ->;
    (split; [reflexivity|]); split_trace;
    (split_and!; [reflexivity|reflexivity| |reflexivity]);
    intros q' b Hq; in_list Hq; by injection Hq as _ <-.
Qed.

End ScanFailures.

(** ** The scheduled logout *)

Section AutoLogout.
Import Db Rt Scan.

(** A failed run changes nothing and logs the error. *)
Lemma autoLogout_failure today w fs :
  faults w = true :: fs →
  let q := UpdateAutoLogout "19:00:00" today in
  autoLogoutCurrentDay today w =
    (Returned tt,
     mkWorld (db w) (txn w) fs
       (trace w ++ [Issued q true] ++ [ConsoleError "Auto-logout error:" (DbError q)])).
Proof.
  intros Hf. destruct w as [d tx fl tr]. prog_unfold. subst fl. simpl.
  by rewrite <- app_assoc.
Qed.

(** C5.  When the statement of the job completes, every row of
    [attendance_log] keeps its [log_id], [user_id], [log_date] and
    [login_time]; its [logout_time] becomes ['19:00:00'] if the row is of
    [today] and had none, and is unchanged otherwise; no row is added or
    removed; the other tables are as before; and no row of [today] is left
    without a [logout_time]. *)
Theorem C5_auto_logout_current_day w today :
  no_faults w →
  let d := db w in
  let d' := db (autoLogoutCurrentDay today w).2 in
  Forall2
    (λ r r',
       al_log_id r' = al_log_id r
       ∧ al_user_id r' = al_user_id r
       ∧ al_log_date r' = al_log_date r
       ∧ al_login_time r' = al_login_time r
       ∧ al_logout_time r' =
           if decide (al_log_date r = today ∧ al_logout_time r = None)
           then Some "19:00:00" else al_logout_time r)
    (attendance_log d) (attendance_log d')
  ∧ rfid_details d' = rfid_details d
  ∧ users d' = users d
  ∧ programs d' = programs d
  ∧ departments d' = departments d
  ∧ auto_increment d' = auto_increment d
  ∧ ∀ r', r' ∈ attendance_log d' → al_log_date r' = today →
          al_logout_time r' ≠ None.
Proof.
  intros Hnf d d'.
  assert (d' = update_auto_logout "19:00:00" today d) as ->.
  { subst d d'. destruct w as [d tx fl tr]. prog_unfold.
    destruct fl as [|b fl]; [done|].
    apply Forall_cons in Hnf as [-> _]. done. }
  unfold update_auto_logout. simpl. split_and!; try reflexivity.
  - apply Forall2_fmap_r, Forall_Forall2_diag, Forall_forall.
    intros r _. simpl. by destruct (decide _).
  - intros r' (r & -> & Hr)%list_elem_of_fmap Hdate.
    destruct (decide (al_log_date r = today ∧ al_logout_time r = None)) as [|Hn];
      [done|].
    intros Hnone. apply Hn. by split.
Qed.

End AutoLogout.

(** ** Authentication *)

Section Authentication.
Import Web.

Lemma run_chain_session ms req su :
  session_user req = Some su → run_chain ms req = RunsHandler.
Proof.
  intros Hs. induction ms as [|[|f] ms IH]; simpl; [done| |done].
  unfold isAuthenticated. by rewrite Hs.
Qed.

Lemma run_chain_no_session ms req :
  session_user req = None → IsAuthenticated ∈ ms →
  run_chain ms req =
    Ends (Redirect "/login?error=Please login to access this page.").
Proof.
  intros Hs. induction ms as [|[|f] ms IH]; simpl.
  - by intros ?%elem_of_nil.
  - intros _. unfold isAuthenticated. by rewrite Hs.
  - intros [?|?]%elem_of_cons; [done|by apply IH].
Qed.

(** Every registration of the admin section carries the guard. *)
Lemma admin_routes_guarded r :
  r ∈ admin_routes → IsAuthenticated ∈ r_middleware r.
Proof.
  intros H. unfold admin_routes in H. in_list H; subst r; simpl; set_solver.
Qed.

(** The routes the console is reached through, by name. *)
Lemma named_routes_guarded su b1 b2 :
  Forall (λ p, ∃ r, find_route (mkRequest GET p su b1 b2) = Some r
                    ∧ r_pattern r = p ∧ r ∈ admin_routes)
    [ "/home"; "/reports/student"; "/reports/faculty"; "/manage-student";
      "/manage-faculty"; "/edit-rfid"; "/manage-programs" ].
Proof.
  repeat constructor;
    (eexists; split; [reflexivity|split; [reflexivity|]]);
    unfold admin_routes; set_solver.
Qed.

(** C9.  A request whose route is registered with [isAuthenticated] (as
    every route of the admin section is): with [req.session.user] set the
    chain reaches the handler; without it the chain ends in the redirect to
    [/login] with the error message, and the handler is not run. *)
Theorem C9_authentication_guard req r :
  find_route req = Some r →
  IsAuthenticated ∈ r_middleware r ∨ r ∈ admin_routes →
  match session_user req with
  | Some _ => dispatch req = Some (r, RunsHandler)
  | None =>
      dispatch req =
        Some (r, Ends (Redirect "/login?error=Please login to access this page."))
  end.
Proof.
  intros Hr Hg.
  assert (IsAuthenticated ∈ r_middleware r) as Hguard
    by (destruct Hg; [done|by apply admin_routes_guarded]).
  unfold dispatch. rewrite Hr.
  destruct (session_user req) as [su|] eqn:Hs.
  - by rewrite (run_chain_session _ _ su).
  - by rewrite run_chain_no_session.
Qed.

(** Without a session the guarded update does not touch the world. *)
Lemma post_edit_rfid_update_unauthenticated req w :
  session_user req = None →
  post_edit_rfid_update req w =
    (Rt.Returned (Redirect "/login?error=Please login to access this page."), w).
Proof. intros Hs. unfold post_edit_rfid_update, isAuthenticated. by rewrite Hs. Qed.

End Authentication.

(** ** Re-binding a card *)

Section RfidUpdate.
Import Db Rt Web.

Lemma select_uid_taken_nil uid user_id d :
  select_uid_taken uid user_id d = [] ↔
  ∀ r, r ∈ rfid_details d → rf_uid r = uid → rf_user_id r = user_id.
Proof.
  unfold select_uid_taken. split.
  - intros E r Hr Hu. destruct (decide (rf_user_id r = user_id)) as [|Hne]; [done|].
    apply fmap_nil_inv in E.
    exfalso. eapply (filter_nil_iff (λ r, rf_uid r = uid ∧ rf_user_id r ≠ user_id));
      eauto.
  - intros Hall.
    rewrite (proj2 (filter_nil_iff
      (λ r, rf_uid r = uid ∧ rf_user_id r ≠ user_id) (rfid_details d))); [done|].
    intros r Hr [Hu Hne]. by apply Hne, Hall.
Qed.

Lemma edit_rfid_update_missing_user req w :
  present (body_user_id req) = None →
  edit_rfid_update req w = (Returned (Redirect "/edit-rfid?error=User ID missing."), w).
Proof. intros H. unfold edit_rfid_update. by rewrite H. Qed.

Ltac update_paths :=
  repeat match goal with
  | |- context [match ?fl with [] => _ | _ :: _ => _ end] =>
      is_var fl; destruct fl as [|[] ?]; simpl
  | |- context [match select_uid_taken ?x ?u ?d with [] => _ | _ :: _ => _ end] =>
      destruct (select_uid_taken x u d) eqn:?; simpl
  end.

(** The update is all or nothing: either it answers with the success
    redirect and [rfid_details] is the re-bound table, or it does not and
    the database is the one before. *)
Lemma edit_rfid_update_atomic req w u :
  present (body_user_id req) = Some u →
  let out := edit_rfid_update req w in
  (out.1 = updated_response u
   ∧ db out.2 = rebound u (present (body_new_uid req)) (db w))
  ∨ (out.1 ≠ updated_response u ∧ db out.2 = db w).
Proof.
  intros Hu. unfold edit_rfid_update, updated_response, rebound, release.
  rewrite Hu. destruct w as [d tx fl tr]. prog_unfold.
  destruct (present (body_new_uid req)) as [x|]; simpl;
    update_paths; first [by left | by right].
Qed.

Lemma rebound_rows u n d :
  rfid_details (rebound u n d)
  = filter (λ r, rf_user_id r ≠ u) (rfid_details d)
      ++ match n with Some x => [mkRfid u x] | None => [] end.
Proof.
  unfold rebound, insert_rfid, delete_rfid_of.
  destruct n; simpl; [done|by rewrite app_nil_r].
Qed.

Lemma rebound_user_once u n d :
  filter (λ r, rf_user_id r = u) (rfid_details (rebound u n d))
  = match n with Some x => [mkRfid u x] | None => [] end.
Proof.
  assert (filter (λ r, rf_user_id r = u)
            (filter (λ r, rf_user_id r ≠ u) (rfid_details d)) = []) as Hnil.
  { apply filter_nil_iff. by intros r [Hne _]%list_elem_of_filter. }
  unfold rebound, insert_rfid, delete_rfid_of. destruct n as [x|]; simpl.
  - rewrite filter_app, Hnil, filter_cons. simpl.
    destruct (decide (u = u)); done.
  - exact Hnil.
Qed.

Lemma rebound_uid_once u x d :
  (∀ r, r ∈ rfid_details d → rf_uid r = x → rf_user_id r = u) →
  filter (λ r, rf_uid r = x) (rfid_details (rebound u (Some x) d)) = [mkRfid u x].
Proof.
  intros Hfree. unfold rebound, insert_rfid, delete_rfid_of. simpl.
  rewrite filter_app.
  rewrite (proj2 (filter_nil_iff (λ r, rf_uid r = x) _)).
  - rewrite filter_cons. simpl. destruct (decide (x = x)); done.
  - intros r [Hne Hr]%list_elem_of_filter Hx. apply Hne. by apply Hfree.
Qed.

Lemma NoDup_fmap_filter {A B} (f : A → B) (P : A → Prop) `{∀ x, Decision (P x)}
    (l : list A) :
  NoDup (f <$> l) → NoDup (f <$> filter P l).
Proof.
  induction l as [|a l IH]; [done|]. csimpl. intros [Ha Hl]%NoDup_cons.
  rewrite filter_cons. destruct (decide (P a)); [|by apply IH].
  csimpl. apply NoDup_cons. split; [|by apply IH].
  intros (y & Hy & [_ Hin]%list_elem_of_filter)%list_elem_of_fmap.
  apply Ha. rewrite Hy. by apply list_elem_of_fmap_2.
Qed.

Lemma rebound_unique u n d :
  (∀ x, n = Some x →
     ∀ r, r ∈ rfid_details d → rf_uid r = x → rf_user_id r = u) →
  NoDup (rf_user_id <$> rfid_details d) →
  NoDup (rf_uid <$> rfid_details d) →
  NoDup (rf_user_id <$> rfid_details (rebound u n d))
  ∧ NoDup (rf_uid <$> rfid_details (rebound u n d)).
Proof.
  intros Hfree Hu Hx. unfold rebound, insert_rfid, delete_rfid_of.
  destruct n as [x|]; simpl; [|by split; apply NoDup_fmap_filter].
  rewrite !fmap_app.
  split; apply NoDup_app; (split; [by apply NoDup_fmap_filter|]);
    (split; [|apply NoDup_singleton]).
  - intros y (r & -> & [Hne _]%list_elem_of_filter)%list_elem_of_fmap
      Hy%list_elem_of_singleton. done.
  - intros y (r & -> & [Hne Hr]%list_elem_of_filter)%list_elem_of_fmap
      Hy%list_elem_of_singleton.
    apply Hne. by apply (Hfree x).
Qed.

(** The transaction of the update.  The connection is left with no
    transaction open.  A success answer comes after the statements of the
    update, all completed, between a [beginTransaction] and a [commit] that
    completed; any other answer of the handler comes after a rollback with
    no completed commit before it. *)
Lemma edit_rfid_update_transaction req w u :
  present (body_user_id req) = Some u →
  let n := present (body_new_uid req) in
  let out := edit_rfid_update req w in
  txn out.2 = None
  ∧ (out.1 = updated_response u →
       since w out.2
       = TxBegin false
           :: match n with
              | Some x => [Issued (SelectUidTaken x u) false]
              | None => []
              end
           ++ Issued (DeleteRfidOf u) false
           :: match n with
              | Some x => [Issued (InsertRfid u x) false]
              | None => []
              end
           ++ [TxCommit false])
  ∧ (out.1 ≠ updated_response u →
       (out.1 = Thrown (DriverError "getConnection") ∧ since w out.2 = [])
       ∨ ∃ pre e,
           since w out.2
           = pre ++ [TxRollback; ConsoleError "RFID Update Error:" e]
           ∧ out.1 = Returned (RedirectError "/edit-rfid" e u)
           ∧ TxCommit false ∉ pre).
Proof.
  intros Hu n out. subst n out.
  unfold edit_rfid_update, updated_response, release.
  rewrite Hu. destruct w as [d tx fl tr]. prog_unfold.
  destruct (present (body_new_uid req)) as [x|]; simpl; update_paths.
  all: trace_norm.
  all: split_and!; [reflexivity|try (intros; reflexivity); try discriminate|].
  all: intros Hne; try (by destruct Hne).
  all: try (left; split; [reflexivity|apply drop_all]).
  all: right; split_trace; split; [reflexivity|].
  all: intros Hin; in_list Hin.
Qed.

(** C8.  A request with a user id [u] (present and not empty) and the new
    uid [n] (absent or empty: none).
    (a) The update is atomic: either the answer is the success redirect
        and [rfid_details] is the old table without the rows of [u],
        followed by the row [(u, n)] when there is an [n]; or the answer
        is not the success redirect and the database is unchanged.
    (b) If [n] is held by a row of another user, the database is
        unchanged and the answer is never the success redirect; when the
        driver calls complete, the answer is the error redirect naming the
        holder, after a rollback.
    (c) Otherwise, when the driver calls complete, the update goes through.
    (d) After a completed update [u] has exactly the binding [(u, n)] (or
        none), [n] is held by that row alone, and if no user had two uids
        and no uid two users before, the same holds after.
    (e) The handler never leaves a transaction open.  The success redirect
        is given only after [beginTransaction], the check of [n] (when
        there is one), the [DELETE], the [INSERT] (when there is an [n])
        and the [commit] have all completed, in that order and with
        nothing else in between.  Any other answer of the handler is the
        error redirect for the error caught, given after a rollback and a
        [console.error], with no completed commit before them; the one
        remaining case is [getConnection] throwing, before anything is
        done. *)
Theorem C8_rfid_update_atomic_unique req w u :
  present (body_user_id req) = Some u →
  let n := present (body_new_uid req) in
  let out := edit_rfid_update req w in
  let d := db w in
  let d' := db out.2 in
  let taken x := ∃ r, r ∈ rfid_details d ∧ rf_uid r = x ∧ rf_user_id r ≠ u in
  ((out.1 = updated_response u ∧ d' = rebound u n d)
   ∨ (out.1 ≠ updated_response u ∧ d' = d))
  ∧ (∀ x, n = Some x → taken x →
       d' = d ∧ out.1 ≠ updated_response u
       ∧ (no_faults w →
            TxRollback ∈ since w out.2
            ∧ ∃ other, mkRfid other x ∈ rfid_details d ∧ other ≠ u
                ∧ out.1 = Returned (RedirectError "/edit-rfid"
                    (JsError ("UID '" +:+ x +:+ "' already assigned to "
                              +:+ other +:+ ".")) u)))
  ∧ ((∀ x, n = Some x → ¬ taken x) → no_faults w →
       out.1 = updated_response u ∧ d' = rebound u n d)
  ∧ (out.1 = updated_response u →
       filter (λ r, rf_user_id r = u) (rfid_details d')
         = match n with Some x => [mkRfid u x] | None => [] end
       ∧ (∀ x, n = Some x →
            filter (λ r, rf_uid r = x) (rfid_details d') = [mkRfid u x])
       ∧ (NoDup (rf_user_id <$> rfid_details d) →
          NoDup (rf_uid <$> rfid_details d) →
          NoDup (rf_user_id <$> rfid_details d')
          ∧ NoDup (rf_uid <$> rfid_details d')))
  ∧ txn out.2 = None
  ∧ (out.1 = updated_response u →
       since w out.2
       = TxBegin false
           :: match n with
              | Some x => [Issued (SelectUidTaken x u) false]
              | None => []
              end
           ++ Issued (DeleteRfidOf u) false
           :: match n with
              | Some x => [Issued (InsertRfid u x) false]
              | None => []
              end
           ++ [TxCommit false])
  ∧ (out.1 ≠ updated_response u →
       (out.1 = Thrown (DriverError "getConnection") ∧ since w out.2 = [])
       ∨ ∃ pre e,
           since w out.2
           = pre ++ [TxRollback; ConsoleError "RFID Update Error:" e]
           ∧ out.1 = Returned (RedirectError "/edit-rfid" e u)
           ∧ TxCommit false ∉ pre).
Proof.
  intros Hu n out d d' taken.
  pose proof (edit_rfid_update_transaction req w u Hu)
    as (Htxn & Hcommitted & Hrolled).
  fold out n in Htxn, Hcommitted, Hrolled.
  pose proof (edit_rfid_update_atomic req w u Hu) as Hatomic.
  fold out n d d' in Hatomic.
  (* a completed update found no other holder of the new uid *)
  assert (out.1 = updated_response u →
          ∀ x, n = Some x →
            ∀ r, r ∈ rfid_details d → rf_uid r = x → rf_user_id r = u) as Hfree.
  { subst out n d. unfold edit_rfid_update, updated_response, release.
    rewrite Hu. destruct w as [d0 tx fl tr]. prog_unfold.
    destruct (present (body_new_uid req)) as [x0|]; simpl; [|by intros].
    update_paths; intros Hok x [= <-]; try discriminate Hok;
      by apply select_uid_taken_nil. }
  split_and!.
  - exact Hatomic.
  - intros x Hn (r & Hr & Hx & Hne).
    assert (out.1 ≠ updated_response u) as Hfail.
    { intros Hok. apply Hne. by apply (Hfree Hok x). }
    split_and!; [by destruct Hatomic as [[? _]|[_ ?]]|done|].
    intros Hnf.
    assert (select_uid_taken x u d ≠ []) as Hsel.
    { intros E. apply Hne. by apply (proj1 (select_uid_taken_nil _ _ _) E). }
    subst out n d. destruct w as [d0 tx fl tr]. simpl in *.
    destruct (select_uid_taken x u d0) as [|other rest] eqn:E; [done|].
    assert (other ∈ select_uid_taken x u d0) as Hother by (rewrite E; left).
    unfold select_uid_taken in Hother.
    apply list_elem_of_fmap in Hother as (r' & -> & [[Hx' Hne'] Hr']%list_elem_of_filter).
    unfold edit_rfid_update, release. rewrite Hu. prog_unfold. rewrite Hn. simpl.
    repeat (first [pop_ok | use_rows]); trace_norm.
    all: split; [apply list_elem_of_In; simpl; eauto 10|].
    all: exists (rf_user_id r'); split_and!; [|done|done].
    all: by destruct r'; simpl in *; subst.
  - intros Hno Hnf.
    assert (∀ x, n = Some x → select_uid_taken x u d = []) as Hsel.
    { intros x Hn. apply select_uid_taken_nil. intros r Hr Hx.
      destruct (decide (rf_user_id r = u)); [done|].
      exfalso. apply (Hno x Hn). by exists r. }
    subst out n d d'. destruct w as [d0 tx fl tr]. simpl in *.
    unfold edit_rfid_update, updated_response, rebound, release.
    rewrite Hu. prog_unfold.
    destruct (present (body_new_uid req)) as [x|]; simpl.
    + pose proof (Hsel x eq_refl) as E.
      repeat (first [pop_ok | use_rows]); done.
    + repeat pop_ok; done.
  - intros Hok. destruct Hatomic as [[_ E]|[? _]]; [|done].
    unfold d'. rewrite E. split_and!.
    + apply rebound_user_once.
    + intros x Hn. rewrite Hn. apply rebound_uid_once. by apply (Hfree Hok).
    + intros H1 H2. apply rebound_unique; [|done|done]. by apply Hfree.
  - exact Htxn.
  - exact Hcommitted.
  - exact Hrolled.
Qed.

End RfidUpdate.

(** ** The branch counts *)

Section BranchCounts.
Import Db Rt Scan.

Global Instance key_le_total : Total key_le.
Proof.
  intros [a1 a2] [b1 b2]. unfold key_le. simpl.
  destruct (decide (a1 = b1)) as [->|Hne].
  - destruct (total String.le a2 b2); [left|right]; by split.
  - destruct (total String.le a1 b1); [left|right]; (split; [done|congruence]).
Qed.

Global Instance key_le_trans : Transitive key_le.
Proof.
  intros [a1 a2] [b1 b2] [c1 c2]. unfold key_le. simpl.
  intros [H1 H2] [H3 H4]. split; [by etrans|].
  intros ->.
  assert (b1 = c1) as -> by (by apply (anti_symm String.le)).
  etrans; [by apply H2|by apply H4].
Qed.

Lemma flat_keys today d :
  flat_key <$> select_branch_counts today d
  = merge_sort key_le (remove_dups (student_visits today d)).
Proof.
  unfold select_branch_counts. rewrite <- list_fmap_compose.
  rewrite <- (list_fmap_id (merge_sort _ _)) at 2.
  apply list_fmap_ext. by intros i [k1 k2] _.
Qed.

(** The rows come in ascending order of [(degree, branch_code)], one per
    pair, for exactly the pairs that have a visit, each with the number of
    its visits. *)
Lemma select_branch_counts_sorted today d :
  StronglySorted key_le (flat_key <$> select_branch_counts today d)
  ∧ NoDup (flat_key <$> select_branch_counts today d)
  ∧ (∀ k, k ∈ flat_key <$> select_branch_counts today d
          ↔ k ∈ student_visits today d)
  ∧ ∀ r, r ∈ select_branch_counts today d →
         fc_visit_count r
         = length (filter (λ v, v = flat_key r) (student_visits today d)).
Proof.
  rewrite flat_keys. split_and!.
  - apply StronglySorted_merge_sort; apply _.
  - rewrite merge_sort_Permutation. apply NoDup_remove_dups.
  - intros k. by rewrite merge_sort_Permutation, elem_of_remove_dups.
  - intros r (k & -> & _)%list_elem_of_fmap. by destruct k.
Qed.

(** With [user_id] a key of [users] and [program_id] a key of [programs],
    a filter on the key is a lookup. *)
Lemma filter_key {A K} `{EqDecision K} (key : A → K) (P : A → Prop)
    `{∀ x, Decision (P x)} (l : list A) :
  (∀ x y, P x → P y → key x = key y) →
  NoDup (key <$> l) →
  filter P l = option_list (List.find (λ x, bool_decide (P x)) l).
Proof.
  intros Hkey. induction l as [|a l IH]; [done|]. csimpl.
  intros [Ha Hl]%NoDup_cons. rewrite filter_cons.
  destruct (decide (P a)) as [HP|HP].
  - rewrite bool_decide_eq_true_2 by done. simpl. f_equal.
    apply filter_nil_iff. intros x Hx HPx. apply Ha.
    rewrite (Hkey a x HP HPx). by apply list_elem_of_fmap_2.
  - rewrite bool_decide_eq_false_2 by done. by apply IH.
Qed.

(** The join of the count query, read row by row. *)
Lemma student_visits_by_row today d :
  NoDup (u_user_id <$> users d) →
  NoDup (p_program_id <$> programs d) →
  student_visits today d = omap (visit_key today d) (attendance_log d).
Proof.
  intros Hu Hp. unfold student_visits.
  induction (attendance_log d) as [|al l IH]; [done|].
  csimpl. rewrite IH. clear IH.
  rewrite (filter_key u_user_id (λ u, al_user_id al = u_user_id u))
    by (done || congruence).
  unfold visit_key.
  destruct (List.find _ (users d)) as [u|]; simpl.
  - rewrite app_nil_r.
    rewrite (filter_key p_program_id (λ p, u_program_id u = Some (p_program_id p)))
      by (done || congruence).
    destruct (List.find _ (programs d)) as [p|]; simpl.
    + destruct (decide (al_log_date al = today)) as [Hd|Hd];
        destruct (decide (u_user_type u = "student")) as [Ht|Ht]; simpl;
        destruct (decide (al_log_date al = today ∧ u_user_type u = "student"));
        try tauto; done.
    + by repeat destruct (decide _).
  - by destruct (decide _).
Qed.

Lemma group_counts_cons r rows (g : Counts) :
  group_counts (r :: rows) g =
    match push_count g r with
    | Returned g' => group_counts rows g'
    | Thrown e => Thrown e
    end.
Proof. reflexivity. Qed.

(** Degrees that name no inherited property are grouped in order. *)
Lemma group_counts_ok rows (g0 : Counts) :
  Forall (λ r, Js.inherited (fc_degree r) = false) rows →
  ∃ g, group_counts rows g0 = Returned g
    ∧ ∀ deg, g !! deg =
        match g0 !! deg, items_of deg rows with
        | Some arr, l => Some (arr ++ l)
        | None, [] => None
        | None, l => Some l
        end.
Proof.
  intros Hrows. revert g0. induction Hrows as [|r rows Hr _ IH]; intros g0.
  - exists g0. split; [done|]. intros deg. unfold items_of. simpl.
    destruct (g0 !! deg); [by rewrite app_nil_r|done].
  - rewrite group_counts_cons. unfold push_count. rewrite Hr.
    destruct (g0 !! fc_degree r) as [arr|] eqn:E;
      (edestruct IH as (g & -> & Hg); exists g; split; [done|]);
      intros deg; rewrite Hg; unfold items_of; rewrite filter_cons;
      (destruct (decide (fc_degree r = deg)) as [<-|Hne];
        [ rewrite lookup_insert_eq, ?E; csimpl; by rewrite <- ?app_assoc
        | by rewrite lookup_insert_ne ]).
Qed.

(** A degree that names an inherited property makes the loop throw. *)
Lemma group_counts_throws rows (g0 : Counts) :
  (∀ k, Js.inherited k = true → g0 !! k = None) →
  Exists (λ r, Js.inherited (fc_degree r) = true) rows →
  group_counts rows g0 = Thrown TypeError.
Proof.
  intros Hg0 Hex. revert g0 Hg0.
  induction rows as [|r rows IH]; intros g0 Hg0; [by apply Exists_nil in Hex|].
  rewrite group_counts_cons. unfold push_count.
  destruct (Js.inherited (fc_degree r)) eqn:Hr.
  - by rewrite (Hg0 _ Hr).
  - apply Exists_cons in Hex as [Hex|Hex]; [congruence|].
    destruct (g0 !! fc_degree r); apply IH; try done;
      intros k Hk; (rewrite lookup_insert_ne; [by apply Hg0|congruence]).
Qed.

(** What [getTodayBranchCounts] returns, by the degrees that are counted:
    the object maps every counted degree to its pairs in the order of the
    rows, and has no other key, unless a counted degree names an inherited
    property, in which case the function throws. *)
Lemma counts_of_ok today d :
  Forall (λ r, Js.inherited (fc_degree r) = false) (select_branch_counts today d) →
  ∃ g, counts_of today d = Returned g
    ∧ ∀ deg, g !! deg =
        match items_of deg (select_branch_counts today d) with
        | [] => None
        | l => Some l
        end.
Proof.
  intros Hrows. destruct (group_counts_ok _ ∅ Hrows) as (g & Hg & Hlook).
  exists g. split; [exact Hg|]. intros deg. rewrite Hlook, lookup_empty.
  by destruct (items_of _ _).
Qed.

Lemma counts_of_inherited today d :
  Exists (λ r, Js.inherited (fc_degree r) = true) (select_branch_counts today d) →
  counts_of today d = Thrown TypeError.
Proof. apply group_counts_throws. intros k _. apply lookup_empty. Qed.

(** A scan of a card whose user is no student leaves the counts of every
    day as they were, whatever the driver does. *)
Lemma non_student_scan_keeps_counts w uid now later :
  (∀ r u, r ∈ rfid_details (db w) → rf_uid r = uid →
          u ∈ users (db w) → u_user_id u = rf_user_id r →
          u_user_type u ≠ "student") →
  ∀ today,
    select_branch_counts today (db (handleCardScan uid now later w).2)
    = select_branch_counts today (db w).
Proof.
  intros Hno today. apply select_branch_counts_ext.
  destruct (handleCardScan_db uid now later w)
    as [->|[(user_id & r1 & log_id & r3 & _ & _ & ->)
           |(user_id & r1 & H1 & _ & ->)]].
  - done.
  - apply student_visits_update_logout.
  - apply student_visits_insert_other.
    assert (user_id ∈ select_rfid_user uid (db w)) as Hin by (rewrite H1; left).
    unfold select_rfid_user in Hin.
    apply list_elem_of_fmap in Hin as (r & -> & [Hx Hr]%list_elem_of_filter).
    intros u Hu Hid. by apply (Hno r u).
Qed.

(** C10, at a database with one program whose degree is [constructor], one
    student of that program and one visit of that student today.  The count
    query returns the single row [(constructor, CSE, 1)]; the loop reads
    [groupedCounts["constructor"]], finds the inherited [Object] function,
    skips the assignment and calls a [push] that is not there:
    [getTodayBranchCounts] throws instead of returning the object keyed by
    degree, and a scan that logs the student in reports [LOGIN], then
    [ERROR], and broadcasts no counts. *)
Theorem C10_inherited_degree_breaks_counts :
  let d := mkDb [mkRfid "S1" "AB"]
                [mkUser "S1" "student" "Ann" None None (Some 1) None]
                [mkProgram 1 "constructor" "Computer Science" "CSE"]
                [] [mkLog 1 "S1" "2024-01-01" "09:00:00" None] 2 in
  let w := mkWorld d None [] [] in
  select_branch_counts "2024-01-01" d = [mkFlat "constructor" "CSE" 1]
  ∧ (getTodayBranchCounts "2024-01-01" w).1 = Thrown TypeError
  ∧ let d0 := mkDb (rfid_details d) (users d) (programs d) [] [] 1 in
    let now := mkClock "2024-01-01" "09:00:00" in
    events_of (since (mkWorld d0 None [] [])
                 (handleCardScan "AB" now now (mkWorld d0 None [] [])).2)
    = let login :=
        mkEvent "AB" (Some LOGIN)
          (Some (mkDetails (mkUser "S1" "student" "Ann" None None (Some 1) None)
                           (Some (mkProgram 1 "constructor" "Computer Science" "CSE"))
                           None))
          (Some "09:00:00") None in
      [scan_event login; scan_event (set_status ERROR login)].
Proof. vm_compute. done. Qed.

End BranchCounts.

(** ** The theorems at work on the sample installation *)

(** Decide a closed proposition by evaluation. *)
Ltac by_eval := apply (bool_decide_unpack _); vm_compute; exact I.

Section Exercised.
Import Db Rt Scan Serial Web.

(** Ann's first scan of the day logs her in. *)
Lemma C1_witness :
  ((no_faults Sample.quiet
    ∧ mkRfid "S1" "AB" ∈ rfid_details (db Sample.quiet)
    ∧ (∀ r, r ∈ rfid_details (db Sample.quiet) →
            rf_uid r = "AB" → rf_user_id r = "S1")
    ∧ (∃ u, u ∈ users (db Sample.quiet) ∧ u_user_id u = "S1")
    ∧ NoDup (al_log_id <$> attendance_log (db Sample.quiet)))
   ∧ attendance_log
       (db (handleCardScan "AB" Sample.morning Sample.noon Sample.quiet).2)
     = [mkLog 1 "S1" "2024-01-01" "09:00:00" None])
  ∧ ((no_faults Sample.busy
      ∧ mkRfid "S1" "AB" ∈ rfid_details (db Sample.busy)
      ∧ (∀ r, r ∈ rfid_details (db Sample.busy) →
              rf_uid r = "AB" → rf_user_id r = "S1")
      ∧ (∃ u, u ∈ users (db Sample.busy) ∧ u_user_id u = "S1")
      ∧ NoDup (al_log_id <$> attendance_log (db Sample.busy)))
     ∧ attendance_log
         (db (handleCardScan "AB" Sample.noon Sample.noon Sample.busy).2)
       = [mkLog 1 "S1" "2024-01-01" "09:00:00" (Some "12:00:00")]
     ∧ ∃ details,
         events_of (since Sample.busy
                      (handleCardScan "AB" Sample.noon Sample.noon Sample.busy).2)
         = [scan_event (mkEvent "AB" (Some LOGOUT) (Some details)
                                (Some "12:00:00") None)]).
Proof.
  split.
  - (* Ann comes in: nobody is in yet *)
    assert (no_faults Sample.quiet) as H1 by by_eval.
    assert (mkRfid "S1" "AB" ∈ rfid_details (db Sample.quiet)) as H2 by by_eval.
    assert (∀ r, r ∈ rfid_details (db Sample.quiet) →
                 rf_uid r = "AB" → rf_user_id r = "S1") as H3.
    { intros r Hr. vm_compute in Hr. in_list Hr; subst r; [reflexivity|discriminate]. }
    assert (∃ u, u ∈ users (db Sample.quiet) ∧ u_user_id u = "S1") as H4.
    { exists Sample.ann. split; [by_eval|reflexivity]. }
    assert (NoDup (al_log_id <$> attendance_log (db Sample.quiet))) as H5 by by_eval.
    split; [by split_and!|].
    destruct (C1_login_logout_toggle Sample.quiet "AB" Sample.morning Sample.noon
                "S1" H1 H2 H3 H4 H5) as (details & Hd & _ & Hlogin).
    destruct Hlogin as [-> _]; [|reflexivity].
    intros (r & Hr & _). vm_compute in Hr. in_list Hr.
  - (* Ann leaves at noon: her row of the morning is open *)
    assert (no_faults Sample.busy) as H1 by by_eval.
    assert (mkRfid "S1" "AB" ∈ rfid_details (db Sample.busy)) as H2 by by_eval.
    assert (∀ r, r ∈ rfid_details (db Sample.busy) →
                 rf_uid r = "AB" → rf_user_id r = "S1") as H3.
    { intros r Hr. vm_compute in Hr. in_list Hr; subst r; [reflexivity|discriminate]. }
    assert (∃ u, u ∈ users (db Sample.busy) ∧ u_user_id u = "S1") as H4.
    { exists Sample.ann. split; [by_eval|reflexivity]. }
    assert (NoDup (al_log_id <$> attendance_log (db Sample.busy))) as H5 by by_eval.
    split; [by split_and!|].
    destruct (C1_login_logout_toggle Sample.busy "AB" Sample.noon Sample.noon
                "S1" H1 H2 H3 H4 H5) as (details & Hd & Hlogout & _).
    destruct Hlogout as (pre & r & post & Hl & _ & Hdb & Hev).
    { exists (mkLog 1 "S1" "2024-01-01" "09:00:00" None).
      split; [by_eval|]. by split_and!. }
    assert (attendance_log (db Sample.busy)
            = [mkLog 1 "S1" "2024-01-01" "09:00:00" None]) as Hlog
      by (vm_compute; reflexivity).
    rewrite Hlog in Hl.
    destruct pre as [|r0 pre]; [|destruct pre; discriminate Hl].
    injection Hl as <- <-.
    split; [by rewrite Hdb|]. by exists details.
Defined.


(** Ann leaves at noon: the counts of every day stay as they were. *)
Lemma C3_witness :
  NoDup (al_log_id <$> attendance_log (db Sample.busy))
  ∧ ∀ today,
      counts_of today (db (handleCardScan "AB" Sample.noon Sample.noon Sample.busy).2)
      = counts_of today (db Sample.busy).
Proof.
  assert (NoDup (al_log_id <$> attendance_log (db Sample.busy))) as H1 by by_eval.
  split; [exact H1|].
  destruct (C3_counts_consistent Sample.busy "AB" Sample.noon Sample.noon H1)
    as (Hlogout & _).
  refine (proj1 (proj2 (Hlogout
    (mkEvent "AB" (Some LOGOUT)
       (Some (mkDetails Sample.ann
                (Some (mkProgram 1 "B.Tech" "Computer Science" "CSE")) None))
       (Some "12:00:00") None) _ eq_refl))).
  by_eval.
Defined.

(** The evening job after Ann came in and stayed. *)
Lemma C5_witness :
  no_faults Sample.busy
  ∧ ∀ r', r' ∈ attendance_log (db (autoLogoutCurrentDay "2024-01-01" Sample.busy).2) →
          al_log_date r' = "2024-01-01" → al_logout_time r' ≠ None.
Proof.
  assert (no_faults Sample.busy) as H1 by by_eval.
  split; [exact H1|].
  apply (C5_auto_logout_current_day Sample.busy "2024-01-01" H1).
Defined.

(** A card nobody registered. *)
Lemma C6_witness :
  (∀ r, r ∈ rfid_details (db Sample.quiet) → rf_uid r ≠ "ZZ")
  ∧ db (handleCardScan "ZZ" Sample.morning Sample.morning Sample.quiet).2
    = db Sample.quiet.
Proof.
  assert (∀ r, r ∈ rfid_details (db Sample.quiet) → rf_uid r ≠ "ZZ") as H1.
  { intros r Hr. vm_compute in Hr. in_list Hr; subst r; discriminate. }
  split; [exact H1|].
  apply (C6_unregistered_scan Sample.quiet "ZZ" Sample.morning Sample.morning H1).
Defined.

(** The lookup of Ann's card is rejected by the driver. *)
Lemma C7_witness :
  Issued (SelectRfidUser "AB") true
    ∈ since Sample.broken
        (handleCardScan "AB" Sample.morning Sample.morning Sample.broken).2
  ∧ (handleCardScan "AB" Sample.morning Sample.morning Sample.broken).1
    = Returned tt.
Proof.
  assert (Issued (SelectRfidUser "AB") true
            ∈ since Sample.broken
                (handleCardScan "AB" Sample.morning Sample.morning Sample.broken).2)
    as H1 by by_eval.
  split; [exact H1|].
  apply (C7_error_is_logged_and_reported Sample.broken "AB"
           Sample.morning Sample.morning _ H1).
Defined.

(** Ann gets a new card; then someone tries to give her Bob's. *)
Lemma C8_witness :
  (present (body_user_id Sample.rebind) = Some "S1"
   ∧ present (body_user_id Sample.steal) = Some "S1")
  ∧ (rfid_details (db (edit_rfid_update Sample.rebind Sample.quiet).2)
     = [mkRfid "F1" "CD"; mkRfid "S1" "EF"]
     ∧ txn (edit_rfid_update Sample.rebind Sample.quiet).2 = None
     ∧ since Sample.quiet (edit_rfid_update Sample.rebind Sample.quiet).2
       = [ TxBegin false; Issued (SelectUidTaken "EF" "S1") false;
           Issued (DeleteRfidOf "S1") false; Issued (InsertRfid "S1" "EF") false;
           TxCommit false ])
  ∧ (db (edit_rfid_update Sample.steal Sample.quiet).2 = db Sample.quiet
     ∧ txn (edit_rfid_update Sample.steal Sample.quiet).2 = None
     ∧ TxRollback
         ∈ since Sample.quiet (edit_rfid_update Sample.steal Sample.quiet).2).
Proof.
  assert (present (body_user_id Sample.rebind) = Some "S1") as H1 by reflexivity.
  assert (present (body_user_id Sample.steal) = Some "S1") as H2 by reflexivity.
  split; [by split|]. split.
  - destruct (C8_rfid_update_atomic_unique Sample.rebind Sample.quiet "S1" H1)
      as (_ & _ & Hfree & _ & Htxn & Hcommitted & _).
    destruct Hfree as [Hok ->]; [|by_eval|].
    { intros x [= <-] (r & Hr & Hx & Hne). vm_compute in Hr.
      in_list Hr; subst r; [discriminate Hx|discriminate Hx]. }
    split_and!; [reflexivity|exact Htxn|]. by rewrite (Hcommitted Hok).
  - destruct (C8_rfid_update_atomic_unique Sample.steal Sample.quiet "S1" H2)
      as (_ & Htaken & _ & _ & Htxn & _).
    destruct (Htaken "CD" eq_refl) as (Hdb & _ & Hrollback).
    { exists (mkRfid "F1" "CD"). split_and!; [by_eval|reflexivity|discriminate]. }
    split_and!; [exact Hdb|exact Htxn|].
    by destruct Hrollback as [? _]; [by_eval|].
Defined.

(** A visitor without a session asks for the console. *)
Lemma C9_witness :
  (find_route Sample.visitor = Some (mkRoute GET "/home" [IsAuthenticated])
   ∧ IsAuthenticated ∈ r_middleware (mkRoute GET "/home" [IsAuthenticated]))
  ∧ dispatch Sample.visitor =
      Some (mkRoute GET "/home" [IsAuthenticated],
            Ends (Redirect "/login?error=Please login to access this page.")).
Proof.
  assert (find_route Sample.visitor
          = Some (mkRoute GET "/home" [IsAuthenticated])) as H1 by reflexivity.
  assert (IsAuthenticated ∈ r_middleware (mkRoute GET "/home" [IsAuthenticated]))
    as H2 by by_eval.
  split; [by split|].
  exact (C9_authentication_guard Sample.visitor _ H1 (or_introl H2)).
Defined.

(** The registration form is public: [POST /add] reaches its handler
    without a session. *)
Lemma add_is_public b1 b2 :
  dispatch (mkRequest POST "/add" None b1 b2)
  = Some (mkRoute POST "/add" [], RunsHandler).
Proof. reflexivity. Qed.

End Exercised.

(* ===================================================================== *)
(** * Further properties of the scan logic                                *)
(* ===================================================================== *)

Section ScanFrame.
Import Db Rt Scan Log.

Lemma same_visit_refl r : same_visit r r.
Proof. by repeat split. Qed.

Lemma same_visit_logout t r : same_visit r (set_logout t r).
Proof. by repeat split. Qed.

(** X1.  Whatever the driver does, a scan leaves [rfid_details], [users],
    [programs] and [departments] as they are; in [attendance_log] every row
    stays in its place with its [log_id], [user_id], [log_date] and
    [login_time], and at most one row is appended.  A scan deletes
    nothing. *)
Theorem X1_scan_touches_only_the_log w uid now later :
  let d := db w in
  let d' := db (handleCardScan uid now later w).2 in
  rfid_details d' = rfid_details d
  ∧ users d' = users d
  ∧ programs d' = programs d
  ∧ departments d' = departments d
  ∧ ∃ kept extra,
      attendance_log d' = kept ++ extra
      ∧ Forall2 same_visit (attendance_log d) kept
      ∧ (length extra ≤ 1)%nat.
Proof.
  intros d d'. subst d d'.
  destruct (handleCardScan_db uid now later w)
    as [->|[(user_id & r1 & log_id & r3 & _ & _ & ->)
           |(user_id & r1 & _ & _ & ->)]].
  - split_and!; try reflexivity.
    exists (attendance_log (db w)), []. rewrite app_nil_r. split_and!; [done| |simpl; lia].
    apply Forall_Forall2_diag, Forall_forall. intros; apply same_visit_refl.
  - unfold update_logout. simpl. split_and!; try reflexivity.
    eexists _, []. rewrite app_nil_r. split_and!; [done| |simpl; lia].
    apply Forall2_fmap_r, Forall_Forall2_diag, Forall_forall.
    intros r _. simpl. destruct (decide _);
      [apply same_visit_logout|apply same_visit_refl].
  - unfold insert_login. simpl. split_and!; try reflexivity.
    eexists _, [_]. split_and!; [done| |simpl; lia].
    apply Forall_Forall2_diag, Forall_forall. intros; apply same_visit_refl.
Qed.

Lemma keyed_update_logout t log_id d : keyed d → keyed (update_logout t log_id d).
Proof.
  intros [Hnd Hlt]. unfold keyed, update_logout. simpl.
  assert (∀ l : list LogRow,
    al_log_id <$> ((λ r, if decide (al_log_id r = log_id) then set_logout t r else r) <$> l)
    = al_log_id <$> l) as Hids.
  { intros l. rewrite <- list_fmap_compose. apply list_fmap_ext.
    intros i r _. simpl. by destruct (decide _). }
  rewrite Hids. split; [done|].
  apply Forall_fmap. eapply Forall_impl; [exact Hlt|].
  intros r Hr. simpl. by destruct (decide _).
Qed.

Lemma keyed_insert_login u date t d : keyed d → keyed (insert_login u date t d).
Proof.
  intros [Hnd Hlt]. unfold keyed, insert_login. simpl. split.
  - rewrite fmap_app. apply NoDup_app. split_and!; [done| |apply NoDup_singleton].
    intros x (r & -> & Hr)%list_elem_of_fmap Hx%list_elem_of_singleton.
    rewrite Forall_forall in Hlt. specialize (Hlt r Hr). simpl in *. lia.
  - apply Forall_app. split.
    + eapply Forall_impl; [exact Hlt|]. intros r Hr. simpl in *. lia.
    + repeat constructor.
Qed.

(** A scan keeps the shape the model gives the log: its key and the
    counter above every id. *)
Lemma handleCardScan_keyed w uid now later :
  keyed (db w) → keyed (db (handleCardScan uid now later w).2).
Proof.
  intros Hk.
  destruct (handleCardScan_db uid now later w)
    as [->|[(user_id & r1 & log_id & r3 & _ & _ & ->)
           |(user_id & r1 & _ & _ & ->)]].
  - done.
  - by apply keyed_update_logout.
  - by apply keyed_insert_login.
Qed.

Lemma filter_open_closing user_id date t (F : LogRow → LogRow) l :
  (∀ r, F r = r ∨ F r = set_logout t r) →
  (length (filter (is_open user_id date) (F <$> l))
   ≤ length (filter (is_open user_id date) l))%nat.
Proof.
  intros HF. induction l as [|r l IH]; [done|]. csimpl.
  rewrite !filter_cons.
  destruct (HF r) as [->| ->].
  - destruct (decide (is_open user_id date r)); simpl; lia.
  - destruct (decide (is_open user_id date (set_logout t r))) as [(_ & _ & H)|_];
      [discriminate H|].
    destruct (decide (is_open user_id date r)); simpl; lia.
Qed.

(** X3.  If nobody has two open sessions on one day, a scan does not
    create a second one, whatever the driver does: a session is opened only
    when the open-session query found none. *)
Theorem X3_scan_keeps_one_open_session w uid now later :
  single_open (db w) → single_open (db (handleCardScan uid now later w).2).
Proof.
  intros Hone.
  destruct (handleCardScan_db uid now later w)
    as [->|[(user_id & r1 & log_id & r3 & _ & _ & ->)
           |(user_id & r1 & _ & H3 & ->)]].
  - done.
  - intros u date. unfold update_logout. simpl.
    etrans; [|apply (Hone u date)].
    apply (filter_open_closing _ _ (currentTime now)).
    intros r. destruct (decide _); auto.
  - intros u date. unfold insert_login. simpl.
    rewrite filter_app, length_app, filter_cons, filter_nil.
    destruct (decide (is_open u date _)) as [(Hu & Hd & _)|_]; simpl in *.
    + subst u date.
      pose proof (proj1 (select_open_login_nil _ _ _) H3) as Hnone.
      rewrite (proj2 (filter_nil_iff (is_open user_id (currentDate now)) _) Hnone).
      simpl. lia.
    + specialize (Hone u date). lia.
Qed.

Lemma X3_witness :
  single_open (db Sample.quiet)
  ∧ single_open (db (handleCardScan "AB" Sample.morning Sample.morning Sample.quiet).2).
Proof.
  assert (single_open (db Sample.quiet)) as H.
  { intros u date. simpl. lia. }
  split; [exact H|].
  exact (X3_scan_keeps_one_open_session Sample.quiet "AB"
           Sample.morning Sample.morning H).
Defined.

End ScanFrame.

Ltac rows_step :=
  match goal with
  | |- context [match Db.select_rfid_user ?u ?d with [] => _ | _ :: _ => _ end] =>
      destruct (Db.select_rfid_user u d) eqn:?; simpl
  | |- context [match Db.select_user_details ?u ?d with [] => _ | _ :: _ => _ end] =>
      destruct (Db.select_user_details u d) eqn:?; simpl
  | |- context [match Db.select_open_login ?u ?t ?d with [] => _ | _ :: _ => _ end] =>
      destruct (Db.select_open_login u t d) eqn:?; simpl
  | |- context [match Scan.group_counts ?r ?g with Rt.Returned _ => _ | Rt.Thrown _ => _ end] =>
      destruct (Scan.group_counts r g) eqn:?; simpl
  end.

Section ScanSequences.
Import Db Rt Scan Log.

(** A scan does not make a working driver fail. *)
Lemma handleCardScan_no_faults uid now later w :
  no_faults w → no_faults (handleCardScan uid now later w).2.
Proof.
  intros Hnf. destruct w as [d tx fl tr]. prog_unfold.
  repeat (first [pop_ok | rows_step]); first [exact Hnf | constructor].
Qed.

Lemma select_open_login_after_insert user_id date t d :
  select_open_login user_id date d = [] →
  select_open_login user_id date (insert_login user_id date t d)
  = [auto_increment d].
Proof.
  intros H3. pose proof (proj1 (select_open_login_nil _ _ _) H3) as Hnone.
  unfold select_open_login, insert_login. simpl.
  rewrite filter_app, (proj2 (filter_nil_iff (is_open user_id date) _) Hnone).
  simpl. rewrite filter_cons.
  destruct (decide (is_open user_id date _)) as [|Hn]; [done|].
  destruct Hn. by repeat split.
Qed.

Lemma close_inserted user_id date t1 t2 d :
  keyed d →
  attendance_log (update_logout t2 (auto_increment d) (insert_login user_id date t1 d))
  = attendance_log d ++ [mkLog (auto_increment d) user_id date t1 (Some t2)].
Proof.
  intros [_ Hlt]. unfold update_logout, insert_login. simpl.
  rewrite fmap_app. csimpl. f_equal.
  - rewrite <- (list_fmap_id (attendance_log d)) at 2. apply list_fmap_ext.
    intros i r Hr. rewrite Forall_forall in Hlt.
    specialize (Hlt r (list_elem_of_lookup_2 _ _ _ Hr)). simpl in *.
    destruct (decide _); [lia|done].
  - by destruct (decide _).
Qed.

(** X4.  In and out.  Let the card be bound to one user who has a [users]
    row, let the log have its key, let the user have no open session on the
    day, and let the driver work.  After two scans of the card on that day,
    at times [t1] and [t2], the log is the old log followed by the one row
    [(user, day, t1, t2)]; the user has no open session; the second scan
    emitted one event, a [LOGOUT] at [t2]. *)
Theorem X4_two_scans_make_one_closed_visit
    w uid now1 later1 now2 later2 user_id :
  no_faults w →
  mkRfid user_id uid ∈ rfid_details (db w) →
  (∀ r, r ∈ rfid_details (db w) → rf_uid r = uid → rf_user_id r = user_id) →
  (∃ u, u ∈ users (db w) ∧ u_user_id u = user_id) →
  keyed (db w) →
  (∀ r, r ∈ attendance_log (db w) → ¬ is_open user_id (currentDate now1) r) →
  currentDate now2 = currentDate now1 →
  let w1 := (handleCardScan uid now1 later1 w).2 in
  let w2 := (handleCardScan uid now2 later2 w1).2 in
  attendance_log (db w2)
  = attendance_log (db w)
      ++ [mkLog (auto_increment (db w)) user_id (currentDate now1)
                (currentTime now1) (Some (currentTime now2))]
  ∧ (∀ r, r ∈ attendance_log (db w2) → ¬ is_open user_id (currentDate now1) r)
  ∧ ∃ details,
      events_of (since w1 w2)
      = [scan_event (mkEvent uid (Some LOGOUT) (Some details)
                             (Some (currentTime now2)) None)].
Proof.
  intros Hnf Hin Huniq Huser Hkey Hnone Hday w1 w2.
  destruct (select_rfid_user_bound _ _ _ Hin Huniq) as [r1 H1].
  destruct (select_user_details_exist _ _ Huser) as (details & r2 & H2).
  assert (select_open_login user_id (currentDate now1) (db w) = []) as H3
    by (by apply select_open_login_nil).
  destruct (scan_login uid now1 later1 w _ _ _ _ Hnf H1 H2 H3) as [Hdb1 _].
  fold w1 in Hdb1.
  assert (no_faults w1) as Hnf1 by (by apply handleCardScan_no_faults).
  assert (select_rfid_user uid (db w1) = user_id :: r1) as H1'
    by (by rewrite Hdb1).
  assert (select_user_details user_id (db w1) = details :: r2) as H2'
    by (by rewrite Hdb1).
  assert (select_open_login user_id (currentDate now2) (db w1)
          = [auto_increment (db w)]) as H3'.
  { rewrite Hdb1, Hday. by apply select_open_login_after_insert. }
  destruct (scan_logout uid now2 later2 w1 _ _ _ _ _ _ Hnf1 H1' H2' H3')
    as [Hdb2 Hacts].
  fold w2 in Hdb2, Hacts.
  assert (attendance_log (db w2)
          = attendance_log (db w)
              ++ [mkLog (auto_increment (db w)) user_id (currentDate now1)
                        (currentTime now1) (Some (currentTime now2))]) as Hlog.
  { rewrite Hdb2, Hdb1. by apply close_inserted. }
  split_and!.
  - exact Hlog.
  - rewrite Hlog. intros r [Hr|Hr]%elem_of_app.
    + by apply Hnone.
    + apply list_elem_of_singleton in Hr as ->. by intros (_ & _ & ?).
  - exists details. by rewrite Hacts.
Qed.

Lemma X4_witness :
  (no_faults Sample.quiet
   ∧ mkRfid "S1" "AB" ∈ rfid_details (db Sample.quiet)
   ∧ (∀ r, r ∈ rfid_details (db Sample.quiet) →
           rf_uid r = "AB" → rf_user_id r = "S1")
   ∧ (∃ u, u ∈ users (db Sample.quiet) ∧ u_user_id u = "S1")
   ∧ keyed (db Sample.quiet)
   ∧ (∀ r, r ∈ attendance_log (db Sample.quiet) →
           ¬ is_open "S1" (currentDate Sample.morning) r)
   ∧ currentDate Sample.noon = currentDate Sample.morning)
  ∧ attendance_log
      (db (handleCardScan "AB" Sample.noon Sample.noon
             (handleCardScan "AB" Sample.morning Sample.morning Sample.quiet).2).2)
    = [mkLog 1 "S1" "2024-01-01" "09:00:00" (Some "12:00:00")].
Proof.
  assert (no_faults Sample.quiet) as H1 by by_eval.
  assert (mkRfid "S1" "AB" ∈ rfid_details (db Sample.quiet)) as H2 by by_eval.
  assert (∀ r, r ∈ rfid_details (db Sample.quiet) →
               rf_uid r = "AB" → rf_user_id r = "S1") as H3.
  { intros r Hr. vm_compute in Hr. in_list Hr; subst r; [reflexivity|discriminate]. }
  assert (∃ u, u ∈ users (db Sample.quiet) ∧ u_user_id u = "S1") as H4.
  { exists Sample.ann. split; [by_eval|reflexivity]. }
  assert (keyed (db Sample.quiet)) as H5 by by_eval.
  assert (∀ r, r ∈ attendance_log (db Sample.quiet) →
               ¬ is_open "S1" (currentDate Sample.morning) r) as H6.
  { intros r Hr. vm_compute in Hr. in_list Hr. }
  assert (currentDate Sample.noon = currentDate Sample.morning) as H7
    by reflexivity.
  split; [by split_and!|].
  exact (proj1 (X4_two_scans_make_one_closed_visit Sample.quiet "AB"
                  Sample.morning Sample.morning Sample.noon Sample.noon "S1"
                  H1 H2 H3 H4 H5 H6 H7)).
Defined.

(** X5.  A card bound to a user id that has no [users] row: the database
    is left as it is whatever the driver does, and when the two lookups
    complete the scan consists of them and one [scan_event] with status
    [NO_DETAILS]; the open-session query is not reached. *)
Theorem X5_bound_card_without_user_row w uid now later user_id :
  mkRfid user_id uid ∈ rfid_details (db w) →
  (∀ r, r ∈ rfid_details (db w) → rf_uid r = uid → rf_user_id r = user_id) →
  (∀ u, u ∈ users (db w) → u_user_id u ≠ user_id) →
  let w' := (handleCardScan uid now later w).2 in
  db w' = db w
  ∧ (no_faults w →
       since w w' =
         [ Issued (SelectRfidUser uid) false;
           Issued (SelectUserDetails user_id) false;
           Emit (scan_event (mkEvent uid (Some NO_DETAILS) None None None)) ]).
Proof.
  intros Hin Huniq Hnouser w'.
  destruct (select_rfid_user_bound _ _ _ Hin Huniq) as [r1 H1].
  assert (select_user_details user_id (db w) = []) as H2.
  { unfold select_user_details.
    rewrite (proj2 (filter_nil_iff (λ u, u_user_id u = user_id) (users (db w))));
      [done|]. intros u Hu. by apply Hnouser. }
  split.
  - subst w'. destruct w as [d tx fl tr]. simpl in *. prog_unfold.
    repeat (simpl; rewrite ?H1, ?H2;
            match goal with
            | |- context [match ?l with [] => _ | _ :: _ => _ end] =>
                is_var l; destruct l as [|[] ?]
            end);
      simpl; rewrite ?H1, ?H2; reflexivity.
  - intros Hnf. by apply scan_no_details with (r1 := r1).
Qed.

End ScanSequences.

Section ScanCounts.
Import Db Rt Scan Log.

Lemma X5_witness :
  (mkRfid "G1" "ZZ" ∈ rfid_details (db Cases.orphan)
   ∧ (∀ r, r ∈ rfid_details (db Cases.orphan) →
           rf_uid r = "ZZ" → rf_user_id r = "G1")
   ∧ (∀ u, u ∈ users (db Cases.orphan) → u_user_id u ≠ "G1"))
  ∧ db (handleCardScan "ZZ" Sample.morning Sample.morning Cases.orphan).2
    = db Cases.orphan.
Proof.
  assert (mkRfid "G1" "ZZ" ∈ rfid_details (db Cases.orphan)) as H1 by by_eval.
  assert (∀ r, r ∈ rfid_details (db Cases.orphan) →
               rf_uid r = "ZZ" → rf_user_id r = "G1") as H2.
  { intros r Hr. vm_compute in Hr. in_list Hr; subst r; reflexivity. }
  assert (∀ u, u ∈ users (db Cases.orphan) → u_user_id u ≠ "G1") as H3.
  { intros u Hu. vm_compute in Hu. in_list Hu. }
  split; [by split_and!|].
  exact (proj1 (X5_bound_card_without_user_row Cases.orphan "ZZ"
                  Sample.morning Sample.morning "G1" H1 H2 H3)).
Defined.

(** With a key, the rows a condition on the key selects are the one row
    that has it. *)
Lemma filter_key_elem {A K} `{EqDecision K} (key : A → K) (P : A → Prop)
    `{∀ x, Decision (P x)} (l : list A) x :
  (∀ x y, P x → P y → key x = key y) →
  NoDup (key <$> l) → x ∈ l → P x → filter P l = [x].
Proof.
  intros Hkey Hnd Hx HP. induction l as [|a l IH]; [by apply elem_of_nil in Hx|].
  csimpl in Hnd. apply NoDup_cons in Hnd as [Ha Hl].
  rewrite filter_cons. apply elem_of_cons in Hx as [<-|Hx].
  - destruct (decide (P x)); [|done]. f_equal.
    apply filter_nil_iff. intros y Hy HPy. apply Ha.
    rewrite (Hkey x y HP HPy). by apply list_elem_of_fmap_2.
  - destruct (decide (P a)) as [HPa|]; [|by apply IH].
    exfalso. apply Ha. rewrite (Hkey a x HPa HP). by apply list_elem_of_fmap_2.
Qed.

(** The visits a new row of a student adds to the join of the count query. *)
Lemma student_visits_insert_student today date t d u p :
  NoDup (u_user_id <$> users d) →
  NoDup (p_program_id <$> programs d) →
  u ∈ users d → u_user_type u = "student" →
  p ∈ programs d → u_program_id u = Some (p_program_id p) →
  student_visits today (insert_login (u_user_id u) date t d)
  = student_visits today d
      ++ (if decide (date = today) then [(p_degree p, p_branch_code p)] else []).
Proof.
  intros Hu Hp Hin Htype Hpin Hprog. unfold student_visits. simpl.
  rewrite bind_app. csimpl. rewrite app_nil_r. f_equal.
  rewrite (filter_key_elem u_user_id (λ u', u_user_id u = u_user_id u') _ u)
    by (done || congruence).
  csimpl. rewrite app_nil_r.
  rewrite (filter_key_elem p_program_id
             (λ p', u_program_id u = Some (p_program_id p')) _ p)
    by (done || congruence).
  csimpl. rewrite app_nil_r.
  destruct (decide (date = today ∧ u_user_type u = "student")) as [[? _]|Hn];
    destruct (decide (date = today)); try done.
  destruct Hn. by split.
Qed.

(** X6.  A student's login counts once, under the student's own program.
    Let [user_id] and [program_id] be keys, let the card be bound to a
    student enrolled in program [p] with no open session today, and let the
    driver work.  After the scan, the number of visits the count query sees
    under any pair [(degree, branch_code)] on any day is what it was, plus
    one for the pair of [p] on the day of the scan. *)
Theorem X6_student_login_counts_once w uid now later u p :
  no_faults w →
  mkRfid (u_user_id u) uid ∈ rfid_details (db w) →
  (∀ r, r ∈ rfid_details (db w) → rf_uid r = uid → rf_user_id r = u_user_id u) →
  NoDup (u_user_id <$> users (db w)) →
  NoDup (p_program_id <$> programs (db w)) →
  u ∈ users (db w) → u_user_type u = "student" →
  p ∈ programs (db w) → u_program_id u = Some (p_program_id p) →
  (∀ r, r ∈ attendance_log (db w) → ¬ is_open (u_user_id u) (currentDate now) r) →
  let d' := db (handleCardScan uid now later w).2 in
  ∀ k today,
    visits_under k today d'
    = visits_under k today (db w)
      + (if decide (today = currentDate now ∧ k = (p_degree p, p_branch_code p))
         then 1 else 0).
Proof.
  intros Hnf Hin Huniq Hu Hp Huin Htype Hpin Hprog Hnone d' k today.
  destruct (select_rfid_user_bound _ _ _ Hin Huniq) as [r1 H1].
  destruct (select_user_details_exist (u_user_id u) (db w)) as (details & r2 & H2);
    [by exists u|].
  assert (select_open_login (u_user_id u) (currentDate now) (db w) = []) as H3
    by (by apply select_open_login_nil).
  destruct (scan_login uid now later w _ _ _ _ Hnf H1 H2 H3) as [Hdb _].
  subst d'. rewrite Hdb. unfold visits_under.
  rewrite (student_visits_insert_student today _ _ _ u p) by done.
  rewrite filter_app, length_app. f_equal.
  destruct (decide (currentDate now = today)) as [<-|Hne].
  - rewrite filter_cons, filter_nil.
    destruct (decide ((p_degree p, p_branch_code p) = k)) as [<-|Hk];
      destruct (decide _) as [[_ ?]|Hn]; try done.
    destruct Hn. by split.
  - destruct (decide _) as [[? _]|]; [by destruct Hne|done].
Qed.

Lemma X6_witness :
  (no_faults Sample.quiet
   ∧ mkRfid (u_user_id Sample.ann) "AB" ∈ rfid_details (db Sample.quiet)
   ∧ (∀ r, r ∈ rfid_details (db Sample.quiet) →
           rf_uid r = "AB" → rf_user_id r = u_user_id Sample.ann)
   ∧ NoDup (u_user_id <$> users (db Sample.quiet))
   ∧ NoDup (p_program_id <$> programs (db Sample.quiet))
   ∧ Sample.ann ∈ users (db Sample.quiet)
   ∧ u_user_type Sample.ann = "student"
   ∧ mkProgram 1 "B.Tech" "Computer Science" "CSE" ∈ programs (db Sample.quiet)
   ∧ u_program_id Sample.ann = Some 1
   ∧ (∀ r, r ∈ attendance_log (db Sample.quiet) →
           ¬ is_open (u_user_id Sample.ann) (currentDate Sample.morning) r))
  ∧ visits_under ("B.Tech", "CSE") "2024-01-01"
      (db (handleCardScan "AB" Sample.morning Sample.morning Sample.quiet).2)
    = visits_under ("B.Tech", "CSE") "2024-01-01" (db Sample.quiet) + 1.
Proof.
  assert (no_faults Sample.quiet) as H1 by by_eval.
  assert (mkRfid (u_user_id Sample.ann) "AB" ∈ rfid_details (db Sample.quiet))
    as H2 by by_eval.
  assert (∀ r, r ∈ rfid_details (db Sample.quiet) →
               rf_uid r = "AB" → rf_user_id r = u_user_id Sample.ann) as H3.
  { intros r Hr. vm_compute in Hr. in_list Hr; subst r; [reflexivity|discriminate]. }
  assert (NoDup (u_user_id <$> users (db Sample.quiet))) as H4 by by_eval.
  assert (NoDup (p_program_id <$> programs (db Sample.quiet))) as H5 by by_eval.
  assert (Sample.ann ∈ users (db Sample.quiet)) as H6 by by_eval.
  assert (u_user_type Sample.ann = "student") as H7 by reflexivity.
  assert (mkProgram 1 "B.Tech" "Computer Science" "CSE"
            ∈ programs (db Sample.quiet)) as H8 by by_eval.
  assert (u_program_id Sample.ann = Some 1) as H9 by reflexivity.
  assert (∀ r, r ∈ attendance_log (db Sample.quiet) →
               ¬ is_open (u_user_id Sample.ann) (currentDate Sample.morning) r)
    as H10.
  { intros r Hr. vm_compute in Hr. in_list Hr. }
  split; [by split_and!|].
  exact (X6_student_login_counts_once Sample.quiet "AB" Sample.morning
           Sample.morning Sample.ann _ H1 H2 H3 H4 H5 H6 H7 H8 H9 H10
           ("B.Tech", "CSE") "2024-01-01").
Defined.

End ScanCounts.

(* ===================================================================== *)
(** * Housekeeping                                                        *)
(* ===================================================================== *)

#[local] Arguments Sql.update_cleanup : simpl never.

Section Housekeeping.
Import Db Rt Scan Sql Startup Log.

Lemma compare_refl (a : string) : String.compare a a = Eq.
Proof.
  pose proof (String.compare_antisym a a) as H.
  destruct (String.compare a a); simpl in H; congruence.
Qed.

Lemma le_before_or_eq a b : String.le a b ↔ before a b ∨ a = b.
Proof.
  unfold String.le, before, String.leb, String.ltb.
  destruct (String.compare a b) eqn:E; simpl.
  - apply String.compare_eq_iff in E. tauto.
  - tauto.
  - split; [done|]. intros [?| ->]; [done|].
    rewrite compare_refl in E. discriminate.
Qed.

Lemma cleanup_db today w :
  db (cleanupPreviousDays today w).2 = db w
  ∨ db (cleanupPreviousDays today w).2 = update_cleanup "19:00:00" today (db w).
Proof.
  destruct w as [d tx fl tr]. unfold cleanupPreviousDays, Sql.run. prog_unfold.
  destruct fl as [|[] ?]; simpl; auto.
Qed.

Lemma cleanup_completes today w :
  no_faults w →
  db (cleanupPreviousDays today w).2 = update_cleanup "19:00:00" today (db w)
  ∧ no_faults (cleanupPreviousDays today w).2.
Proof.
  intros Hnf. destruct w as [d tx fl tr].
  unfold cleanupPreviousDays, Sql.run. prog_unfold.
  destruct fl as [|b fl]; simpl; [by split|].
  apply Forall_cons in Hnf as [-> Hnf]. by split.
Qed.

Lemma autoLogout_db today w :
  db (autoLogoutCurrentDay today w).2 = db w
  ∨ db (autoLogoutCurrentDay today w).2
    = update_auto_logout "19:00:00" today (db w).
Proof.
  destruct w as [d tx fl tr]. prog_unfold.
  destruct fl as [|[] ?]; simpl; auto.
Qed.

Lemma autoLogout_completes today w :
  no_faults w →
  db (autoLogoutCurrentDay today w).2
  = update_auto_logout "19:00:00" today (db w)
  ∧ no_faults (autoLogoutCurrentDay today w).2.
Proof.
  intros Hnf. destruct w as [d tx fl tr]. prog_unfold.
  destruct fl as [|b fl]; simpl; [by split|].
  apply Forall_cons in Hnf as [-> Hnf]. by split.
Qed.

(** X7.  When the statement of the startup cleanup completes, every row of
    [attendance_log] keeps its place and all its fields but [logout_time],
    which becomes ['19:00:00'] if the row is of a day before today and had
    none, and is unchanged otherwise; the other tables are as before; no
    row of an earlier day is left open.  Rows of today stay open. *)
Theorem X7_cleanup_closes_earlier_days w today :
  no_faults w →
  let d := db w in
  let d' := db (cleanupPreviousDays today w).2 in
  Forall2
    (λ r r',
       same_visit r r'
       ∧ al_logout_time r' =
           if decide (before (al_log_date r) today ∧ al_logout_time r = None)
           then Some "19:00:00" else al_logout_time r)
    (attendance_log d) (attendance_log d')
  ∧ rfid_details d' = rfid_details d
  ∧ users d' = users d
  ∧ programs d' = programs d
  ∧ departments d' = departments d
  ∧ auto_increment d' = auto_increment d
  ∧ (∀ r', r' ∈ attendance_log d' → before (al_log_date r') today →
           al_logout_time r' ≠ None)
  ∧ (∀ r, r ∈ attendance_log d → al_log_date r = today → r ∈ attendance_log d').
Proof.
  intros Hnf d d'. subst d d'.
  destruct (cleanup_completes today w Hnf) as [-> _].
  unfold update_cleanup. simpl. split_and!; try reflexivity.
  - apply Forall2_fmap_r, Forall_Forall2_diag, Forall_forall.
    intros r _. simpl. destruct (decide _); by repeat split.
  - intros r' (r & -> & Hr)%list_elem_of_fmap Hdate.
    destruct (decide (before (al_log_date r) today ∧ al_logout_time r = None))
      as [|Hn]; [done|].
    intros Hnone. apply Hn. by split.
  - intros r Hr Hday. apply list_elem_of_fmap. exists r. split; [|done].
    destruct (decide _) as [[Hb _]|]; [|done].
    exfalso. unfold before in Hb. rewrite Hday in Hb.
    unfold String.ltb in Hb.
    by rewrite compare_refl in Hb.
Qed.

Lemma X7_witness :
  no_faults Sample.busy
  ∧ ∀ r', r' ∈ attendance_log (db (cleanupPreviousDays "2024-01-02" Sample.busy).2) →
          before (al_log_date r') "2024-01-02" → al_logout_time r' ≠ None.
Proof.
  assert (no_faults Sample.busy) as H by by_eval.
  split; [exact H|].
  apply (X7_cleanup_closes_earlier_days Sample.busy "2024-01-02" H).
Defined.

(** X8.  The two jobs together.  When both statements complete, the
    cleanup followed by the evening job of [today] closes, with
    ['19:00:00'], exactly the open rows dated today or earlier; rows of
    later days and rows already closed are untouched; and running the two
    jobs in the other order leads to the same database. *)
Theorem X8_cleanup_and_auto_logout w today :
  no_faults w →
  let d := db w in
  let d2 := db (autoLogoutCurrentDay today (cleanupPreviousDays today w).2).2 in
  Forall2
    (λ r r',
       same_visit r r'
       ∧ al_logout_time r' =
           if decide (String.le (al_log_date r) today ∧ al_logout_time r = None)
           then Some "19:00:00" else al_logout_time r)
    (attendance_log d) (attendance_log d2)
  ∧ (∀ r', r' ∈ attendance_log d2 → String.le (al_log_date r') today →
           al_logout_time r' ≠ None)
  ∧ db (cleanupPreviousDays today (autoLogoutCurrentDay today w).2).2 = d2.
Proof.
  intros Hnf d d2. subst d d2.
  destruct (cleanup_completes today w Hnf) as [E1 Hnf1].
  destruct (autoLogout_completes today _ Hnf1) as [E2 _].
  destruct (autoLogout_completes today w Hnf) as [E3 Hnf3].
  destruct (cleanup_completes today _ Hnf3) as [E4 _].
  rewrite E2, E1, E4, E3. clear.
  unfold update_auto_logout, update_cleanup. simpl.
  rewrite <- !list_fmap_compose.
  assert (∀ r : LogRow,
    let r' := (if decide (al_log_date
                  (if decide (before (al_log_date r) today ∧ al_logout_time r = None)
                   then set_logout "19:00:00" r else r) = today
                ∧ al_logout_time
                  (if decide (before (al_log_date r) today ∧ al_logout_time r = None)
                   then set_logout "19:00:00" r else r) = None)
               then set_logout "19:00:00"
                  (if decide (before (al_log_date r) today ∧ al_logout_time r = None)
                   then set_logout "19:00:00" r else r)
               else (if decide (before (al_log_date r) today ∧ al_logout_time r = None)
                   then set_logout "19:00:00" r else r)) in
    r' = (if decide (String.le (al_log_date r) today ∧ al_logout_time r = None)
          then set_logout "19:00:00" r else r)) as Hpoint.
  { intros r. simpl.
    pose proof (le_before_or_eq (al_log_date r) today) as Hle.
    destruct (decide (before (al_log_date r) today ∧ al_logout_time r = None))
      as [[Hb Ho]|Hn1]; simpl.
    - destruct (decide (al_log_date r = today ∧ Some "19:00:00" = None))
        as [[_ ?]|_]; [done|].
      destruct (decide _) as [|Hn]; [done|]. destruct Hn. tauto.
    - destruct (decide (al_log_date r = today ∧ al_logout_time r = None))
        as [[Hd Ho]|Hn2];
        destruct (decide (String.le (al_log_date r) today ∧ al_logout_time r = None))
          as [[Hl Ho']|Hn3]; try done.
      + destruct Hn3. tauto.
      + destruct Hle as [[Hb| He] _]; [done|destruct Hn1; tauto|destruct Hn2; tauto]. }
  split_and!.
  - apply Forall2_fmap_r, Forall_Forall2_diag, Forall_forall.
    intros r _. simpl. rewrite (Hpoint r).
    destruct (decide _); by repeat split.
  - intros r' (r & -> & Hr)%list_elem_of_fmap. simpl. rewrite (Hpoint r).
    destruct (decide (String.le (al_log_date r) today ∧ al_logout_time r = None))
      as [|Hn]; [done|].
    intros Hl Hnone. apply Hn. by split.
  - f_equal. apply list_fmap_ext. intros i r _. simpl. rewrite (Hpoint r).
    pose proof (le_before_or_eq (al_log_date r) today) as Hle.
    destruct (decide (al_log_date r = today ∧ al_logout_time r = None))
      as [[Hd Ho]|Hn1]; simpl.
    + destruct (decide (before (al_log_date r) today ∧ Some "19:00:00" = None))
        as [[_ ?]|_]; [done|].
      destruct (decide _) as [|Hn]; [done|]. destruct Hn. tauto.
    + destruct (decide (before (al_log_date r) today ∧ al_logout_time r = None))
        as [[Hb Ho]|Hn2];
        destruct (decide (String.le (al_log_date r) today ∧ al_logout_time r = None))
          as [[Hl Ho']|Hn3]; try done.
      * destruct Hn3. tauto.
      * destruct Hle as [[Hb| He] _]; [done|destruct Hn2; tauto|destruct Hn1; tauto].
Qed.

Lemma X8_witness :
  no_faults Sample.busy
  ∧ ∀ r', r' ∈ attendance_log
               (db (autoLogoutCurrentDay "2024-01-01"
                      (cleanupPreviousDays "2024-01-01" Sample.busy).2).2) →
          String.le (al_log_date r') "2024-01-01" → al_logout_time r' ≠ None.
Proof.
  assert (no_faults Sample.busy) as H by by_eval.
  split; [exact H|].
  apply (X8_cleanup_and_auto_logout Sample.busy "2024-01-01" H).
Defined.

End Housekeeping.

Section HousekeepingAndScans.
Import Db Rt Scan Sql Startup Log.

Lemma student_visits_cleanup day t today d :
  student_visits day (update_cleanup t today d) = student_visits day d.
Proof.
  unfold update_cleanup. apply (student_visits_logout day t).
  intros r. destruct (decide _); auto.
Qed.

(** X9.  Whatever the driver does, neither job changes what the dashboard
    counts, for any day: the count query does not read [logout_time].  And
    neither job opens a session: a row that is open afterwards was there,
    open, before. *)
Theorem X9_jobs_keep_the_counts w today :
  let d1 := db (autoLogoutCurrentDay today w).2 in
  let d2 := db (cleanupPreviousDays today w).2 in
  (∀ day, select_branch_counts day d1 = select_branch_counts day (db w))
  ∧ (∀ day, select_branch_counts day d2 = select_branch_counts day (db w))
  ∧ (∀ r, r ∈ attendance_log d1 → al_logout_time r = None →
          r ∈ attendance_log (db w))
  ∧ (∀ r, r ∈ attendance_log d2 → al_logout_time r = None →
          r ∈ attendance_log (db w)).
Proof.
  intros d1 d2. subst d1 d2.
  destruct (autoLogout_db today w) as [-> | ->];
    destruct (cleanup_db today w) as [-> | ->];
    split_and!; try done;
    try (intros day; apply select_branch_counts_ext;
         first [apply student_visits_auto_logout | apply student_visits_cleanup]).
  all: unfold update_auto_logout, update_cleanup; simpl;
    intros r' (r & -> & Hr)%list_elem_of_fmap;
    destruct (decide _); [discriminate|done].
Qed.

Lemma auto_logout_leaves_none_open user_id today t d :
  select_open_login user_id today (update_auto_logout t today d) = [].
Proof.
  apply select_open_login_nil. unfold update_auto_logout. simpl.
  intros r' (r & -> & Hr)%list_elem_of_fmap (Hu & Hd & Ho).
  destruct (decide (al_log_date r = today ∧ al_logout_time r = None)) as [|Hn];
    [discriminate Ho|].
  apply Hn. by split.
Qed.

(** X10.  After the evening job, a card opens a new session.  Let the job
    of [today] complete, and let a registered card whose user has a [users]
    row be scanned later that day with the driver working: whether or not
    the user was in before the job, the scan appends a new open row for the
    user and its first event is a [LOGIN]. *)
Theorem X10_scan_after_auto_logout_is_a_login w uid now later user_id :
  no_faults w →
  mkRfid user_id uid ∈ rfid_details (db w) →
  (∀ r, r ∈ rfid_details (db w) → rf_uid r = uid → rf_user_id r = user_id) →
  (∃ u, u ∈ users (db w) ∧ u_user_id u = user_id) →
  let w1 := (autoLogoutCurrentDay (currentDate now) w).2 in
  let w2 := (handleCardScan uid now later w1).2 in
  attendance_log (db w2)
  = attendance_log (db w1)
      ++ [mkLog (auto_increment (db w)) user_id (currentDate now)
                (currentTime now) None]
  ∧ ∃ details rest,
      events_of (since w1 w2)
      = scan_event (mkEvent uid (Some LOGIN) (Some details)
                            (Some (currentTime now)) None) :: rest.
Proof.
  intros Hnf Hin Huniq Huser w1 w2.
  destruct (autoLogout_completes (currentDate now) w Hnf) as [E1 Hnf1].
  fold w1 in E1, Hnf1.
  destruct (select_rfid_user_bound _ _ _ Hin Huniq) as [r1 H1].
  destruct (select_user_details_exist _ _ Huser) as (details & r2 & H2).
  assert (select_rfid_user uid (db w1) = user_id :: r1) as H1' by (by rewrite E1).
  assert (select_user_details user_id (db w1) = details :: r2) as H2'
    by (by rewrite E1).
  assert (select_open_login user_id (currentDate now) (db w1) = []) as H3'
    by (rewrite E1; apply auto_logout_leaves_none_open).
  destruct (scan_login uid now later w1 _ _ _ _ Hnf1 H1' H2' H3') as [Hdb Hacts].
  fold w2 in Hdb, Hacts. split.
  - rewrite Hdb. unfold insert_login. simpl. by rewrite E1.
  - exists details. rewrite Hacts. simpl. eauto.
Qed.

Lemma X10_witness :
  (no_faults Sample.busy
   ∧ mkRfid "S1" "AB" ∈ rfid_details (db Sample.busy)
   ∧ (∀ r, r ∈ rfid_details (db Sample.busy) →
           rf_uid r = "AB" → rf_user_id r = "S1")
   ∧ (∃ u, u ∈ users (db Sample.busy) ∧ u_user_id u = "S1"))
  ∧ attendance_log
      (db (handleCardScan "AB" Sample.noon Sample.noon
             (autoLogoutCurrentDay (currentDate Sample.noon) Sample.busy).2).2)
    = [ mkLog 1 "S1" "2024-01-01" "09:00:00" (Some "19:00:00");
        mkLog 2 "S1" "2024-01-01" "12:00:00" None ].
Proof.
  assert (no_faults Sample.busy) as H1 by by_eval.
  assert (mkRfid "S1" "AB" ∈ rfid_details (db Sample.busy)) as H2 by by_eval.
  assert (∀ r, r ∈ rfid_details (db Sample.busy) →
               rf_uid r = "AB" → rf_user_id r = "S1") as H3.
  { intros r Hr. vm_compute in Hr. in_list Hr; subst r; [reflexivity|discriminate]. }
  assert (∃ u, u ∈ users (db Sample.busy) ∧ u_user_id u = "S1") as H4.
  { exists Sample.ann. split; [by_eval|reflexivity]. }
  split; [by split_and!|].
  exact (proj1 (X10_scan_after_auto_logout_is_a_login Sample.busy "AB"
                  Sample.noon Sample.noon "S1" H1 H2 H3 H4)).
Defined.

End HousekeepingAndScans.

(* ===================================================================== *)
(** * Further properties of the serial handler                            *)
(* ===================================================================== *)

Section SerialShapes.
Import Db Rt Scan Serial.

Lemma split_pieces_free sep s :
  Forall (λ p, Js.free_of sep p = true) (Js.split sep s).
Proof.
  induction s as [|c s IH]; simpl; [by repeat constructor|].
  destruct (Ascii.eqb c sep) eqn:E.
  - by constructor.
  - destruct (Js.split sep s) as [|p ps]; [by repeat constructor; simpl; rewrite E|].
    apply Forall_cons in IH as [Hp Hps]. constructor; [|done].
    simpl. by rewrite E, Hp.
Qed.

Lemma free_of_skip_bounded sep back n : ∀ s,
  (String.length s ≤ n)%nat →
  Js.free_of sep s = true → Js.free_of sep (Js.skip_white_space back s) = true.
Proof.
  induction n as [|n IH]; intros s Hn Hs.
  - by destruct s; [|simpl in Hn; lia].
  - destruct s as [|a r]; [done|]. simpl in Hn.
    pose proof Hs as Hs0. simpl in Hs. apply andb_prop in Hs as [Ha Hr].
    simpl. destruct (Js.is_white_space a); [apply IH; [lia|done]|].
    destruct r as [|b r1]; [done|]. simpl in Hn.
    pose proof Hr as Hr0. simpl in Hr. apply andb_prop in Hr as [Hb Hr1].
    destruct (if back then _ else _); [apply IH; [lia|done]|].
    destruct r1 as [|c r2]; [done|]. simpl in Hn.
    pose proof Hr1 as Hr10. simpl in Hr1. apply andb_prop in Hr1 as [Hc Hr2].
    destruct (if back then _ else _); [apply IH; [lia|done]|done].
Qed.

Lemma free_of_skip sep back s :
  Js.free_of sep s = true → Js.free_of sep (Js.skip_white_space back s) = true.
Proof. apply (free_of_skip_bounded sep back _ s (le_n _)). Qed.

Lemma free_of_trimStart sep s :
  Js.free_of sep s = true → Js.free_of sep (Js.trimStart s) = true.
Proof. apply free_of_skip. Qed.

Lemma free_of_rev_app sep a b :
  Js.free_of sep (String.rev_app a b) = Js.free_of sep a && Js.free_of sep b.
Proof.
  revert b. induction a as [|c a IH]; intros b; simpl; [done|].
  rewrite IH. simpl. by destruct (Ascii.eqb c sep), (Js.free_of sep a).
Qed.

Lemma free_of_rev sep s : Js.free_of sep (String.rev s) = Js.free_of sep s.
Proof. unfold String.rev. rewrite free_of_rev_app. simpl. apply andb_true_r. Qed.

Lemma free_of_trim sep s :
  Js.free_of sep s = true → Js.free_of sep (Js.trim s) = true.
Proof.
  intros H. unfold Js.trim, Js.trimEnd.
  rewrite free_of_rev. apply free_of_skip. rewrite free_of_rev.
  by apply free_of_trimStart.
Qed.

Lemma extract_uid_free line uid :
  extract_uid line = Some uid → Js.free_of ":" uid = true.
Proof.
  unfold extract_uid.
  destruct (Js.split ":" line !! 1%nat) as [piece|] eqn:E; [|discriminate].
  intros [= <-]. apply free_of_trim.
  pose proof (split_pieces_free ":" line) as Hall.
  rewrite Forall_forall in Hall. apply Hall.
  by eapply list_elem_of_lookup_2.
Qed.

(** X11.  Whatever the line and the state, if the callback of
    [parser.on('data')] suppresses the line as a duplicate of [uid] or
    hands [uid] to [handleCardScan], then the line starts with
    ['RFID Tag UID:'] and [uid] holds no colon: cards are only ever looked
    up, logged and debounced under colon-free identifiers. *)
Theorem X11_uid_has_no_colon t now later line s uid :
  (on_data t now later line s).1 = Returned (Suppressed uid)
  ∨ (on_data t now later line s).1 = Returned (Accepted uid) →
  Js.startsWith line "RFID Tag UID:" = true
  ∧ Js.free_of ":" uid = true.
Proof.
  intros [H|H]; apply on_data_verdict in H as (Hp & He & _);
    (split; [exact Hp|by apply (extract_uid_free line)]).
Qed.

Lemma X11_witness :
  (on_data 0 Sample.morning Sample.morning "RFID Tag UID: AB:CD"
     (init Sample.quiet)).1 = Returned (Accepted "AB")
  ∧ Js.free_of ":" "AB" = true.
Proof.
  assert ((on_data 0 Sample.morning Sample.morning "RFID Tag UID: AB:CD"
             (init Sample.quiet)).1 = Returned (Accepted "AB")) as H
    by (vm_compute; reflexivity).
  split; [exact H|].
  exact (proj2 (X11_uid_has_no_colon 0 Sample.morning Sample.morning
                  "RFID Tag UID: AB:CD" (init Sample.quiet) "AB" (or_intror H))).
Defined.

(** X12.  No timer is leaked and none is missing: in every state the
    server can reach, the pending timers are as many as the uids in
    [scannedRecently], one each. *)
Theorem X12_one_timer_per_remembered_uid w evs s :
  run evs (init w) = Some s →
  length (timers s) = size (scannedRecently s)
  ∧ ∀ u, u ∈ scannedRecently s ↔ ∃ due, (due, u) ∈ timers s.
Proof.
  intros Hrun.
  destruct (filter_inv_run evs (init w) s (filter_inv_init w) Hrun) as [Hset Hnd].
  split.
  - assert (scannedRecently s = list_to_set (timers s).*2) as ->.
    { apply set_eq. intros u. by rewrite elem_of_list_to_set, Hset. }
    rewrite size_list_to_set by done. by rewrite length_fmap.
  - intros u. rewrite Hset, list_elem_of_fmap. split.
    + intros ([due u'] & -> & Hin). by exists due.
    + intros [due Hin]. by exists (due, u).
Qed.

Lemma X12_witness :
  run [(0%Z, Data Sample.morning Sample.morning "RFID Tag UID: AB");
       (10%Z, Data Sample.morning Sample.morning "RFID Tag UID: AB");
       (20%Z, Data Sample.morning Sample.morning "RFID Tag UID: CD");
       (5000%Z, Timeout 0)] (init Sample.quiet)
  = Some (mkServer
            (srv_world
               (default (init Sample.quiet)
                  (run [(0%Z, Data Sample.morning Sample.morning "RFID Tag UID: AB");
                        (10%Z, Data Sample.morning Sample.morning "RFID Tag UID: AB");
                        (20%Z, Data Sample.morning Sample.morning "RFID Tag UID: CD")]
                       (init Sample.quiet))))
            {["CD"]} [(5020%Z, "CD")])
  ∧ length [(5020%Z, "CD")] = size ({["CD"]} : gset string).
Proof.
  assert (run [(0%Z, Data Sample.morning Sample.morning "RFID Tag UID: AB");
               (10%Z, Data Sample.morning Sample.morning "RFID Tag UID: AB");
               (20%Z, Data Sample.morning Sample.morning "RFID Tag UID: CD");
               (5000%Z, Timeout 0)] (init Sample.quiet)
          = Some (mkServer
            (srv_world
               (default (init Sample.quiet)
                  (run [(0%Z, Data Sample.morning Sample.morning "RFID Tag UID: AB");
                        (10%Z, Data Sample.morning Sample.morning "RFID Tag UID: AB");
                        (20%Z, Data Sample.morning Sample.morning "RFID Tag UID: CD")]
                       (init Sample.quiet))))
            {["CD"]} [(5020%Z, "CD")])) as H by (vm_compute; reflexivity).
  split; [exact H|].
  exact (proj1 (X12_one_timer_per_remembered_uid _ _ _ H)).
Defined.

End SerialShapes.

(* ===================================================================== *)
(** * Re-binding, then scanning                                           *)
(* ===================================================================== *)

Section RebindSequences.
Import Db Rt Scan Web.

Ltac rebind_paths :=
  repeat match goal with
  | |- context [match ?fl with [] => _ | _ :: _ => _ end] =>
      is_var fl; destruct fl as [|[] ?]; simpl
  | |- context [match select_uid_taken ?x ?u ?d with [] => _ | _ :: _ => _ end] =>
      destruct (select_uid_taken x u d) eqn:?; simpl
  end.

(** A completed update found the new uid with no other holder. *)
Lemma edit_rfid_update_completed_free req w u :
  present (body_user_id req) = Some u →
  (edit_rfid_update req w).1 = updated_response u →
  ∀ x, present (body_new_uid req) = Some x →
    ∀ r, r ∈ rfid_details (db w) → rf_uid r = x → rf_user_id r = u.
Proof.
  intros Hu. unfold edit_rfid_update, updated_response, release.
  rewrite Hu. destruct w as [d0 tx fl tr]. prog_unfold.
  destruct (present (body_new_uid req)) as [x0|]; simpl; [|by intros].
  rebind_paths; intros Hok x [= <-]; try discriminate Hok;
    by apply select_uid_taken_nil.
Qed.

(** With a working driver and no other holder, the update goes through. *)
Lemma edit_rfid_update_goes_through req w u :
  present (body_user_id req) = Some u →
  no_faults w →
  (∀ x, present (body_new_uid req) = Some x →
     ∀ r, r ∈ rfid_details (db w) → rf_uid r = x → rf_user_id r = u) →
  (edit_rfid_update req w).1 = updated_response u
  ∧ db (edit_rfid_update req w).2
    = rebound u (present (body_new_uid req)) (db w).
Proof.
  intros Hu Hnf Hfree.
  assert (∀ x, present (body_new_uid req) = Some x →
               select_uid_taken x u (db w) = []) as Hsel.
  { intros x Hn. apply select_uid_taken_nil. by apply Hfree. }
  destruct w as [d0 tx fl tr]. simpl in *.
  unfold edit_rfid_update, updated_response, rebound, release.
  rewrite Hu. prog_unfold.
  destruct (present (body_new_uid req)) as [x|]; simpl.
  - pose proof (Hsel x eq_refl) as E.
    repeat (first [pop_ok | use_rows]); done.
  - repeat pop_ok; done.
Qed.

Lemma rebound_old_card_gone u n o d :
  o ≠ n →
  (∀ r, r ∈ rfid_details d → rf_uid r = o → rf_user_id r = u) →
  select_rfid_user o (rebound u (Some n) d) = [].
Proof.
  intros Hne Hold. apply select_rfid_user_unbound.
  rewrite rebound_rows. intros r [[Hu Hr]%list_elem_of_filter|Hr]%elem_of_app Ho.
  - apply Hu. by apply Hold.
  - apply list_elem_of_singleton in Hr as ->. simpl in Ho. by destruct Hne.
Qed.

(** X13.  After a completed update of user [u] to the card [n], the lookup
    of a scan of [n] finds [u] and nobody else; and any other card [o]
    ([o ≠ n]) that only [u] held before is no longer known: with the driver
    working, a scan of it is answered [UNREGISTERED] and changes nothing. *)
Theorem X13_rebound_card_scans_as_its_user req w u n :
  present (body_user_id req) = Some u →
  present (body_new_uid req) = Some n →
  (edit_rfid_update req w).1 = updated_response u →
  let d' := db (edit_rfid_update req w).2 in
  select_rfid_user n d' = [u]
  ∧ ∀ o, o ≠ n →
      (∀ r, r ∈ rfid_details (db w) → rf_uid r = o → rf_user_id r = u) →
      ∀ w' now later,
        db w' = d' → no_faults w' →
        db (handleCardScan o now later w').2 = d'
        ∧ since w' (handleCardScan o now later w').2 =
            [ Issued (SelectRfidUser o) false;
              Emit (scan_event (mkEvent o (Some UNREGISTERED) None None None)) ].
Proof.
  intros Hu Hn Hok d'.
  assert (d' = rebound u (Some n) (db w)) as Hd'.
  { subst d'. destruct (edit_rfid_update_atomic req w u Hu) as [[_ E]|[? _]];
      [by rewrite E, Hn|done]. }
  pose proof (edit_rfid_update_completed_free req w u Hu Hok n Hn) as Hfree.
  split.
  - rewrite Hd'. unfold select_rfid_user.
    by rewrite (rebound_uid_once u n (db w) Hfree).
  - intros o Hne Hold w' now later Hw' Hnf.
    assert (select_rfid_user o (db w') = []) as Hsel
      by (rewrite Hw', Hd'; by apply rebound_old_card_gone).
    destruct (scan_unregistered o now later w' Hnf Hsel) as [E1 E2].
    by rewrite E1, E2.
Qed.

Lemma X13_witness :
  let d' := db (edit_rfid_update Sample.rebind Sample.quiet).2 in
  (present (body_user_id Sample.rebind) = Some "S1"
   ∧ present (body_new_uid Sample.rebind) = Some "EF"
   ∧ (edit_rfid_update Sample.rebind Sample.quiet).1 = updated_response "S1"
   ∧ "AB" ≠ "EF"
   ∧ (∀ r, r ∈ rfid_details (db Sample.quiet) →
           rf_uid r = "AB" → rf_user_id r = "S1")
   ∧ no_faults (edit_rfid_update Sample.rebind Sample.quiet).2)
  ∧ select_rfid_user "EF" d' = ["S1"]
  ∧ db (handleCardScan "AB" Sample.noon Sample.noon
          (edit_rfid_update Sample.rebind Sample.quiet).2).2 = d'
  ∧ since (edit_rfid_update Sample.rebind Sample.quiet).2
      (handleCardScan "AB" Sample.noon Sample.noon
         (edit_rfid_update Sample.rebind Sample.quiet).2).2
    = [ Issued (SelectRfidUser "AB") false;
        Emit (scan_event (mkEvent "AB" (Some UNREGISTERED) None None None)) ].
Proof.
  intros d'.
  assert (present (body_user_id Sample.rebind) = Some "S1") as H1 by reflexivity.
  assert (present (body_new_uid Sample.rebind) = Some "EF") as H2 by reflexivity.
  assert ((edit_rfid_update Sample.rebind Sample.quiet).1 = updated_response "S1")
    as H3 by (vm_compute; reflexivity).
  assert ("AB" ≠ "EF") as H4 by discriminate.
  assert (∀ r, r ∈ rfid_details (db Sample.quiet) →
               rf_uid r = "AB" → rf_user_id r = "S1") as H5.
  { intros r Hr. vm_compute in Hr. in_list Hr; subst r; [reflexivity|discriminate]. }
  assert (no_faults (edit_rfid_update Sample.rebind Sample.quiet).2) as H6
    by by_eval.
  split; [by split_and!|].
  destruct (X13_rebound_card_scans_as_its_user Sample.rebind Sample.quiet
              "S1" "EF" H1 H2 H3) as [Hnew Hold].
  split; [exact Hnew|].
  exact (Hold "AB" H4 H5 _ Sample.noon Sample.noon eq_refl H6).
Defined.

Lemma rebound_twice u n d : rebound u n (rebound u n d) = rebound u n d.
Proof.
  assert (rfid_details (rebound u n (rebound u n d)) = rfid_details (rebound u n d))
    as Hrows.
  { rewrite !rebound_rows. rewrite filter_app, list_filter_filter.
    rewrite (list_filter_iff _ (λ r, rf_user_id r ≠ u)) by tauto.
    rewrite <- app_assoc. f_equal.
    destruct n as [x|]; [|done]. rewrite filter_cons, filter_nil. simpl.
    destruct (decide (u ≠ u)); done. }
  destruct n as [x|]; unfold rebound, insert_rfid, delete_rfid_of, with_rfid in *;
    simpl in *; by rewrite Hrows.
Qed.

(** X14.  Sending a completed update again changes nothing: with the
    driver still working, the second run completes too and leaves the
    database exactly as the first did. *)
Theorem X14_update_twice_is_update_once req w u :
  present (body_user_id req) = Some u →
  (edit_rfid_update req w).1 = updated_response u →
  no_faults (edit_rfid_update req w).2 →
  let w1 := (edit_rfid_update req w).2 in
  (edit_rfid_update req w1).1 = updated_response u
  ∧ db (edit_rfid_update req w1).2 = db w1.
Proof.
  intros Hu Hok Hnf w1.
  assert (db w1 = rebound u (present (body_new_uid req)) (db w)) as Hd1.
  { subst w1. by destruct (edit_rfid_update_atomic req w u Hu) as [[_ E]|[? _]]. }
  pose proof (edit_rfid_update_completed_free req w u Hu Hok) as Hfree.
  destruct (edit_rfid_update_goes_through req w1 u Hu Hnf) as [E1 E2].
  - intros x Hn r Hr Hx. rewrite Hd1, Hn in Hr.
    assert (r ∈ filter (λ r, rf_uid r = x) (rfid_details (rebound u (Some x) (db w))))
      as Hin by (by apply list_elem_of_filter).
    rewrite (rebound_uid_once u x (db w) (Hfree x Hn)) in Hin.
    by apply list_elem_of_singleton in Hin as ->.
  - split; [exact E1|]. rewrite E2, Hd1. apply rebound_twice.
Qed.

Lemma X14_witness :
  (present (body_user_id Sample.rebind) = Some "S1"
   ∧ (edit_rfid_update Sample.rebind Sample.quiet).1 = updated_response "S1"
   ∧ no_faults (edit_rfid_update Sample.rebind Sample.quiet).2)
  ∧ db (edit_rfid_update Sample.rebind
          (edit_rfid_update Sample.rebind Sample.quiet).2).2
    = db (edit_rfid_update Sample.rebind Sample.quiet).2.
Proof.
  assert (present (body_user_id Sample.rebind) = Some "S1") as H1 by reflexivity.
  assert ((edit_rfid_update Sample.rebind Sample.quiet).1 = updated_response "S1")
    as H2 by (vm_compute; reflexivity).
  assert (no_faults (edit_rfid_update Sample.rebind Sample.quiet).2) as H3
    by by_eval.
  split; [by split_and!|].
  exact (proj2 (X14_update_twice_is_update_once Sample.rebind Sample.quiet
                  "S1" H1 H2 H3)).
Defined.

End RebindSequences.

(** ** Registering a card *)

#[local] Arguments Sql.run : simpl never.

Ltac admin_unfold :=
  unfold Sql.run, Rt.try_catch, Rt.bind, Rt.ret, Rt.throw, Rt.console_error,
    Rt.log, Rt.next_fault, Rt.query, Rt.no_faults,
    Scan.getTodayBranchCounts in *;
  simpl in *.

Section Registration.
Import Db Rt Scan Sql Web Admin.

(** The paths of [POST /add] with both fields given. *)
Lemma post_add_paths u x code w :
  present (Some u) = Some u → present (Some x) = Some x →
  ((post_add (Some u) (Some x) code w).1 = Returned registered
   ∧ db (post_add (Some u) (Some x) code w).2 = insert_rfid u x (db w)
   ∧ faults (post_add (Some u) (Some x) code w).2 = tail (faults w))
  ∨ ((∃ url, (post_add (Some u) (Some x) code w).1 = Returned (Redirect url)
             ∧ Redirect url ≠ registered)
     ∧ db (post_add (Some u) (Some x) code w).2 = db w).
Proof.
  intros Hu Hx. unfold post_add. rewrite Hu, Hx.
  destruct w as [d tx fl tr]. admin_unfold.
  destruct fl as [|[] fl]; simpl; [by left| |by left].
  right. repeat (destruct (decide _); simpl); (split; [|done]); eexists; by split.
Qed.

Lemma present_Some s u : present (Some s) = Some u → s = u ∧ present (Some u) = Some u.
Proof.
  unfold present. destruct (Js.truthy s) eqn:E; [|done].
  intros [= <-]. by rewrite E.
Qed.

(** X15.  [POST /add] always answers with a redirect.  It answers
    "Registration successful!" only when both fields were given and not
    empty and the row [(user_id, uid)] was appended to [rfid_details], all
    else being as before; with any other answer the database is as it was.
    When a field is missing or empty no statement is sent at all. *)
Theorem X15_registration_reports_what_it_did user_id uid code w :
  let out := post_add user_id uid code w in
  (∃ url, out.1 = Returned (Redirect url))
  ∧ (out.1 = Returned registered →
     ∃ u x, user_id = Some u ∧ uid = Some x ∧ u ≠ EmptyString ∧ x ≠ EmptyString
            ∧ db out.2 = insert_rfid u x (db w))
  ∧ (out.1 ≠ Returned registered → db out.2 = db w)
  ∧ (present user_id = None ∨ present uid = None →
     out = (Returned (Redirect "/register?error=All fields are required."), w)).
Proof.
  intros out. subst out.
  destruct (present user_id) as [u|] eqn:Hu.
  - destruct (present uid) as [x|] eqn:Hx.
    + destruct user_id as [s|]; [|done]. destruct uid as [s'|]; [|done].
      apply present_Some in Hu as [-> Hu]. apply present_Some in Hx as [-> Hx].
      assert (u ≠ EmptyString ∧ x ≠ EmptyString) as [Hne Hne'].
      { split; intros ->; discriminate. }
      destruct (post_add_paths u x code w Hu Hx)
        as [(E1 & E2 & _)|[(url & E1 & Hurl) E2]]; rewrite E1, E2.
      * split_and!; eauto 10; try done. by intros [|].
      * split_and!; eauto; try done.
        -- intros [= E]. by rewrite E in Hurl.
        -- by intros [|].
    + unfold post_add. rewrite Hu, Hx. unfold ret. simpl.
      split_and!; eauto; done.
  - unfold post_add. rewrite Hu. unfold ret. simpl.
    split_and!; eauto; done.
Qed.

Lemma X15_witness :
  (post_add (Some "S1") (Some "EF") EmptyString Sample.quiet).1
  = Returned registered
  ∧ ∃ u x, Some "S1" = Some u ∧ Some "EF" = Some x
           ∧ u ≠ EmptyString ∧ x ≠ EmptyString
           ∧ db (post_add (Some "S1") (Some "EF") EmptyString Sample.quiet).2
             = insert_rfid u x (db Sample.quiet).
Proof.
  assert ((post_add (Some "S1") (Some "EF") EmptyString Sample.quiet).1
          = Returned registered) as H1 by (vm_compute; reflexivity).
  split; [exact H1|].
  exact (proj1 (proj2 (X15_registration_reports_what_it_did
                         (Some "S1") (Some "EF") EmptyString Sample.quiet)) H1).
Defined.

(** X16.  A card that no row of [rfid_details] held, once [POST /add] has
    answered "Registration successful!" for the user [u], is the card of
    [u] alone.  With the driver working, the next scan of it clocks [u] in
    when [u] has a [users] row and no open session that day; it is answered
    [NO_DETAILS], and nothing is written, when [u] has no [users] row. *)
Theorem X16_registered_card_is_recognised u x code w :
  (post_add (Some u) (Some x) code w).1 = Returned registered →
  (∀ r, r ∈ rfid_details (db w) → rf_uid r ≠ x) →
  let w1 := (post_add (Some u) (Some x) code w).2 in
  select_rfid_user x (db w1) = [u]
  ∧ ∀ w2 now later,
      db w2 = db w1 → no_faults w2 →
      let w3 := (handleCardScan x now later w2).2 in
      ((∃ r, r ∈ users (db w) ∧ u_user_id r = u) →
       (∀ r, r ∈ attendance_log (db w) → ¬ is_open u (currentDate now) r) →
       attendance_log (db w3)
       = attendance_log (db w)
           ++ [mkLog (auto_increment (db w)) u (currentDate now)
                     (currentTime now) None]
       ∧ ∃ details,
           u_user_id (det_user details) = u
           ∧ scan_event (mkEvent x (Some LOGIN) (Some details)
                                 (Some (currentTime now)) None)
             ∈ events_of (since w2 w3))
      ∧ ((∀ r, r ∈ users (db w) → u_user_id r ≠ u) →
         db w3 = db w1
         ∧ events_of (since w2 w3)
           = [scan_event (mkEvent x (Some NO_DETAILS) None None None)]).
Proof.
  intros Hok Hfree w1.
  assert (present (Some u) = Some u ∧ present (Some x) = Some x) as [Hu Hx].
  { unfold post_add in Hok. unfold present in *.
    destruct (Js.truthy u); [|discriminate Hok].
    by destruct (Js.truthy x); [|discriminate Hok]. }
  assert (db w1 = insert_rfid u x (db w)) as Hdb.
  { subst w1. destruct (post_add_paths u x code w Hu Hx)
      as [(_ & E & _)|[(url & E1 & Hurl) _]]; [done|].
    rewrite E1 in Hok. injection Hok as E. by rewrite E in Hurl. }
  assert (select_rfid_user x (db w1) = [u]) as Hsel.
  { rewrite Hdb. unfold select_rfid_user, insert_rfid. simpl.
    rewrite filter_app.
    rewrite (proj2 (filter_nil_iff (λ r, rf_uid r = x) (rfid_details (db w))))
      by (intros r Hr; by apply Hfree).
    simpl. rewrite filter_cons. simpl. by destruct (decide (x = x)). }
  split; [exact Hsel|].
  intros w2 now later Hw2 Hnf w3. split.
  - intros Huser Hnone.
    assert (∃ r, r ∈ users (db w2) ∧ u_user_id r = u) as Huser2
      by (by rewrite Hw2, Hdb).
    destruct (select_user_details_exist _ _ Huser2) as (details & r2 & H2).
    assert (select_open_login u (currentDate now) (db w2) = []) as H3.
    { apply select_open_login_nil. by rewrite Hw2, Hdb. }
    assert (select_rfid_user x (db w2) = [u]) as H1 by (by rewrite Hw2).
    destruct (scan_login x now later w2 _ _ _ _ Hnf H1 H2 H3) as [E1 E2].
    fold w3 in E1, E2. split.
    + by rewrite E1, Hw2, Hdb.
    + exists details. split.
      * assert (details ∈ select_user_details u (db w2)) as Hin
          by (rewrite H2; left).
        unfold select_user_details in Hin.
        apply list_elem_of_bind in Hin as (r & Hin & [Hr _]%list_elem_of_filter).
        apply list_elem_of_bind in Hin as (p & Hin & _).
        apply list_elem_of_bind in Hin as (dep & Hin & _).
        by apply list_elem_of_singleton in Hin as ->.
      * rewrite E2. unfold events_of. simpl. left.
  - intros Hnouser.
    assert (select_rfid_user x (db w2) = [u]) as H1 by (by rewrite Hw2).
    assert (select_user_details u (db w2) = []) as H2.
    { unfold select_user_details.
      rewrite (proj2 (filter_nil_iff (λ r, u_user_id r = u) (users (db w2))));
        [done|].
      intros r Hr. rewrite Hw2, Hdb in Hr. by apply Hnouser. }
    destruct (scan_no_details x now later w2 _ _ Hnf H1 H2) as [E1 E2].
    fold w3 in E1, E2. split; [by rewrite E1|]. by rewrite E2.
Qed.

Lemma X16_witness :
  ((post_add (Some "S1") (Some "EF") EmptyString Sample.quiet).1
     = Returned registered
   ∧ ∀ r, r ∈ rfid_details (db Sample.quiet) → rf_uid r ≠ "EF")
  ∧ select_rfid_user "EF"
      (db (post_add (Some "S1") (Some "EF") EmptyString Sample.quiet).2)
    = ["S1"].
Proof.
  assert ((post_add (Some "S1") (Some "EF") EmptyString Sample.quiet).1
          = Returned registered) as H1 by (vm_compute; reflexivity).
  assert (∀ r, r ∈ rfid_details (db Sample.quiet) → rf_uid r ≠ "EF") as H2.
  { intros r Hr. simpl in Hr. in_list Hr; subst r; discriminate. }
  split; [by split|].
  exact (proj1 (X16_registered_card_is_recognised "S1" "EF" EmptyString
                  Sample.quiet H1 H2)).
Defined.

End Registration.

(** ** Logging in *)

Section Login.
Import Db Rt Web Admin.

(** X17.  [POST /login] answers with the redirect to [/home] exactly when
    both fields are given and not empty, the query and the saving of the
    session went through, and the first row of [credentials] with that
    username holds exactly the password sent.  [req.session.user] is
    assigned in that case, the session save failing or not, and it holds
    the username, role and user id of that row; in every other case it is
    left as it was. *)
Theorem X17_login_needs_the_stored_password
    uname password credentials query_throws save_err session :
  let out := post_login uname password credentials query_throws save_err session in
  let accepted user :=
    ∃ name pw rest,
      uname = Some name ∧ password = Some pw
      ∧ name ≠ EmptyString ∧ pw ≠ EmptyString
      ∧ query_throws = false
      ∧ select_credentials name credentials = user :: rest
      ∧ c_password user = Some pw in
  (out.2 = Redirect "/home" ↔ save_err = false ∧ ∃ user, accepted user)
  ∧ (∀ user, accepted user →
       out.1 = Some (mkSessionUser (c_username user) (c_role user)
                                   (c_user_id user)))
  ∧ ((∀ user, ¬ accepted user) → out.1 = session).
Proof.
  intros out accepted. subst out accepted. unfold post_login, present.
  destruct uname as [name|]; simpl.
  2:{ split_and!; [split; [done|]|..]; try done.
      - by intros (_ & ? & ? & ? & ? & ? & _).
      - by intros ? (? & ? & ? & ? & _). }
  destruct (Js.truthy name) eqn:Hn.
  2:{ assert (name = EmptyString) as -> by (by destruct name).
      split_and!; [split; [done|]|..]; try done.
      - by intros (_ & ? & ? & ? & ? & [= <-] & _ & ? & _).
      - by intros ? (? & ? & ? & [= <-] & _ & ? & _). }
  destruct password as [pw|]; simpl.
  2:{ split_and!; [split; [done|]|..]; try done.
      - by intros (_ & ? & ? & ? & ? & ? & ? & _).
      - by intros ? (? & ? & ? & ? & ? & _). }
  destruct (Js.truthy pw) eqn:Hp.
  2:{ assert (pw = EmptyString) as -> by (by destruct pw).
      split_and!; [split; [done|]|..]; try done.
      - by intros (_ & ? & ? & ? & ? & _ & [= <-] & _ & ? & _).
      - by intros ? (? & ? & ? & _ & [= <-] & _ & ? & _). }
  assert (name ≠ EmptyString ∧ pw ≠ EmptyString) as [Hne Hne']
    by (split; intros ->; discriminate).
  destruct query_throws; simpl.
  { split_and!; [split; [done|]|..]; try done.
    - by intros (_ & ? & ? & ? & ? & _ & _ & _ & _ & ? & _).
    - by intros ? (? & ? & ? & _ & _ & _ & _ & ? & _). }
  destruct (select_credentials name credentials) as [|user rest] eqn:Hsel; simpl.
  { split_and!; [split; [done|]|..]; try done.
    - intros (_ & ? & ? & ? & ? & [= <-] & _ & _ & _ & _ & E & _).
      by rewrite Hsel in E.
    - intros ? (? & ? & ? & [= <-] & _ & _ & _ & _ & E & _).
      by rewrite Hsel in E. }
  destruct (decide (Some pw = c_password user)) as [Hpw|Hpw]; simpl.
  - split_and!.
    + split.
      * destruct save_err; [done|]. intros _. split; [done|].
        exists user, name, pw, rest. by split_and!.
      * by intros [-> _].
    + intros user' (? & ? & ? & [= <-] & _ & _ & _ & _ & E & _).
      rewrite Hsel in E. by injection E as <- _.
    + intros Hno. destruct (Hno user). exists name, pw, rest. by split_and!.
  - split_and!; [split; [done|]|..]; try done.
    + intros (_ & ? & ? & ? & ? & [= <-] & [= <-] & _ & _ & _ & E & E').
      rewrite Hsel in E. injection E as <- _. by rewrite E' in Hpw.
    + intros ? (? & ? & ? & [= <-] & [= <-] & _ & _ & _ & E & E').
      rewrite Hsel in E. injection E as <- _. by rewrite E' in Hpw.
Qed.

Lemma X17_witness :
  (post_login (Some "admin") (Some "secret") Cases.accounts false false None).2
  = Redirect "/home".
Proof.
  apply (proj1 (X17_login_needs_the_stored_password
                  (Some "admin") (Some "secret") Cases.accounts false false None)).
  split; [reflexivity|].
  exists (mkCred "admin" (Some "secret") "admin" None), "admin", "secret", [].
  by split_and!.
Defined.

End Login.

(** ** Looking a card up *)

Section RfidSearch.
Import Db Rt Web Admin.

(** The search only reads. *)
Lemma post_edit_rfid_search_db field w :
  db (post_edit_rfid_search field w).2 = db w.
Proof.
  unfold post_edit_rfid_search. destruct (present field) as [id|]; [|done].
  destruct w as [d tx fl tr]. admin_unfold.
  destruct fl as [|[] fl]; simpl; try done;
    destruct (select_user id d); simpl; try done;
    destruct fl as [|[] fl]; simpl; done.
Qed.

(** The search with a working driver. *)
Lemma post_edit_rfid_search_works id w :
  present (Some id) = Some id → no_faults w →
  (post_edit_rfid_search (Some id) w).1
  = Returned
      match select_user id (db w) with
      | [] => SearchError ("User ID '" +:+ id +:+ "' not found.")
      | user :: _ =>
          SearchFound (mkSearchResult (u_user_id user) (u_user_name user)
                         (u_user_type user) (head (select_uid_of id (db w))))
      end.
Proof.
  intros Hid Hnf. unfold post_edit_rfid_search. rewrite Hid.
  destruct w as [d tx fl tr]. admin_unfold.
  destruct fl as [|b fl]; simpl.
  - by destruct (select_user id d).
  - apply Forall_cons in Hnf as [-> Hnf]. simpl.
    destruct (select_user id d); simpl; [done|].
    destruct fl as [|b fl]; simpl; [done|].
    by apply Forall_cons in Hnf as [-> Hnf].
Qed.

(** X18.  After a completed [POST /edit-rfid/update] for the user [u], a
    search for [u] with the driver working changes nothing and shows what
    the update wrote: the new uid as [currentUid], or [null] when the
    update sent none, beside the first [users] row of [u].  When [u] has no
    [users] row (the update does not look) the search answers "not found",
    although the card is bound. *)
Theorem X18_search_shows_the_card_just_bound req w u :
  present (body_user_id req) = Some u →
  (edit_rfid_update req w).1 = updated_response u →
  let w1 := (edit_rfid_update req w).2 in
  ∀ w2, db w2 = db w1 → no_faults w2 →
    let out := post_edit_rfid_search (Some u) w2 in
    db out.2 = db w1
    ∧ (∀ user rest,
         filter (λ r, u_user_id r = u) (users (db w)) = user :: rest →
         out.1 = Returned (SearchFound
                   (mkSearchResult u (u_user_name user) (u_user_type user)
                                   (present (body_new_uid req)))))
    ∧ (filter (λ r, u_user_id r = u) (users (db w)) = [] →
       out.1 = Returned (SearchError ("User ID '" +:+ u +:+ "' not found."))).
Proof.
  intros Hu Hok w1 w2 Hw2 Hnf out.
  assert (db w1 = rebound u (present (body_new_uid req)) (db w)) as Hd1.
  { subst w1. by destruct (edit_rfid_update_atomic req w u Hu) as [[_ E]|[? _]]. }
  assert (present (Some u) = Some u) as Hu'.
  { unfold present in Hu |- *. destruct (body_user_id req) as [s|]; [|done].
    destruct (Js.truthy s) eqn:E; [|done]. injection Hu as ->. by rewrite E. }
  assert (users (db w2) = users (db w)) as Hus.
  { rewrite Hw2, Hd1. unfold rebound, insert_rfid, delete_rfid_of.
    by destruct (present (body_new_uid req)). }
  assert (head (select_uid_of u (db w2)) = present (body_new_uid req)) as Hcard.
  { unfold select_uid_of. rewrite Hw2, Hd1, rebound_user_once.
    by destruct (present (body_new_uid req)). }
  subst out. split; [by rewrite post_edit_rfid_search_db|].
  rewrite (post_edit_rfid_search_works u w2 Hu' Hnf).
  unfold select_user. rewrite Hus, Hcard. split.
  - intros user rest E. rewrite E.
    assert (user ∈ filter (λ r, u_user_id r = u) (users (db w)))
      as [-> _]%list_elem_of_filter by (rewrite E; left).
    done.
  - by intros ->.
Qed.

Lemma X18_witness :
  (present (body_user_id Sample.rebind) = Some "S1"
   ∧ (edit_rfid_update Sample.rebind Sample.quiet).1 = updated_response "S1"
   ∧ no_faults (edit_rfid_update Sample.rebind Sample.quiet).2)
  ∧ db (post_edit_rfid_search (Some "S1")
          (edit_rfid_update Sample.rebind Sample.quiet).2).2
    = db (edit_rfid_update Sample.rebind Sample.quiet).2.
Proof.
  assert (present (body_user_id Sample.rebind) = Some "S1") as H1 by reflexivity.
  assert ((edit_rfid_update Sample.rebind Sample.quiet).1 = updated_response "S1")
    as H2 by (vm_compute; reflexivity).
  assert (no_faults (edit_rfid_update Sample.rebind Sample.quiet).2) as H3
    by by_eval.
  split; [by split_and!|].
  exact (proj1 (X18_search_shows_the_card_just_bound Sample.rebind Sample.quiet
                  "S1" H1 H2 _ eq_refl H3)).
Defined.

End RfidSearch.

(** ** Deleting a program *)

#[local] Arguments Admin.count_users_of_program : simpl never.
#[local] Arguments Admin.affected_by_delete : simpl never.
#[local] Arguments Admin.delete_program : simpl never.

Section Programs.
Import Db Rt Scan Sql Web Admin Log.

(** The paths of the handler: nothing is written, or nobody was assigned
    and the [DELETE] ran. *)
Lemma post_delete_program_paths programId code w :
  let out := post_delete_program programId code w in
  (db out.2 = db w
   ∧ out.1 ≠ Returned (Redirect "/manage-programs?success=Deleted!")
   ∧ (out.1 = Returned (Redirect "/manage-programs?error=Not found.") →
      count_users_of_program programId (db w) = 0%nat
      ∧ affected_by_delete programId (db w) = 0%nat))
  ∨ (count_users_of_program programId (db w) = 0%nat
     ∧ db out.2 = delete_program programId (db w)
     ∧ out.1 = Returned
         (if decide (0 < affected_by_delete programId (db w))%nat
          then Redirect "/manage-programs?success=Deleted!"
          else Redirect "/manage-programs?error=Not found.")).
Proof.
  destruct w as [d tx fl tr]. unfold post_delete_program. admin_unfold.
  assert (∀ n : nat, ("/manage-programs?error=Cannot delete: " +:+ pretty n
                +:+ " student(s) assigned.")
               ≠ "/manage-programs?error=Not found.") as Hmsg
    by (intros n E; cbv [String.app String.append] in E; discriminate E).
  assert (∀ n : nat, ("/manage-programs?error=Cannot delete: " +:+ pretty n
                +:+ " student(s) assigned.")
               ≠ "/manage-programs?success=Deleted!") as Hmsg'
    by (intros n E; cbv [String.app String.append] in E; discriminate E).
  destruct fl as [|[] fl]; simpl.
  - destruct (decide (0 < count_users_of_program programId d)%nat); simpl.
    + left. split_and!; [done|intros [= E]; by apply Hmsg' in E|intros [= E]; by apply Hmsg in E].
    + right. destruct (decide (0 < affected_by_delete programId d)%nat); simpl; split_and!; first [reflexivity|lia].
  - left. repeat (destruct (decide _); simpl); split_and!; done.
  - destruct (decide (0 < count_users_of_program programId d)%nat); simpl.
    + left. split_and!; [done|intros [= E]; by apply Hmsg' in E|intros [= E]; by apply Hmsg in E].
    + destruct fl as [|[] fl]; simpl.
      * right. destruct (decide (0 < affected_by_delete programId d)%nat); simpl; split_and!; first [reflexivity|lia].
      * left. repeat (destruct (decide _); simpl); split_and!; done.
      * right. destruct (decide (0 < affected_by_delete programId d)%nat); simpl; split_and!; first [reflexivity|lia].
Qed.

Lemma count_users_zero programId d :
  count_users_of_program programId d = 0%nat →
  ∀ u, u ∈ users d → u_program_id u ≠ Some programId.
Proof.
  unfold count_users_of_program. intros H0%length_zero_iff_nil.
  by apply (filter_nil_iff (λ u, u_program_id u = Some programId)).
Qed.

(** The join of the counts does not see a program nobody is assigned to. *)
Lemma student_visits_delete_program today programId d :
  count_users_of_program programId d = 0%nat →
  student_visits today (delete_program programId d) = student_visits today d.
Proof.
  intros H0. pose proof (count_users_zero _ _ H0) as Hnone.
  unfold student_visits, delete_program. simpl.
  apply Forall_bind_ext, Forall_forall. intros al _.
  apply Forall_bind_ext, Forall_forall. intros u [_ Hu]%list_elem_of_filter.
  f_equal. rewrite list_filter_filter. apply list_filter_iff.
  intros p. split; [tauto|]. intros E. split; [done|].
  intros Hp. apply (Hnone u Hu). by rewrite E, Hp.
Qed.

(** X19.  [POST /manage-programs/delete/:id] never deletes a program a
    user is assigned to: with such a user the database stays as it was and
    the answer is not "Deleted!".  Whatever it does, every user's program
    is still in [programs] afterwards if it was before, and the branch
    counts of every day are what they were. *)
Theorem X19_delete_spares_programs_in_use programId code w :
  let out := post_delete_program programId code w in
  ((∃ u, u ∈ users (db w) ∧ u_program_id u = Some programId) →
   db out.2 = db w
   ∧ out.1 ≠ Returned (Redirect "/manage-programs?success=Deleted!"))
  ∧ (assigned_programs_exist (db w) → assigned_programs_exist (db out.2))
  ∧ ∀ today,
      select_branch_counts today (db out.2) = select_branch_counts today (db w).
Proof.
  intros out. subst out.
  destruct (post_delete_program_paths programId code w)
    as [(E & Hno & _)|(H0 & E & _)]; rewrite E.
  - by split_and!.
  - pose proof (count_users_zero _ _ H0) as Hnone. split_and!.
    + intros (u & Hu & Hp). by destruct (Hnone u Hu).
    + intros Hall u p Hu Hp. unfold delete_program in *. simpl in *.
      destruct (Hall u p Hu Hp) as (r & Hr & Hid).
      exists r. split; [|done]. apply list_elem_of_filter. split; [|done].
      rewrite Hid. intros ->. by destruct (Hnone u Hu).
    + intros today. apply select_branch_counts_ext.
      by apply student_visits_delete_program.
Qed.

Lemma X19_witness :
  (∃ u, u ∈ users (db Sample.quiet) ∧ u_program_id u = Some 1%nat)
  ∧ db (post_delete_program 1 EmptyString Sample.quiet).2 = db Sample.quiet.
Proof.
  assert (∃ u, u ∈ users (db Sample.quiet) ∧ u_program_id u = Some 1%nat) as H1.
  { exists Sample.ann. split; [left|reflexivity]. }
  split; [exact H1|].
  exact (proj1 (proj1 (X19_delete_spares_programs_in_use 1 EmptyString
                         Sample.quiet) H1)).
Defined.

(** X20.  The answer of the deletion tells what happened.  After
    "Deleted!" a row had that id, nobody was assigned to it, and
    [programs] is the old table without the rows of that id, all other
    tables being as they were.  After "Not found." no row had that id and
    nothing changed.  After "Deleted!", with the driver working, the same
    request is answered "Not found.". *)
Theorem X20_delete_answer_tells_what_happened programId code w :
  let out := post_delete_program programId code w in
  (out.1 = Returned (Redirect "/manage-programs?success=Deleted!") →
   (∃ r, r ∈ programs (db w) ∧ p_program_id r = programId)
   ∧ (∀ u, u ∈ users (db w) → u_program_id u ≠ Some programId)
   ∧ db out.2 = delete_program programId (db w)
   ∧ (∀ r, r ∈ programs (db out.2) ↔
           r ∈ programs (db w) ∧ p_program_id r ≠ programId)
   ∧ ∀ code' w', db w' = db out.2 → no_faults w' →
       (post_delete_program programId code' w').1
       = Returned (Redirect "/manage-programs?error=Not found."))
  ∧ (out.1 = Returned (Redirect "/manage-programs?error=Not found.") →
     (∀ r, r ∈ programs (db w) → p_program_id r ≠ programId)
     ∧ db out.2 = db w).
Proof.
  intros out. subst out.
  assert (∀ d, affected_by_delete programId d = 0%nat →
               ∀ r, r ∈ programs d → p_program_id r ≠ programId) as Hzero.
  { intros d H0%length_zero_iff_nil.
    by apply (filter_nil_iff (λ p, p_program_id p = programId)). }
  assert (∀ d, (∀ r, r ∈ programs d → p_program_id r ≠ programId) →
               filter (λ p, p_program_id p ≠ programId) (programs d)
               = programs d) as Hsame.
  { intros d Hno. induction (programs d) as [|r l IH]; [done|].
    rewrite filter_cons. destruct (decide _) as [|Hn].
    - f_equal. apply IH. intros; apply Hno. by right.
    - destruct Hn. apply Hno. left. }
  destruct (post_delete_program_paths programId code w)
    as [(E & Hno & Hnf)|(H0 & E & Hr)].
  - split; [by intros ?|]. intros Hr. destruct (Hnf Hr) as [_ Ha].
    rewrite E. split; [by apply Hzero|done].
  - rewrite Hr, E.
    destruct (decide (0 < affected_by_delete programId (db w))%nat) as [Hpos|Hz].
    + split; [intros _|by intros [=]]. split_and!.
      * unfold affected_by_delete in Hpos.
        destruct (filter (λ p, p_program_id p = programId) (programs (db w)))
          as [|r l] eqn:Ef; [simpl in Hpos; lia|].
        assert (r ∈ filter (λ p, p_program_id p = programId) (programs (db w)))
          as [? ?]%list_elem_of_filter by (rewrite Ef; left).
        eauto.
      * by apply count_users_zero.
      * done.
      * intros r. unfold delete_program. simpl. rewrite list_elem_of_filter. tauto.
      * intros code' w' Hw' Hnf.
        assert (count_users_of_program programId (db w') = 0%nat) as Hc.
        { rewrite Hw'. unfold delete_program, count_users_of_program. by simpl. }
        assert (affected_by_delete programId (db w') = 0%nat) as Ha.
        { rewrite Hw'. unfold delete_program, affected_by_delete. simpl.
          apply length_zero_iff_nil, filter_nil_iff.
          by intros r [? _]%list_elem_of_filter. }
        destruct w' as [d' tx fl tr]. simpl in *.
        unfold post_delete_program. admin_unfold.
        destruct fl as [|b fl]; simpl; [rewrite Hc; simpl; by rewrite Ha|].
        apply Forall_cons in Hnf as [-> Hnf]. simpl. rewrite Hc. simpl.
        destruct fl as [|b fl]; simpl; [by rewrite Ha|].
        apply Forall_cons in Hnf as [-> Hnf]. simpl. by rewrite Ha.
    + split; [by intros [=]|intros _].
      assert (affected_by_delete programId (db w) = 0%nat) as Ha by lia.
      pose proof (Hzero _ Ha) as Hno.
      split; [done|]. unfold delete_program, with_programs.
      rewrite (Hsame _ Hno). by destruct (db w).
Qed.

Lemma X20_witness :
  (post_delete_program 2 EmptyString Cases.catalogue).1
  = Returned (Redirect "/manage-programs?success=Deleted!")
  ∧ db (post_delete_program 2 EmptyString Cases.catalogue).2
    = delete_program 2 (db Cases.catalogue).
Proof.
  assert ((post_delete_program 2 EmptyString Cases.catalogue).1
          = Returned (Redirect "/manage-programs?success=Deleted!")) as H1
    by (vm_compute; reflexivity).
  split; [exact H1|].
  destruct (proj1 (X20_delete_answer_tells_what_happened 2 EmptyString
                     Cases.catalogue) H1) as (_ & _ & Hdb & _).
  exact Hdb.
Defined.

End Programs.

(** ** The dashboard *)

#[local] Arguments Admin.select_todays_log : simpl never.

Section DashboardPage.
Import Db Rt Scan Sql Web Admin.

Lemma get_dashboard_paths today later w :
  let out := get_dashboard today later w in
  db out.2 = db w
  ∧ ((∃ counts,
        counts_of later (db w) = Returned counts
        ∧ out.1 = Returned (mkDashboard (select_todays_log today (db w)) counts))
     ∨ out.1 = Returned (mkDashboard [] ∅)).
Proof.
  destruct w as [d tx fl tr]. unfold get_dashboard, counts_of. admin_unfold.
  destruct fl as [|[] fl]; simpl; try (split; [done|by right]).
  - destruct (group_counts _ _) eqn:E; simpl; (split; [done|]); eauto.
  - destruct fl as [|[] fl]; simpl; try (split; [done|by right]);
      destruct (group_counts _ _) eqn:E; simpl; (split; [done|]); eauto.
Qed.

Lemma get_dashboard_works today later w :
  no_faults w →
  (get_dashboard today later w).1
  = Returned match counts_of later (db w) with
             | Returned counts => mkDashboard (select_todays_log today (db w)) counts
             | Thrown _ => mkDashboard [] ∅
             end.
Proof.
  intros Hnf. destruct w as [d tx fl tr]. unfold get_dashboard, counts_of.
  admin_unfold.
  destruct fl as [|b fl]; simpl.
  - by destruct (group_counts _ _).
  - apply Forall_cons in Hnf as [-> Hnf]. simpl.
    destruct fl as [|b fl]; simpl; [by destruct (group_counts _ _)|].
    apply Forall_cons in Hnf as [-> Hnf]. simpl. by destruct (group_counts _ _).
Qed.

(** X21.  The dashboard is all or nothing, and it only reads.  The page is
    either the log of the day together with counts that the grouping made
    of the database, or the empty page: no logs and no counts.  With the
    driver working it is the first when the grouping returns and the
    second when the grouping throws, as it does when the first count row
    has a degree named like a property of [Object.prototype]: such a degree
    blanks the log of the day as well. *)
Theorem X21_dashboard_all_or_nothing today later w :
  let out := get_dashboard today later w in
  db out.2 = db w
  ∧ ((∃ counts,
        counts_of later (db w) = Returned counts
        ∧ out.1 = Returned (mkDashboard (select_todays_log today (db w)) counts))
     ∨ out.1 = Returned (mkDashboard [] ∅))
  ∧ (no_faults w →
     (∀ counts, counts_of later (db w) = Returned counts →
        out.1 = Returned (mkDashboard (select_todays_log today (db w)) counts))
     ∧ (∀ e, counts_of later (db w) = Thrown e →
        out.1 = Returned (mkDashboard [] ∅))
     ∧ (∀ row rows,
          select_branch_counts later (db w) = row :: rows →
          Js.inherited (fc_degree row) = true →
          out.1 = Returned (mkDashboard [] ∅))).
Proof.
  intros out. subst out.
  destruct (get_dashboard_paths today later w) as [Hdb Hpage].
  split_and!; [done..|]. intros Hnf.
  rewrite (get_dashboard_works today later w Hnf). split_and!.
  - by intros counts ->.
  - by intros e ->.
  - intros row rows Hrows Hinh. unfold counts_of. rewrite Hrows.
    rewrite group_counts_cons. unfold push_count.
    rewrite lookup_empty, Hinh. done.
Qed.

Lemma X21_witness :
  no_faults Sample.busy
  ∧ (get_dashboard "2024-01-01" "2024-01-01" Sample.busy).1
    = Returned (mkDashboard (select_todays_log "2024-01-01" (db Sample.busy))
                            {[ "B.Tech" := [mkBranch "CSE" 1] ]}).
Proof.
  assert (no_faults Sample.busy) as H1 by by_eval.
  assert (counts_of "2024-01-01" (db Sample.busy)
          = Returned {[ "B.Tech" := [mkBranch "CSE" 1] ]}) as H2
    by (vm_compute; reflexivity).
  split; [exact H1|].
  exact (proj1 (proj2 (proj2 (X21_dashboard_all_or_nothing "2024-01-01"
                                "2024-01-01" Sample.busy)) H1) _ H2).
Defined.

(** What a scan that broadcast counts did. *)
Lemma scan_broadcast uid now later w cu :
  Emit (counts_update cu) ∈ since w (handleCardScan uid now later w).2 →
  counts_of (currentDate later) (db (handleCardScan uid now later w).2)
  = Returned cu
  ∧ ∃ user_id r1 details r2,
      select_rfid_user uid (db w) = user_id :: r1
      ∧ select_user_details user_id (db w) = details :: r2
      ∧ db (handleCardScan uid now later w).2
        = insert_login user_id (currentDate now) (currentTime now) (db w).
Proof.
  destruct w as [d tx fl tr]. prog_unfold.
  all_paths; trace_norm; intros H; in_list H; injection H as ->.
  all: split; [done|eauto 10].
Qed.

Lemma select_user_details_user user_id d details :
  details ∈ select_user_details user_id d →
  det_user details ∈ users d ∧ u_user_id (det_user details) = user_id.
Proof.
  unfold select_user_details.
  intros (r & Hin & [Hr Hu]%list_elem_of_filter)%list_elem_of_bind.
  apply list_elem_of_bind in Hin as (p & Hin & _).
  apply list_elem_of_bind in Hin as (dep & Hin & _).
  by apply list_elem_of_singleton in Hin as ->.
Qed.

(** X22.  The dashboard agrees with the broadcast.  When a scan has sent
    a [counts_update], a dashboard loaded on the database the scan left,
    with the driver working and the same dates read, shows exactly the
    counts that were sent, and its log of the day has the row of the login:
    the user the card is bound to, the time of the scan, no logout time. *)
Theorem X22_dashboard_shows_the_broadcast uid now later w cu w2 :
  Emit (counts_update cu) ∈ since w (handleCardScan uid now later w).2 →
  db w2 = db (handleCardScan uid now later w).2 →
  no_faults w2 →
  ∃ page,
    (get_dashboard (currentDate now) (currentDate later) w2).1 = Returned page
    ∧ counts page = cu
    ∧ ∃ row, row ∈ logs page
             ∧ head (select_rfid_user uid (db w)) = Some (dr_user_id row)
             ∧ dr_login_time row = currentTime now
             ∧ dr_logout_time row = None.
Proof.
  intros Hemit Hw2 Hnf.
  destruct (scan_broadcast uid now later w cu Hemit)
    as (Hc & user_id & r1 & details & r2 & H1 & H2 & Hdb).
  rewrite (get_dashboard_works _ _ w2 Hnf), Hw2, Hc.
  eexists. split; [reflexivity|]. split; [done|]. simpl.
  destruct (select_user_details_user user_id (db w) details) as [Hu Hid];
    [rewrite H2; left|].
  exists (mkDash user_id (currentTime now) None (u_user_name (det_user details))).
  split_and!; [|by rewrite H1|done..].
  unfold select_todays_log. rewrite merge_sort_Permutation.
  rewrite Hdb. unfold todays_rows, insert_login. simpl.
  rewrite bind_app. apply elem_of_app. right. csimpl. rewrite app_nil_r.
  apply list_elem_of_bind. exists (det_user details). split.
  - destruct (decide (currentDate now = currentDate now)); [left|done].
  - apply list_elem_of_filter. by split.
Qed.

Lemma X22_witness :
  (Emit (counts_update {[ "B.Tech" := [mkBranch "CSE" 1] ]})
     ∈ since Sample.quiet
         (handleCardScan "AB" Sample.morning Sample.morning Sample.quiet).2
   ∧ no_faults (handleCardScan "AB" Sample.morning Sample.morning Sample.quiet).2)
  ∧ ∃ page,
      (get_dashboard "2024-01-01" "2024-01-01"
         (handleCardScan "AB" Sample.morning Sample.morning Sample.quiet).2).1
      = Returned page
      ∧ counts page = {[ "B.Tech" := [mkBranch "CSE" 1] ]}.
Proof.
  assert (Emit (counts_update {[ "B.Tech" := [mkBranch "CSE" 1] ]})
            ∈ since Sample.quiet
                (handleCardScan "AB" Sample.morning Sample.morning Sample.quiet).2)
    as H1.
  { apply list_elem_of_In. vm_compute. auto 10. }
  assert (no_faults (handleCardScan "AB" Sample.morning Sample.morning
                       Sample.quiet).2) as H2 by by_eval.
  split; [by split|].
  destruct (X22_dashboard_shows_the_broadcast "AB" Sample.morning Sample.morning
              Sample.quiet _ _ H1 eq_refl H2) as (page & Hp & Hc & _).
  by exists page.
Defined.

End DashboardPage.

(** ** From the form to the counts *)

#[local] Arguments Admin.insert_student : simpl never.

Section NewStudent.
Import Db Rt Scan Sql Web Admin Log.

(** The form reports success only when the row was written. *)
Lemma post_add_student_manual_paths user_id user_name year program_id code w :
  let out := post_add_student_manual user_id user_name year program_id code w in
  (out.1 = student_added
   ∧ db out.2 = insert_student user_id user_name year program_id (db w))
  ∨ (out.1 ≠ student_added ∧ db out.2 = db w).
Proof.
  destruct w as [d tx fl tr]. unfold post_add_student_manual, student_added.
  admin_unfold.
  destruct fl as [|[] fl]; simpl; [by left| |by left].
  right. by destruct (decide _).
Qed.

(** A user nobody has a log row for does not show in the join of the
    counts. *)
Lemma student_visits_insert_student_row today user_id user_name year program_id d :
  (∀ r, r ∈ attendance_log d → al_user_id r ≠ user_id) →
  student_visits today (insert_student user_id user_name year program_id d)
  = student_visits today d.
Proof.
  intros Hno. unfold student_visits, insert_student. simpl.
  apply Forall_bind_ext, Forall_forall. intros al Hal.
  rewrite filter_app, bind_app.
  rewrite (proj2 (filter_nil_iff (λ u, al_user_id al = u_user_id u) [_])).
  - csimpl. by rewrite app_nil_r.
  - intros u ->%list_elem_of_singleton. simpl. by apply Hno.
Qed.

(** X23.  From the form to the counts.  A student entered through
    [POST /add-student-manual] with a program of the table, whose card is
    then registered through [POST /add], both answered with success: with
    [user_id] and [program_id] keys, a fresh user id, a card nobody held and
    the driver working, the first scan of the card clocks the student in,
    and the visits under any pair [(degree, branch_code)] on any day are
    what they were before the form was sent, plus one for the pair of the
    student's program on the day of the scan. *)
Theorem X23_new_student_is_counted
    user_id user_name year p uid code1 code2 w now later :
  let w1 := (post_add_student_manual user_id user_name year
               (Some (p_program_id p)) code1 w).2 in
  let w2 := (post_add (Some user_id) (Some uid) code2 w1).2 in
  let w3 := (handleCardScan uid now later w2).2 in
  (post_add_student_manual user_id user_name year
     (Some (p_program_id p)) code1 w).1 = student_added →
  (post_add (Some user_id) (Some uid) code2 w1).1 = Returned registered →
  no_faults w2 →
  NoDup (u_user_id <$> users (db w)) →
  (∀ u, u ∈ users (db w) → u_user_id u ≠ user_id) →
  NoDup (p_program_id <$> programs (db w)) →
  p ∈ programs (db w) →
  (∀ r, r ∈ rfid_details (db w) → rf_uid r ≠ uid) →
  (∀ r, r ∈ attendance_log (db w) → al_user_id r ≠ user_id) →
  (∃ details,
     det_user details
     = mkUser user_id "student" user_name year None (Some (p_program_id p)) None
     ∧ scan_event (mkEvent uid (Some LOGIN) (Some details)
                           (Some (currentTime now)) None)
       ∈ events_of (since w2 w3))
  ∧ ∀ k today,
      visits_under k today (db w3)
      = (visits_under k today (db w)
         + (if decide (today = currentDate now ∧ k = (p_degree p, p_branch_code p))
            then 1 else 0))%nat.
Proof.
  intros w1 w2 w3 Hadded Hreg Hnf Hukey Hfresh Hpkey Hp Hcard Hlog.
  set (u := mkUser user_id "student" user_name year None (Some (p_program_id p)) None).
  assert (db w1 = insert_student user_id user_name year (Some (p_program_id p)) (db w))
    as Hd1.
  { subst w1. by destruct (post_add_student_manual_paths user_id user_name year
                 (Some (p_program_id p)) code1 w) as [[_ E]|[? _]]. }
  assert (present (Some user_id) = Some user_id ∧ present (Some uid) = Some uid)
    as [Hu Hx].
  { unfold post_add in Hreg. unfold present in *.
    destruct (Js.truthy user_id); [|discriminate Hreg].
    by destruct (Js.truthy uid); [|discriminate Hreg]. }
  assert (db w2 = insert_rfid user_id uid (db w1)) as Hd2.
  { subst w2. destruct (post_add_paths user_id uid code2 w1 Hu Hx)
      as [(_ & E & _)|[(url & E1 & Hurl) _]]; [done|].
    rewrite E1 in Hreg. injection Hreg as E. by rewrite E in Hurl. }
  assert (users (db w2) = users (db w) ++ [u]) as Hus
    by (by rewrite Hd2, Hd1).
  assert (programs (db w2) = programs (db w)) as Hps by (by rewrite Hd2, Hd1).
  assert (attendance_log (db w2) = attendance_log (db w)) as Hal
    by (by rewrite Hd2, Hd1).
  assert (select_rfid_user uid (db w2) = [user_id]) as H1.
  { rewrite Hd2, Hd1. unfold select_rfid_user, insert_rfid, insert_student. simpl.
    rewrite filter_app.
    rewrite (proj2 (filter_nil_iff (λ r, rf_uid r = uid) (rfid_details (db w))))
      by (intros r Hr; by apply Hcard).
    simpl. rewrite filter_cons. simpl. by destruct (decide (uid = uid)). }
  assert (filter (λ r, u_user_id r = user_id) (users (db w2)) = [u]) as Hrow.
  { rewrite Hus, filter_app.
    rewrite (proj2 (filter_nil_iff (λ r, u_user_id r = user_id) (users (db w))))
      by done.
    simpl. rewrite filter_cons. simpl. by destruct (decide (user_id = user_id)). }
  assert (∃ details r2, select_user_details user_id (db w2) = details :: r2
                        ∧ det_user details = u) as (details & r2 & H2 & Hdet).
  { destruct (select_user_details_exist user_id (db w2)) as (details & r2 & H2).
    - exists u. split; [|done]. rewrite Hus. apply elem_of_app. right. left.
    - exists details, r2. split; [done|].
      assert (details ∈ select_user_details user_id (db w2)) as Hin
        by (rewrite H2; left).
      unfold select_user_details in Hin. rewrite Hrow in Hin.
      apply list_elem_of_bind in Hin as (r & Hin & ->%list_elem_of_singleton).
      apply list_elem_of_bind in Hin as (pr & Hin & _).
      apply list_elem_of_bind in Hin as (dep & Hin & _).
      by apply list_elem_of_singleton in Hin as ->. }
  assert (select_open_login user_id (currentDate now) (db w2) = []) as H3.
  { apply select_open_login_nil. rewrite Hal. intros r Hr [Hid _].
    by apply (Hlog r Hr). }
  destruct (scan_login uid now later w2 _ _ _ _ Hnf H1 H2 H3) as [E1 E2].
  fold w3 in E1, E2. split.
  - exists details. split; [done|]. rewrite E2. unfold events_of. simpl. left.
  - intros k today. unfold visits_under. rewrite E1.
    change user_id with (u_user_id u) at 1.
    rewrite (student_visits_insert_student today _ _ (db w2) u p).
    + assert (student_visits today (db w2) = student_visits today (db w)) as ->.
      { rewrite Hd2, Hd1.
        by apply (student_visits_insert_student_row today user_id user_name
                    year (Some (p_program_id p)) (db w)). }
      rewrite filter_app, length_app. f_equal.
      destruct (decide (currentDate now = today)) as [<-|Hne].
      * rewrite filter_cons, filter_nil.
        destruct (decide ((p_degree p, p_branch_code p) = k)) as [<-|Hk];
          destruct (decide _) as [[_ ?]|Hn]; try done.
        destruct Hn. by split.
      * destruct (decide _) as [[? _]|]; [by destruct Hne|done].
    + rewrite Hus, fmap_app. apply NoDup_app. split_and!; [done| |].
      * intros y (r & -> & Hr)%list_elem_of_fmap Hy. csimpl in Hy.
        apply list_elem_of_singleton in Hy. by apply (Hfresh r Hr).
      * csimpl. apply NoDup_singleton.
    + by rewrite Hps.
    + rewrite Hus. apply elem_of_app. right. left.
    + done.
    + by rewrite Hps.
    + done.
Qed.

Lemma X23_witness :
  let p := mkProgram 1 "B.Tech" "Computer Science" "CSE" in
  let w1 := (post_add_student_manual "S2" "Cy" (Some "1") (Some 1)
               EmptyString Sample.quiet).2 in
  let w2 := (post_add (Some "S2") (Some "EF") EmptyString w1).2 in
  let w3 := (handleCardScan "EF" Sample.morning Sample.morning w2).2 in
  ((post_add_student_manual "S2" "Cy" (Some "1") (Some 1)
      EmptyString Sample.quiet).1 = student_added
   ∧ (post_add (Some "S2") (Some "EF") EmptyString w1).1 = Returned registered
   ∧ no_faults w2
   ∧ NoDup (u_user_id <$> users (db Sample.quiet))
   ∧ (∀ u, u ∈ users (db Sample.quiet) → u_user_id u ≠ "S2")
   ∧ NoDup (p_program_id <$> programs (db Sample.quiet))
   ∧ p ∈ programs (db Sample.quiet)
   ∧ (∀ r, r ∈ rfid_details (db Sample.quiet) → rf_uid r ≠ "EF")
   ∧ (∀ r, r ∈ attendance_log (db Sample.quiet) → al_user_id r ≠ "S2"))
  ∧ visits_under ("B.Tech", "CSE") "2024-01-01" (db w3)
    = (visits_under ("B.Tech", "CSE") "2024-01-01" (db Sample.quiet) + 1)%nat.
Proof.
  intros p w1 w2 w3.
  assert ((post_add_student_manual "S2" "Cy" (Some "1") (Some 1)
             EmptyString Sample.quiet).1 = student_added) as H1
    by (vm_compute; reflexivity).
  assert ((post_add (Some "S2") (Some "EF") EmptyString w1).1
          = Returned registered) as H2 by (vm_compute; reflexivity).
  assert (no_faults w2) as H3 by by_eval.
  assert (NoDup (u_user_id <$> users (db Sample.quiet))) as H4 by by_eval.
  assert (∀ u, u ∈ users (db Sample.quiet) → u_user_id u ≠ "S2") as H5.
  { intros u Hu. simpl in Hu. in_list Hu; subst u; discriminate. }
  assert (NoDup (p_program_id <$> programs (db Sample.quiet))) as H6 by by_eval.
  assert (p ∈ programs (db Sample.quiet)) as H7 by by_eval.
  assert (∀ r, r ∈ rfid_details (db Sample.quiet) → rf_uid r ≠ "EF") as H8.
  { intros r Hr. simpl in Hr. in_list Hr; subst r; discriminate. }
  assert (∀ r, r ∈ attendance_log (db Sample.quiet) → al_user_id r ≠ "S2") as H9.
  { intros r Hr. simpl in Hr. in_list Hr. }
  split; [by split_and!|].
  exact (proj2 (X23_new_student_is_counted "S2" "Cy" (Some "1") p "EF"
                  EmptyString EmptyString Sample.quiet Sample.morning
                  Sample.morning H1 H2 H3 H4 H5 H6 H7 H8 H9)
               ("B.Tech", "CSE") "2024-01-01").
Defined.

End NewStudent.

(** ** The report preview *)

#[local] Arguments Reports.select_report : simpl never.
#[local] Arguments Reports.select_report_counts : simpl never.

Section ReportTotals.
Import Db Rt Sql Web Reports.

(** Counting the elements of a list key by key, over keys without
    repetition, counts the elements that have one of the keys. *)
Lemma sum_of_groups {K} `{EqDecision K} (keys l : list K) :
  NoDup keys →
  sum_list ((λ k, length (filter (λ v, v = k) l)) <$> keys)
  = length (filter (λ v, v ∈ keys) l).
Proof.
  intros Hnd. induction Hnd as [|k keys Hk Hnd IH]; csimpl.
  - rewrite (proj2 (filter_nil_iff (λ v, v ∈ []) l)); [done|].
    intros x _. apply not_elem_of_nil.
  - rewrite IH. clear IH. induction l as [|x l IHl]; [done|].
    rewrite !filter_cons.
    destruct (decide (x = k)) as [->|Hne].
    + destruct (decide (k ∈ keys)); [done|].
      destruct (decide (k ∈ k :: keys)) as [|Hn]; [|destruct Hn; left].
      simpl. by rewrite IHl.
    + destruct (decide (x ∈ keys)) as [Hin|Hin].
      * destruct (decide (x ∈ k :: keys)) as [|Hn]; [|destruct Hn; by right].
        simpl. rewrite <- IHl. lia.
      * destruct (decide (x ∈ k :: keys)) as [[?|?]%elem_of_cons|]; done.
Qed.

Lemma filter_all {A} (P : A → Prop) `{∀ x, Decision (P x)} (l : list A) :
  (∀ x, x ∈ l → P x) → filter P l = l.
Proof.
  intros Hall. induction l as [|x l IH]; [done|]. rewrite filter_cons.
  destruct (decide (P x)) as [|Hn]; [|destruct Hn; apply Hall; left].
  f_equal. apply IH. intros; apply Hall. by right.
Qed.

Lemma sum_of_all_groups {K} `{EqDecision K} (l : list K) :
  sum_list ((λ k, length (filter (λ v, v = k) l)) <$> remove_dups l) = length l.
Proof.
  rewrite sum_of_groups by apply NoDup_remove_dups. f_equal.
  apply filter_all. intros x Hx. by apply elem_of_remove_dups.
Qed.

(** The preview with a working driver. *)
Lemma post_reports_preview_paths user_type start_date end_date w :
  (post_reports_preview user_type start_date end_date w).1
  = Returned (ReportPage user_type
                (select_report user_type start_date end_date (db w))
                (select_report_counts user_type start_date end_date (db w)))
  ∨ (post_reports_preview user_type start_date end_date w).1
    = Returned (ReportRedirect ("/reports/" +:+ template user_type
                                +:+ "?error=Failed to generate report.")).
Proof.
  destruct w as [d tx fl tr]. unfold post_reports_preview. admin_unfold.
  destruct fl as [|[] fl]; simpl; auto;
    destruct fl as [|[] fl]; simpl; auto.
Qed.

Lemma report_rows_sound user_type start_date end_date d r k :
  (r, k) ∈ report_rows user_type start_date end_date d →
  rr_log r ∈ attendance_log d
  ∧ between start_date end_date (al_log_date (rr_log r))
  ∧ ∃ u, u ∈ users d ∧ u_user_id u = al_user_id (rr_log r)
         ∧ u_user_name u = rr_user_name r
         ∧ u_user_type u = (if decide (user_type = Some "student")
                            then "student" else "faculty").
Proof.
  unfold report_rows, student_rows, faculty_rows.
  destruct (decide (user_type = Some "student")).
  all: intros (al & Hin & Hal)%list_elem_of_bind.
  all: apply list_elem_of_bind in Hin as (u & Hin & [Hid Hu]%list_elem_of_filter).
  all: apply list_elem_of_bind in Hin as (g & Hin & _).
  all: destruct (decide _) as [[Ht Hb]|]; [|by apply elem_of_nil in Hin].
  all: apply list_elem_of_singleton in Hin as [= -> ->]; simpl.
  all: split_and!; [done..|]; exists u; by split_and!.
Qed.

(** X24.  The totals of a report add up.  When [POST /reports/preview]
    renders the page, the counts shown sum to the number of rows listed,
    no group is shown twice or with a count of zero, [userType] is the one
    sent, and every row listed is a log row of a day from [start_date] to
    [end_date] of a user of the reported type: faculty for every
    [user_type] other than ['student'], a missing one included. *)
Theorem X24_report_totals_add_up
    user_type start_date end_date w userType reportData visitCounts :
  (post_reports_preview user_type start_date end_date w).1
  = Returned (ReportPage userType reportData visitCounts) →
  userType = user_type
  ∧ sum_list (cr_count <$> visitCounts) = length reportData
  ∧ NoDup (cr_label <$> visitCounts)
  ∧ (∀ c, c ∈ visitCounts → (0 < cr_count c)%nat)
  ∧ ∀ r, r ∈ reportData →
      rr_log r ∈ attendance_log (db w)
      ∧ between start_date end_date (al_log_date (rr_log r))
      ∧ ∃ u, u ∈ users (db w) ∧ u_user_id u = al_user_id (rr_log r)
             ∧ u_user_name u = rr_user_name r
             ∧ u_user_type u = (if decide (user_type = Some "student")
                                then "student" else "faculty").
Proof.
  intros Hpage.
  destruct (post_reports_preview_paths user_type start_date end_date w)
    as [E|E]; rewrite E in Hpage; [|discriminate Hpage].
  injection Hpage as <- <- <-.
  unfold select_report, select_report_counts. cbv zeta.
  set (rows := report_rows user_type start_date end_date (db w)).
  split_and!.
  - done.
  - rewrite <- list_fmap_compose.
    rewrite (merge_sort_Permutation String.le (remove_dups rows.*2)).
    rewrite merge_sort_Permutation, length_fmap.
    rewrite <- (length_fmap snd rows). apply (sum_of_all_groups (rows.*2)).
  - rewrite <- list_fmap_compose.
    match goal with |- NoDup (?f <$> ?l) => assert (f <$> l = l) as -> end.
    { induction (merge_sort _ _) as [|x l IH]; [done|]. csimpl. by rewrite IH. }
    rewrite merge_sort_Permutation. apply NoDup_remove_dups.
  - intros c (k & -> & Hk)%list_elem_of_fmap. simpl.
    rewrite merge_sort_Permutation, elem_of_remove_dups in Hk.
    assert (k ∈ filter (λ v, v = k) rows.*2) as Hin.
    { by apply list_elem_of_filter. }
    destruct (filter (λ v, v = k) rows.*2); [by apply elem_of_nil in Hin|].
    simpl. lia.
  - intros r Hr. rewrite merge_sort_Permutation in Hr.
    apply list_elem_of_fmap in Hr as ([r' k] & -> & Hr). simpl.
    by apply (report_rows_sound user_type start_date end_date (db w) r' k).
Qed.

Lemma X24_witness :
  let reportData :=
    select_report (Some "student") "2024-01-01" "2024-01-31" (db Sample.busy) in
  let visitCounts :=
    select_report_counts (Some "student") "2024-01-01" "2024-01-31"
      (db Sample.busy) in
  (post_reports_preview (Some "student") "2024-01-01" "2024-01-31" Sample.busy).1
  = Returned (ReportPage (Some "student") reportData visitCounts)
  ∧ sum_list (cr_count <$> visitCounts) = length reportData.
Proof.
  intros reportData visitCounts.
  assert ((post_reports_preview (Some "student") "2024-01-01" "2024-01-31"
             Sample.busy).1
          = Returned (ReportPage (Some "student") reportData visitCounts)) as H1
    by (vm_compute; reflexivity).
  split; [exact H1|].
  exact (proj1 (proj2 (X24_report_totals_add_up (Some "student") "2024-01-01"
                         "2024-01-31" Sample.busy _ _ _ H1))).
Defined.

End ReportTotals.

(** ** The route table *)

Section RouteTable.
Import Db Rt Web.

Ltac route_shape H :=
  repeat match type of H with
  | context [match ?l with [] => _ | _ :: _ => _ end] =>
      is_var l; destruct l as [|? ?]; simpl in H;
      rewrite ?andb_false_r in H; try discriminate H
  end.

Ltac route_facts H :=
  repeat match type of H with
  | (_ && _)%bool = true =>
      let H1 := fresh "Hseg" in
      apply andb_prop in H as [H1 H];
      try (apply bool_decide_eq_true in H1)
  end.

Lemma route_found req r :
  r ∈ routes → matches r req = true → find_route req = Some r.
Proof.
  intros Hr Hm. destruct req as [m path su b1 b2].
  unfold find_route, matches in *. simpl in *.
  set (segs := Js.split "/" (strip_slash path)) in *. clearbody segs.
  unfold routes, public_routes, admin_routes in Hr. simpl in Hr.
  in_list Hr; subst r; simpl in Hm.
  all: apply andb_prop in Hm as [Hmeth Hm];
       apply bool_decide_eq_true in Hmeth; subst m.
  all: route_shape Hm; route_facts Hm.
  all: repeat match goal with
       | H : _ = Js.toLowerCase _ |- _ => rewrite <- H; clear H
       | H : Js.truthy _ = true |- _ => rewrite H; clear H
       end.
  all: vm_compute; reflexivity.
Qed.

(** X25.  No registration shadows another.  A request that matches a
    registered route is served by that route and matches no other, so the
    order of the registrations does not matter; a request that matches a
    route of the admin section and carries no session user is therefore
    always answered by the guard, with the redirect to [/login]. *)
Theorem X25_matching_route_is_the_one_served req r :
  r ∈ routes → matches r req = true →
  find_route req = Some r
  ∧ (∀ r', r' ∈ routes → matches r' req = true → r' = r)
  ∧ (r ∈ admin_routes → session_user req = None →
     dispatch req
     = Some (r, Ends (Redirect "/login?error=Please login to access this page."))).
Proof.
  intros Hr Hm. pose proof (route_found req r Hr Hm) as Hfound. split_and!.
  - done.
  - intros r' Hr' Hm'. pose proof (route_found req r' Hr' Hm') as Hfound'.
    rewrite Hfound in Hfound'. by injection Hfound' as ->.
  - intros Hadmin Hs. unfold dispatch. rewrite Hfound.
    rewrite run_chain_no_session; [done..|]. by apply admin_routes_guarded.
Qed.

Lemma X25_witness :
  (mkRoute GET "/home" [IsAuthenticated] ∈ routes
   ∧ matches (mkRoute GET "/home" [IsAuthenticated]) Sample.visitor = true)
  ∧ find_route Sample.visitor = Some (mkRoute GET "/home" [IsAuthenticated]).
Proof.
  assert (mkRoute GET "/home" [IsAuthenticated] ∈ routes) as H1
    by (apply elem_of_app; right; left).
  assert (matches (mkRoute GET "/home" [IsAuthenticated]) Sample.visitor = true)
    as H2 by reflexivity.
  split; [by split|].
  exact (proj1 (X25_matching_route_is_the_one_served Sample.visitor _ H1 H2)).
Defined.

End RouteTable.
